(** * SandGraphX: the trading decision engine and the shared LLM manager

    A shallow embedding of
      - [sandgraph/core/llm_interface.py]: [LLMResponse], [MockLLM],
        [HuggingFaceLLM.generate], [SharedLLMManager];
      - [demo/trading_demo.py]: [LLMDecisionMaker] (prompt construction,
        response parsing, rule-based fallback, capped histories).

    Conventions.
      - Python numbers (int and float) are rationals [Q]: arithmetic is
        exact, and there is no infinity or NaN.  [float()] of a text
        rounds to the nearest double.
      - A Python [str] is a [string] of bytes holding its UTF-8 encoding.
        Substring tests on well-formed UTF-8 agree with tests on code
        points; the regular expression is matched on the code points.  The builtins whose result depends on Unicode tables or on
        number formatting ([strip], [upper], [split], [len], slicing,
        [str()]) are the methods of the class [StrOps]; the development
        is parametric in them and [AsciiStr] is an executable instance.
      - A Python [dict] that is iterated is an association list in
        insertion order ([dict]); a dict that is only looked up or merged
        is a [gmap].
      - Exceptions are values: fallible code returns [Exc A].  State is
        passed explicitly.  Clocks, the tokenizer, the model and the
        generation service are inputs of the functions that consult them.
      - Locks and logging are not modelled (one thread of control). *)

From Stdlib Require Import QArith Qabs Lqa ZArith NArith String Ascii List Lia Bool.
From stdpp Require Import gmap strings list fin_maps sorting.

Open Scope string_scope.

(** ** Python prelude *)

Module Py.

(** Exceptions, as far as the two source files can raise them. *)
Inductive ExcType :=
| IndexError | KeyError | ValueError | TypeError | ZeroDivisionError
| NameError | RuntimeError.

Record PyException := mkExc { exc_type : ExcType; exc_msg : string }.

Inductive Exc (A : Type) : Type :=
| Ok (a : A)
| Raise (e : PyException).
Arguments Ok {A} a.
Arguments Raise {A} e.

Definition bind {A B} (m : Exc A) (k : A -> Exc B) : Exc B :=
  match m with
  | Ok a => k a
  | Raise e => Raise e
  end.

Definition exc_map {A B} (f : A -> B) (m : Exc A) : Exc B :=
  bind m (fun a => Ok (f a)).

Definition is_ok {A} (m : Exc A) : bool :=
  match m with Ok _ => true | Raise _ => false end.

Declare Scope exc_scope.
Delimit Scope exc_scope with exc.
Notation "'let!' x ':=' m 'in' k" := (bind m (fun x => k))
  (at level 10, x pattern, m at level 100, k at level 200) : exc_scope.
Open Scope exc_scope.

(** Numbers.  [x < y] as a boolean test; [min(a, b)] keeps its first
    argument unless the second is strictly smaller. *)
Definition Qltb (x y : Q) : bool := negb (Qle_bool y x).

Definition py_min (a b : Q) : Q := if Qltb b a then b else a.

Definition Q_of_nat (n : nat) : Q := inject_Z (Z.of_nat n).

(** Strings. *)

(** [needle in hay]. *)
Fixpoint str_in (needle hay : string) : bool :=
  String.prefix needle hay
  || match hay with
     | EmptyString => false
     | String _ rest => str_in needle rest
     end.

Definition str_empty (s : string) : bool :=
  match s with EmptyString => true | String _ _ => false end.

(** The string builtins that are left abstract. *)
Class StrOps := {
  str_strip : string -> string;          (* s.strip() *)
  str_upper : string -> string;          (* s.upper() *)
  str_split : string -> list string;     (* s.split() *)
  str_len : string -> nat;               (* len(s) *)
  str_take : nat -> string -> string;    (* s[:n] *)
  str_of_Q : Q -> string                 (* str(x), f"{x}" *)
}.

(** An executable instance: ASCII white space, ASCII letters, bytes for
    characters.  It agrees with Python on ASCII text, and for [strip] and
    [upper] on any text whose other characters are neither white space nor
    cased letters (CJK text for one).  Numbers print as
    numerator/denominator. *)
Module Ascii7.

Definition is_space (c : ascii) : bool :=
  let n := nat_of_ascii c in
  ((9 <=? n)%nat && (n <=? 13)%nat) || ((28 <=? n)%nat && (n <=? 32)%nat).

Fixpoint lstrip (s : string) : string :=
  match s with
  | EmptyString => EmptyString
  | String c rest => if is_space c then lstrip rest else s
  end.

Fixpoint rstrip (s : string) : string :=
  match s with
  | EmptyString => EmptyString
  | String c rest =>
      match rstrip rest with
      | EmptyString => if is_space c then EmptyString else String c EmptyString
      | r => String c r
      end
  end.

Definition strip (s : string) : string := rstrip (lstrip s).

Definition upper_char (c : ascii) : ascii :=
  let n := nat_of_ascii c in
  if (97 <=? n)%nat && (n <=? 122)%nat then ascii_of_nat (n - 32) else c.

Fixpoint upper (s : string) : string :=
  match s with
  | EmptyString => EmptyString
  | String c rest => String (upper_char c) (upper rest)
  end.

(** [split()]: the maximal runs of non-space characters. *)
Fixpoint split_aux (cur : string) (s : string) : list string :=
  match s with
  | EmptyString => if str_empty cur then [] else [cur]
  | String c rest =>
      if is_space c
      then (if str_empty cur then split_aux EmptyString rest
            else cur :: split_aux EmptyString rest)
      else split_aux (cur ++ String c EmptyString) rest
  end.

Definition split (s : string) : list string := split_aux EmptyString s.

Fixpoint take (n : nat) (s : string) : string :=
  match n, s with
  | S n', String c rest => String c (take n' rest)
  | _, _ => EmptyString
  end.

Definition digit_char (n : nat) : ascii := ascii_of_nat (48 + n).

Fixpoint show_nat_aux (fuel n : nat) (acc : string) : string :=
  match fuel with
  | O => acc
  | S fuel' =>
      let acc' := String (digit_char (n mod 10)) acc in
      if (n <? 10)%nat then acc' else show_nat_aux fuel' (n / 10) acc'
  end.

Definition show_nat (n : nat) : string := show_nat_aux (S n) n EmptyString.

Definition show_Z (z : Z) : string :=
  if (z <? 0)%Z then "-" ++ show_nat (Z.abs_nat z) else show_nat (Z.abs_nat z).

Definition show_Q (q : Q) : string :=
  show_Z (Qnum q) ++ "/" ++ show_nat (Pos.to_nat (Qden q)).

End Ascii7.

#[export] Instance AsciiStr : StrOps := {|
  str_strip := Ascii7.strip;
  str_upper := Ascii7.upper;
  str_split := Ascii7.split;
  str_len := String.length;
  str_take := Ascii7.take;
  str_of_Q := Ascii7.show_Q
|}.

(** [re.search(r'(\d+(?:\.\d+)?)', s)] and [float(m.group(1))].  The
    pattern is searched in the code points of the text, and [\d] is any
    decimal digit of Unicode. *)

(** The code points of a [str], read from its UTF-8 bytes: one to four
    bytes each.  A byte that starts no well-formed sequence is passed on
    as it is. *)
Definition continuation (b : ascii) : bool :=
  let n := N_of_ascii b in ((128 <=? n) && (n <? 192))%N.

Fixpoint utf8_decode (s : string) : list N :=
  match s with
  | EmptyString => []
  | String b1 r1 =>
      let n1 := N_of_ascii b1 in
      let single := n1 :: utf8_decode r1 in
      if (n1 <? 192)%N then single
      else
        match r1 with
        | String b2 r2 =>
            let n2 := N_of_ascii b2 in
            if negb (continuation b2) then single
            else if (n1 <? 224)%N
            then ((n1 - 192) * 64 + (n2 - 128))%N :: utf8_decode r2
            else
              match r2 with
              | String b3 r3 =>
                  let n3 := N_of_ascii b3 in
                  if negb (continuation b3) then single
                  else if (n1 <? 240)%N
                  then ((n1 - 224) * 4096 + (n2 - 128) * 64 + (n3 - 128))%N
                         :: utf8_decode r3
                  else
                    match r3 with
                    | String b4 r4 =>
                        let n4 := N_of_ascii b4 in
                        if continuation b4
                        then ((n1 - 240) * 262144 + (n2 - 128) * 4096
                              + (n3 - 128) * 64 + (n4 - 128))%N
                               :: utf8_decode r4
                        else single
                    | EmptyString => single
                    end
              | EmptyString => single
              end
        | EmptyString => single
        end
  end.

(** The decimal digits of Unicode 14.0 (category Nd), which [\d] matches
    and [float()] reads: 66 runs of ten code points, each from its zero
    to its nine. *)
Definition decimal_zeros : list N :=
  [48; 1632; 1776; 1984; 2406; 2534; 2662; 2790; 2918; 3046; 3174; 3302;
   3430; 3558; 3664; 3792; 3872; 4160; 4240; 6112; 6160; 6470; 6608; 6784;
   6800; 6992; 7088; 7232; 7248; 42528; 43216; 43264; 43472; 43504; 43600;
   44016; 65296; 66720; 68912; 69734; 69872; 69942; 70096; 70384; 70736;
   70864; 71248; 71360; 71472; 71904; 72016; 72784; 73040; 73120; 92768;
   92864; 93008; 120782; 120792; 120802; 120812; 120822; 123200; 123632;
   125264; 130032]%N.

(** [unicodedata.decimal(c)], [None] for a character that is no decimal
    digit. *)
Definition decimal_value (c : N) : option Z :=
  match List.find (fun zero => (zero <=? c) && (c <? zero + 10))%N
                  decimal_zeros with
  | Some zero => Some (Z.of_N (c - zero))
  | None => None
  end.

Definition is_digit (c : N) : bool :=
  match decimal_value c with Some _ => true | None => false end.

Definition digit_value (c : N) : Z := default 0%Z (decimal_value c).

(** The longest prefix of digits, and what follows it. *)
Fixpoint span_digits (s : list N) : list N * list N :=
  match s with
  | [] => ([], [])
  | c :: rest =>
      if is_digit c
      then let '(ds, tl) := span_digits rest in (c :: ds, tl)
      else ([], s)
  end.

(** A match of the pattern: the integer digits and the digits after the
    point, empty when the optional group did not match. *)
Record NumberMatch := { int_digits : list N; frac_digits : list N }.

(** U+002E, the point of the pattern. *)
Definition full_stop : N := 46%N.

(** The match that starts at the head of [s], which is a digit. *)
Definition match_number_at (s : list N) : NumberMatch :=
  let '(ds, tl) := span_digits s in
  match tl with
  | c :: tl' =>
      if (c =? full_stop)%N
      then let '(fs, _) := span_digits tl' in
           {| int_digits := ds; frac_digits := fs |}
      else {| int_digits := ds; frac_digits := [] |}
  | [] => {| int_digits := ds; frac_digits := [] |}
  end.

(** Leftmost match. *)
Fixpoint re_search_number (s : list N) : option NumberMatch :=
  match s with
  | [] => None
  | c :: rest =>
      if is_digit c then Some (match_number_at s) else re_search_number rest
  end.

Definition digits_value (ds : list N) : Z :=
  fold_left (fun acc c => (acc * 10 + digit_value c)%Z) ds 0%Z.

(** The number the matched text writes. *)
Definition decimal_of_match (m : NumberMatch) : Q :=
  Qmake (digits_value (int_digits m ++ frac_digits m))
        (Z.to_pos (10 ^ Z.of_nat (length (frac_digits m)))).

(** The integer nearest to [a / b], the even one of two that are equally
    near ([0 <= a], [0 < b]). *)
Definition round_half_even (a b : Z) : Z :=
  let k := (a / b)%Z in
  match (2 * (a mod b) ?= b)%Z with
  | Lt => k
  | Gt => (k + 1)%Z
  | Eq => if Z.even k then k else (k + 1)%Z
  end.

(** [floor(log2(n / d))] for positive [n] and [d]. *)
Definition binade (n d : Z) : Z :=
  let e := (Z.log2 n - Z.log2 d)%Z in
  if (d * 2 ^ Z.log2 n <=? n * 2 ^ Z.log2 d)%Z then e else (e - 1)%Z.

(** The double nearest to a rational that is not negative: 53 bits, ties
    to even, gradual underflow below [2^-1022].  Python's [inf], for a
    number that rounds beyond the largest double, is not a rational: see
    [float_overflows]. *)
Definition float_round (q : Q) : Q :=
  let n := Qnum q in
  let d := Zpos (Qden q) in
  if (n <=? 0)%Z then 0%Q
  else
    let shift := Z.max (binade n d - 52) (-1074) in
    if (0 <=? shift)%Z
    then inject_Z (round_half_even n (d * 2 ^ shift) * 2 ^ shift)
    else Qred (Qmake (round_half_even (n * 2 ^ (- shift)) d)
                     (Z.to_pos (2 ^ (- shift)))).

(** The numbers from [2^1024 - 2^970] on round beyond the largest
    double. *)
Definition float_overflows (q : Q) : bool :=
  Qle_bool (inject_Z (2 ^ 1024 - 2 ^ 970)) q.

(** [float(m.group(1))] *)
Definition float_of_match (m : NumberMatch) : Q :=
  float_round (decimal_of_match m).

(** Iterated dicts: association lists in insertion order. *)
Definition dict (V : Type) : Type := list (string * V).

Fixpoint dict_get {V} (k : string) (d : dict V) : option V :=
  match d with
  | [] => None
  | (k', v) :: rest => if String.eqb k k' then Some v else dict_get k rest
  end.

Definition dict_keys {V} (d : dict V) : list string := map fst d.

(** [seq[-n:]] for a positive [n]. *)
Definition last_n {A} (n : nat) (l : list A) : list A :=
  drop (length l - n) l.

End Py.

(** ** sandgraph/core/llm_interface.py *)

Module LLMInterface.
Import Py.

Inductive LLMBackend :=
| MOCK | GPT2 | LLAMA | QWEN | MISTRAL | GEMMA | PHI | YI | CHATGLM
| BAICHUAN | INTERNLM | FALCON | OPENAI_API | HUGGINGFACE.

(** [backend.value] *)
Definition backend_value (b : LLMBackend) : string :=
  match b with
  | MOCK => "mock" | GPT2 => "gpt2" | LLAMA => "llama" | QWEN => "qwen"
  | MISTRAL => "mistral" | GEMMA => "gemma" | PHI => "phi" | YI => "yi"
  | CHATGLM => "chatglm" | BAICHUAN => "baichuan" | INTERNLM => "internlm"
  | FALCON => "falcon" | OPENAI_API => "openai_api"
  | HUGGINGFACE => "huggingface"
  end.

(** The values that travel in keyword arguments, node configurations and
    response metadata. *)
Inductive Value :=
| VNone
| VBool (b : bool)
| VNum (q : Q)
| VStr (s : string).

(** [**kwargs], a node's ["config"], [LLMResponse.metadata]. *)
Abbreviation Kwargs := (gmap string Value).

(** [kwargs.get(key, default)] *)
Definition kwargs_get (kwargs : Kwargs) (key : string) (dflt : Value) : Value :=
  default dflt (kwargs !! key).

Definition VNat (n : nat) : Value := VNum (Q_of_nat n).

(** [f"{v}"] *)
Definition str_of_value `{StrOps} (v : Value) : string :=
  match v with
  | VNone => "None"
  | VBool true => "True"
  | VBool false => "False"
  | VNum q => str_of_Q q
  | VStr s => s
  end.

Record LLMResponse := {
  text : string;
  confidence : Q;
  reasoning : string;
  metadata : Kwargs          (* [None] becomes [{}] in [__post_init__] *)
}.

Record LLMConfig := {
  cfg_backend : LLMBackend;
  cfg_model_name : string;
  cfg_max_length : Q;
  cfg_temperature : Q;
  cfg_top_p : Q;
  cfg_top_k : Q;
  cfg_do_sample : bool;
  cfg_use_cache : bool
}.

(** [class BaseLLM(ABC)]: what the manager needs of a backend. *)
Class BaseLLM (L : Type) := {
  generate : L -> string -> Kwargs -> L * Exc LLMResponse;
  model_name : L -> string;
  backend : L -> LLMBackend
}.

(** *** MockLLM *)

Record MockLLM := {
  mock_config : LLMConfig;
  mock_generation_count : nat;
  mock_update_count : nat;
  mock_model_loaded : bool
}.

Definition reasoning_template (kind : string) : string :=
  if String.eqb kind "mathematical"
  then "数学推理：分析问题 → 建立方程 → 求解 → 验证"
  else if String.eqb kind "strategic"
  then "策略推理：目标分析 → 选项评估 → 风险评估 → 最优选择"
  else if String.eqb kind "creative"
  then "创造性推理：问题理解 → 发散思考 → 方案生成 → 可行性评估"
  else "逻辑推理：前提分析 → 规则应用 → 结论推导 → 一致性检查".

Definition mock_generate `{StrOps}
    (m : MockLLM) (prompt : string) (kwargs : Kwargs)
  : MockLLM * Exc LLMResponse :=
  (* if not self.model_loaded: self.load_model() *)
  let generation_count := S (mock_generation_count m) in
  let m := {| mock_config := mock_config m;
              mock_generation_count := generation_count;
              mock_update_count := mock_update_count m;
              mock_model_loaded := true |} in
  let cfg := mock_config m in
  let temperature := kwargs_get kwargs "temperature" (VNum (cfg_temperature cfg)) in
  let max_length := kwargs_get kwargs "max_length" (VNum (cfg_max_length cfg)) in
  let reasoning_type := kwargs_get kwargs "reasoning_type" (VStr "logical") in
  let updates := Q_of_nat (mock_update_count m) in
  let '(reasoning, response_text, confidence) :=
    if str_in "数学" prompt || str_in "计算" prompt || str_in "24点" prompt
    then (reasoning_template "mathematical",
          "基于数学推理，我分析了问题并得出结论。温度参数: " ++ str_of_value temperature,
          0.8 + updates * 0.01)%Q
    else if str_in "策略" prompt || str_in "规划" prompt || str_in "选择" prompt
    then (reasoning_template "strategic",
          "通过策略分析，我制定了最优方案。参数更新次数: " ++ str_of_Q updates,
          0.7 + updates * 0.015)%Q
    else if str_in "创新" prompt || str_in "创造" prompt
    then (reasoning_template "creative",
          "运用创造性思维，我提出了新的解决方案。",
          0.6 + updates * 0.02)%Q
    else (reasoning_template "logical",
          "通过逻辑推理，我得出了合理的结论。生成次数: "
            ++ str_of_Q (Q_of_nat generation_count),
          0.75 + updates * 0.012)%Q in
  let confidence := py_min 0.95 confidence in
  (m, Ok {| text := response_text;
            confidence := confidence;
            reasoning := reasoning;
            metadata :=
              <["backend" := VStr (backend_value (cfg_backend cfg))]>
              (<["generation_count" := VNat generation_count]>
              (<["update_count" := VNat (mock_update_count m)]>
              (<["temperature" := temperature]>
              (<["max_length" := max_length]>
              (<["reasoning_type" := reasoning_type]>
              (<["prompt_length" := VNat (str_len prompt)]> ∅)))))) |}).

#[export] Instance MockLLM_BaseLLM `{StrOps} : BaseLLM MockLLM := {|
  generate := mock_generate;
  model_name := fun m => cfg_model_name (mock_config m);
  backend := fun m => cfg_backend (mock_config m)
|}.

(** *** HuggingFaceLLM *)

(** What torch and transformers do for one call of [generate]. *)
Record HFRuntime := {
  (* [load_model]: [None] when the tokenizer and the model load *)
  rt_load_model : option PyException;
  (* [tokenizer.encode(prompt, ...)], as [inputs.shape[1]] *)
  rt_encode : string -> Exc nat;
  (* [inputs.to(self.device)] *)
  rt_to_device : Exc unit;
  rt_eos_token_id : Value;
  (* [model.generate(inputs, **generation_kwargs)], as [outputs.shape],
     with the seconds it took *)
  rt_model_generate : nat -> Kwargs -> Exc (nat * nat * Q);
  (* [tokenizer.decode(outputs[0], skip_special_tokens=True)] *)
  rt_decode : Exc string;
  rt_device : string
}.

Record HuggingFaceLLM := {
  hf_config : LLMConfig;
  hf_generation_count : nat;
  hf_update_count : nat;
  hf_model_loaded : bool;
  hf_runtime : HFRuntime
}.

Definition hf_set_loaded (hf : HuggingFaceLLM) : HuggingFaceLLM :=
  {| hf_config := hf_config hf;
     hf_generation_count := hf_generation_count hf;
     hf_update_count := hf_update_count hf;
     hf_model_loaded := true;
     hf_runtime := hf_runtime hf |}.

Definition hf_count_generation (hf : HuggingFaceLLM) : HuggingFaceLLM :=
  {| hf_config := hf_config hf;
     hf_generation_count := S (hf_generation_count hf);
     hf_update_count := hf_update_count hf;
     hf_model_loaded := hf_model_loaded hf;
     hf_runtime := hf_runtime hf |}.

(** [load_model]: returns at once when loaded; re-raises what loading
    raised. *)
Definition load_model (hf : HuggingFaceLLM) : HuggingFaceLLM * Exc unit :=
  if hf_model_loaded hf then (hf, Ok tt)
  else match rt_load_model (hf_runtime hf) with
       | Some e => (hf, Raise e)
       | None => (hf_set_loaded hf, Ok tt)
       end.

(** The responses of the failure paths: confidence 0.0 and an ["error"]
    entry in the metadata. *)
Definition error_response (hf : HuggingFaceLLM)
    (message reason error : string) : LLMResponse :=
  {| text := message;
     confidence := 0;
     reasoning := reason;
     metadata :=
       <["backend" := VStr (backend_value (cfg_backend (hf_config hf)))]>
       (<["error" := VStr error]>
       (<["generation_count" := VNat (hf_generation_count hf)]> ∅)) |}.

(** [min(kwargs["max_length"], n)] *)
Definition min_value (v : Value) (n : Q) : Exc Value :=
  match v with
  | VNum q => Ok (VNum (py_min q n))
  | VBool b => Ok (VNum (py_min (if b then 1 else 0) n))
  | VStr _ | VNone =>
      Raise (mkExc TypeError "'<' not supported between instances")
  end.

(** The body of the [try] of [generate]. *)
Definition hf_generate_body `{StrOps}
    (hf : HuggingFaceLLM) (prompt : string) (kwargs : Kwargs)
  : Exc LLMResponse :=
  let rt := hf_runtime hf in
  let cfg := hf_config hf in
  if str_empty prompt || str_empty (str_strip prompt)
  then Ok (error_response hf "输入为空，无法生成响应" "输入验证失败" "Empty input")
  else
    let temperature := kwargs_get kwargs "temperature" (VNum (cfg_temperature cfg)) in
    let max_length := kwargs_get kwargs "max_length" (VNum (cfg_max_length cfg)) in
    let top_p := kwargs_get kwargs "top_p" (VNum (cfg_top_p cfg)) in
    let top_k := kwargs_get kwargs "top_k" (VNum (cfg_top_k cfg)) in
    let do_sample := kwargs_get kwargs "do_sample" (VBool (cfg_do_sample cfg)) in
    let max_input_length := 1024%nat in
    let prompt :=
      if (max_input_length * 4 <? str_len prompt)%nat
      then str_take (max_input_length * 4) prompt else prompt in
    match rt_encode rt prompt with
    | Raise tokenize_error =>
        Ok (error_response hf "输入处理失败，请尝试简化输入" "Tokenization error"
              (exc_msg tokenize_error))
    | Ok inputs_len =>
        if (inputs_len =? 0)%nat
        then Ok (error_response hf "输入tokenization失败" "Tokenization error"
                   "Empty tokenization result")
        else
          let! _ := rt_to_device rt in
          let generation_kwargs : Kwargs :=
            <["max_new_tokens" := kwargs_get kwargs "max_new_tokens" (VNum 128)]>
            (<["temperature" := temperature]>
            (<["top_p" := top_p]>
            (<["top_k" := top_k]>
            (<["do_sample" := do_sample]>
            (<["use_cache" := VBool (cfg_use_cache cfg)]>
            (<["pad_token_id" := rt_eos_token_id rt]>
            (<["eos_token_id" := rt_eos_token_id rt]> ∅))))))) in
          let! generation_kwargs :=
            match kwargs !! "max_length" with
            | Some v =>
                let! max_len := min_value v (Q_of_nat (inputs_len + 256)) in
                Ok (<["max_length" := max_len]> generation_kwargs)
            | None => Ok generation_kwargs
            end in
          let! (rows, cols, generation_time) :=
            rt_model_generate rt inputs_len generation_kwargs in
          if (rows =? 0)%nat || (cols =? 0)%nat
          then Ok (error_response hf "模型生成失败，输出为空" "Generation failed"
                     "Empty generation output")
          else
            match rt_decode rt with
            | Raise decode_error =>
                Ok (error_response hf "响应解码失败" "Decoding error"
                      (exc_msg decode_error))
            | Ok generated_text =>
                let response_text := str_strip generated_text in
                let response_text :=
                  if str_empty response_text
                  then "Based on the current situation, I recommend a cautious approach."
                  else response_text in
                let confidence :=
                  py_min 0.95 (0.7 + Q_of_nat (hf_update_count hf) * 0.01) in
                let backend_name := backend_value (cfg_backend cfg) in
                Ok {| text := response_text;
                      confidence := confidence;
                      reasoning :=
                        "使用" ++ backend_name ++ "模型进行文本生成，温度="
                          ++ str_of_value temperature;
                      metadata :=
                        <["backend" := VStr backend_name]>
                        (<["model_name" := VStr (cfg_model_name cfg)]>
                        (<["generation_count" := VNat (hf_generation_count hf)]>
                        (<["generation_time" := VNum generation_time]>
                        (<["temperature" := temperature]>
                        (<["max_length" := max_length]>
                        (<["prompt_length" := VNat (str_len prompt)]>
                        (<["response_length" := VNat (str_len response_text)]>
                        (<["device" := VStr (rt_device rt)]> ∅)))))))) |}
            end
    end.

(** [HuggingFaceLLM.generate]: the model is loaded before the [try];
    everything after it is inside. *)
Definition hf_generate `{StrOps}
    (hf : HuggingFaceLLM) (prompt : string) (kwargs : Kwargs)
  : HuggingFaceLLM * Exc LLMResponse :=
  match load_model hf with
  | (hf, Raise e) => (hf, Raise e)
  | (hf, Ok _) =>
      let hf := hf_count_generation hf in
      match hf_generate_body hf prompt kwargs with
      | Ok response => (hf, Ok response)
      | Raise e =>
          (hf, Ok (error_response hf ("生成失败: " ++ exc_msg e)
                     "生成过程中出现错误" (exc_msg e)))
      end
  end.

#[export] Instance HuggingFaceLLM_BaseLLM `{StrOps} : BaseLLM HuggingFaceLLM := {|
  generate := hf_generate;
  model_name := fun hf => cfg_model_name (hf_config hf);
  backend := fun hf => cfg_backend (hf_config hf)
|}.

(** *** SharedLLMManager *)

Record NodeEntry := {
  config : Kwargs;
  registered_time : Q
}.

Record NodeUsage := {
  usage_generation_count : nat;
  last_used : option Q;
  total_tokens : nat
}.

Record SharedLLMManager (L : Type) := {
  llm : L;
  registered_nodes : gmap string NodeEntry;
  node_usage_stats : gmap string NodeUsage;
  total_generations : nat;
  total_updates : nat
}.
Arguments llm {L} _.
Arguments registered_nodes {L} _.
Arguments node_usage_stats {L} _.
Arguments total_generations {L} _.
Arguments total_updates {L} _.

(** [SharedLLMManager(llm)] *)
Definition new_manager {L} (l : L) : SharedLLMManager L :=
  {| llm := l; registered_nodes := ∅; node_usage_stats := ∅;
     total_generations := 0; total_updates := 0 |}.

(** [register_node(node_id, node_config)] at clock reading [now]. *)
Definition register_node {L} (mgr : SharedLLMManager L)
    (node_id : string) (node_config : option Kwargs) (now : Q)
  : SharedLLMManager L :=
  let node_config := default ∅ node_config in
  {| llm := llm mgr;
     registered_nodes :=
       <[node_id := {| config := node_config; registered_time := now |}]>
         (registered_nodes mgr);
     node_usage_stats :=
       <[node_id := {| usage_generation_count := 0; last_used := None;
                       total_tokens := 0 |}]>
         (node_usage_stats mgr);
     total_generations := total_generations mgr;
     total_updates := total_updates mgr |}.

(** [{**node_config, **kwargs}]: on a common key the call's value stays. *)
Definition merge_kwargs (node_config kwargs : Kwargs) : Kwargs :=
  kwargs ∪ node_config.

(** The part of [generate_for_node] that follows the call of the LLM:
    usage statistics and the two metadata entries. *)
Definition record_generation `{StrOps} {L}
    (mgr : SharedLLMManager L) (node_id : string) (now : Q)
    (out : L * Exc LLMResponse)
  : SharedLLMManager L * Exc LLMResponse :=
  let '(l, result) := out in
  let with_llm :=
    {| llm := l; registered_nodes := registered_nodes mgr;
       node_usage_stats := node_usage_stats mgr;
       total_generations := total_generations mgr;
       total_updates := total_updates mgr |} in
  match result with
  | Raise e => (with_llm, Raise e)
  | Ok response =>
      match node_usage_stats mgr !! node_id with
      | None => (with_llm, Raise (mkExc KeyError node_id))
      | Some usage =>
          let usage :=
            {| usage_generation_count := S (usage_generation_count usage);
               last_used := Some now;
               total_tokens :=
                 total_tokens usage + length (str_split (text response)) |} in
          let generations := S (total_generations mgr) in
          let response :=
            if decide (metadata response = ∅) then response
            else {| text := text response;
                    confidence := confidence response;
                    reasoning := reasoning response;
                    metadata :=
                      <["global_generation_count" := VNat generations]>
                      (<["node_id" := VStr node_id]> (metadata response)) |} in
          ({| llm := l; registered_nodes := registered_nodes mgr;
              node_usage_stats := <[node_id := usage]> (node_usage_stats mgr);
              total_generations := generations;
              total_updates := total_updates mgr |},
           Ok response)
      end
  end.

(** [generate_for_node(node_id, prompt, **kwargs)] at clock reading [now].
    The call [self.llm.generate(prompt, **merged_kwargs)] is the call of
    [generate] on the merged arguments: the [TypeError] of Python for
    merged arguments that hold a key ["prompt"] or ["self"] is left out. *)
Definition generate_for_node `{StrOps} {L} `{BaseLLM L}
    (mgr : SharedLLMManager L) (node_id prompt : string) (kwargs : Kwargs)
    (now : Q)
  : SharedLLMManager L * Exc LLMResponse :=
  match registered_nodes mgr !! node_id with
  | None => (mgr, Raise (mkExc ValueError ("节点 " ++ node_id ++ " 未注册")))
  | Some entry =>
      let node_config := config entry in
      let merged_kwargs := merge_kwargs node_config kwargs in
      record_generation mgr node_id now
        (generate (llm mgr) prompt merged_kwargs)
  end.

(** *** MockLLM.update_parameters *)

(** A gradient is a list (or tuple) of numbers, or one number. *)
Inductive Gradient :=
| GradList (gradient : list Q)
| GradScalar (gradient : Q).

(** [for i in range(min(len(p), len(g))): p[i] -= learning_rate * g[i]] *)
Fixpoint subtract_scaled (learning_rate : Q) (parameter gradient : list Q)
  : list Q :=
  match parameter, gradient with
  | p :: ps, g :: gs =>
      (p - learning_rate * g)%Q :: subtract_scaled learning_rate ps gs
  | ps, _ => ps
  end.

Definition apply_gradient (learning_rate : Q) (parameter : list Q)
    (gradient : Gradient) : list Q :=
  match gradient with
  | GradList g => subtract_scaled learning_rate parameter g
  | GradScalar g => map (fun p => (p - learning_rate * g)%Q) parameter
  end.

(** [self.parameters] of a new [MockLLM]. *)
Definition mock_initial_parameters : gmap string (list Q) :=
  <["embedding_weights" := replicate 1000 0.1%Q]>
  (<["attention_weights" := replicate 500 0.2%Q]>
  (<["output_weights" := replicate 200 0.3%Q]> ∅)).

(** [update_parameters(gradients, learning_rate)]; [parameters] is the
    attribute [self.parameters], which [generate] never reads and which
    is kept beside the record. *)
Definition mock_update_parameters (m : MockLLM)
    (parameters : gmap string (list Q)) (gradients : dict Gradient)
    (learning_rate : Q) : MockLLM * gmap string (list Q) :=
  let parameters :=
    fold_left
      (fun parameters '(param_name, gradient) =>
         match parameters !! param_name with
         | Some parameter =>
             <[param_name := apply_gradient learning_rate parameter gradient]>
               parameters
         | None => parameters
         end)
      gradients parameters in
  ({| mock_config := mock_config m;
      mock_generation_count := mock_generation_count m;
      mock_update_count := S (mock_update_count m);
      mock_model_loaded := mock_model_loaded m |},
   parameters).

(** *** HuggingFaceLLM.unload_model *)

(** The model and the tokenizer are dropped and the flag is cleared; the
    clearing of the GPU cache in between is taken to return.  The flag
    stands for [self.model_loaded] and, with it, for [self.model]: the
    model is set whenever the flag is. *)
Definition unload_model (hf : HuggingFaceLLM) : HuggingFaceLLM :=
  if hf_model_loaded hf
  then {| hf_config := hf_config hf;
          hf_generation_count := hf_generation_count hf;
          hf_update_count := hf_update_count hf;
          hf_model_loaded := false;
          hf_runtime := hf_runtime hf |}
  else hf.

(** [HuggingFaceLLM.update_parameters]: counts the update when the model
    is loaded, and does nothing else. *)
Definition hf_update_parameters (hf : HuggingFaceLLM) : HuggingFaceLLM :=
  if hf_model_loaded hf
  then {| hf_config := hf_config hf;
          hf_generation_count := hf_generation_count hf;
          hf_update_count := S (hf_update_count hf);
          hf_model_loaded := hf_model_loaded hf;
          hf_runtime := hf_runtime hf |}
  else hf.

(** *** SharedLLMManager.get_node_stats *)

Record NodeStats := {
  ns_node_id : string;
  ns_config : Kwargs;
  ns_usage_stats : NodeUsage;
  ns_shared_llm_model : string;
  ns_shared_llm_backend : string
}.

Definition get_node_stats {L} `{BaseLLM L}
    (mgr : SharedLLMManager L) (node_id : string) : Exc NodeStats :=
  match registered_nodes mgr !! node_id with
  | None => Raise (mkExc ValueError ("节点 " ++ node_id ++ " 未注册"))
  | Some entry =>
      let! usage :=
        match node_usage_stats mgr !! node_id with
        | Some usage => Ok usage
        | None => Raise (mkExc KeyError node_id)
        end in
      Ok {| ns_node_id := node_id;
            ns_config := config entry;
            ns_usage_stats := usage;
            ns_shared_llm_model := model_name (llm mgr);
            ns_shared_llm_backend := backend_value (backend (llm mgr)) |}
  end.

End LLMInterface.

(** ** demo/trading_demo.py *)

Module TradingDemo.
Import Py.
Import LLMInterface.

(** *** The state snapshot *)

(** One symbol's entry of ["market_data"]; [None] is an absent key. *)
Record OHLCV := {
  md_open : option Q;
  md_high : option Q;
  md_low : option Q;
  md_close : option Q;
  md_volume : option Q
}.

(** One symbol's entry of ["technical_indicators"]. *)
Record Indicators := {
  ti_rsi : option Q;
  ti_ma5 : option Q;
  ti_ma10 : option Q;
  ti_ma20 : option Q;
  ti_macd : option Q;
  ti_price_trend : option string;
  ti_momentum : option string;
  ti_bollinger_upper : option Q;
  ti_bollinger_lower : option Q
}.

(** [{}], the default of [.get(symbol, {})]. *)
Definition no_indicators : Indicators :=
  {| ti_rsi := None; ti_ma5 := None; ti_ma10 := None; ti_ma20 := None;
     ti_macd := None; ti_price_trend := None; ti_momentum := None;
     ti_bollinger_upper := None; ti_bollinger_lower := None |}.

Record Portfolio := {
  cash : option Q;
  positions : dict Q          (* an absent key reads as [{}] *)
}.

(** One day of ["daily_data"], one ["summary"] and one ["analysis"]: the
    prompt subscripts every key, so that [None] is a missing key. *)
Record DayData := {
  dd_date : option string;
  dd_open : option Q;
  dd_high : option Q;
  dd_low : option Q;
  dd_close : option Q;
  dd_volume : option Q;
  dd_change_str : option string
}.

Record HistorySummary := {
  hs_total_change_str : option string;
  hs_trend_direction : option string;
  hs_trend_strength_str : option string;
  hs_volatility_str : option string;
  hs_volume_trend : option string;
  hs_avg_volume : option Q;
  hs_min_low : option Q;
  hs_max_high : option Q
}.

Record HistoryAnalysis := {
  ha_price_momentum : option string;
  ha_volume_support : option string;
  ha_volatility_level : option string;
  ha_trend_quality : option string
}.

(** One symbol's entry of ["detailed_history"]. *)
Record DetailedHistory := {
  dh_error : option string;
  dh_summary : option HistorySummary;
  dh_analysis : option HistoryAnalysis;
  dh_daily_data : option (list DayData)
}.

Record Trade := {
  tr_step : option Q;
  tr_action : option string;
  tr_symbol : option string;
  tr_amount : option Q;
  tr_price : option Q;
  tr_score : option Q
}.

(** The keys [make_decision] reads.  Every key but ["symbols"] is read
    with an empty default, so that an absent key and an empty value are
    the same state; for ["symbols"] [None] is the absent key. *)
Record State := {
  market_data : dict OHLCV;
  portfolio : Portfolio;
  technical_indicators : dict Indicators;
  price_history : dict (list (option Q));   (* the ["close"] of each point *)
  trade_history : list Trade;
  detailed_history : dict DetailedHistory;
  symbols : option (list string)
}.

(** *** Decisions *)

(** The ["reasoning"] text, by template. *)
Inductive Reasoning :=
| ReasonResponse (response : string)
| ReasonTechnical (action : string) (symbol : option string) (rsi : Q)
| ReasonForced (symbol : string)
| ReasonBackup (symbol : string)
| ReasonUnparsed
| ReasonFallbackNoData
| ReasonFallbackTechnical (action : string) (symbol : option string)
| ReasonFallbackGain (symbol : string)
| ReasonFallbackDefault.

(** The decision dict.  [symbol] is [None] for Python's [None]. *)
Record Decision := {
  action : string;
  symbol : option string;
  amount : Q;
  reasoning : Reasoning
}.

(** *** History records and the engine *)

Record DecisionRecord := {
  dr_step : nat;
  dr_timestamp : string;
  dr_decision : Decision;
  dr_llm_response : string;
  dr_market_data : dict OHLCV;
  dr_portfolio : Portfolio;
  dr_technical_indicators : dict Indicators;
  dr_detailed_history : dict DetailedHistory
}.

Record MarketRecord := {
  mr_step : nat;
  mr_market_data : dict OHLCV;
  mr_detailed_history : dict DetailedHistory
}.

Record PortfolioRecord := {
  pr_step : nat;
  pr_portfolio : Portfolio;
  pr_total_value : Q
}.

(** [LLMDecisionMaker]: the counter and the three histories
    ([performance_history] is never read or written after [__init__]). *)
Record Engine := {
  decision_count : nat;
  decision_history : list DecisionRecord;
  market_history : list MarketRecord;
  portfolio_history : list PortfolioRecord
}.

(** [LLMDecisionMaker(llm_manager)] *)
Definition new_engine : Engine :=
  {| decision_count := 0; decision_history := [];
     market_history := []; portfolio_history := [] |}.

(** The node configuration [__init__] registers under
    ["trading_decision"]. *)
Definition trading_decision_config : Kwargs :=
  <["role" := VStr "交易决策专家"]>
  (<["reasoning_type" := VStr "strategic"]>
  (<["temperature" := VNum 0.7]>
  (<["max_length" := VNum 512]> ∅))).

(** The keyword arguments of the call in [make_decision]. *)
Definition trading_decision_kwargs : Kwargs :=
  <["temperature" := VNum 0.7]>
  (<["max_new_tokens" := VNum 128]>
  (<["do_sample" := VBool true]>
  (<["pad_token_id" := VNone]> ∅))).

(** *** _calculate_total_portfolio_value *)

Definition calculate_total_portfolio_value (state : State) : Q :=
  let portfolio := portfolio state in
  let market_data := market_data state in
  let cash := default 0%Q (cash portfolio) in
  let positions := positions portfolio in
  let position_value :=
    fold_left
      (fun position_value '(symbol, amount) =>
         match dict_get symbol market_data with
         | Some data =>
             match md_close data with
             | Some close => (position_value + amount * close)%Q
             | None => position_value
             end
         | None => position_value
         end)
      positions 0%Q in
  (cash + position_value)%Q.

(** *** _update_history *)

(** What one call of [_update_history] appends. *)
Definition decision_record (e : Engine) (state : State) (decision : Decision)
    (llm_response timestamp : string) : DecisionRecord :=
  {| dr_step := decision_count e;
     dr_timestamp := timestamp;
     dr_decision := decision;
     dr_llm_response := llm_response;
     dr_market_data := market_data state;
     dr_portfolio := portfolio state;
     dr_technical_indicators := technical_indicators state;
     dr_detailed_history := detailed_history state |}.

Definition market_record (e : Engine) (state : State) : MarketRecord :=
  {| mr_step := decision_count e;
     mr_market_data := market_data state;
     mr_detailed_history := detailed_history state |}.

Definition portfolio_record (e : Engine) (state : State) : PortfolioRecord :=
  {| pr_step := decision_count e;
     pr_portfolio := portfolio state;
     pr_total_value := calculate_total_portfolio_value state |}.

(** [history.append(record)], then
    [if len(history) > cap: history = history[-cap:]]. *)
Definition append_capped {A} (cap : nat) (history : list A) (record : A)
  : list A :=
  let history := (history ++ [record])%list in
  if (cap <? length history)%nat then last_n cap history else history.

(** [timestamp] is [datetime.now().isoformat()]. *)
Definition update_history (e : Engine) (state : State) (decision : Decision)
    (llm_response timestamp : string) : Engine :=
  {| decision_count := decision_count e;
     decision_history :=
       append_capped 50 (decision_history e)
         (decision_record e state decision llm_response timestamp);
     market_history :=
       append_capped 30 (market_history e) (market_record e state);
     portfolio_history :=
       append_capped 30 (portfolio_history e) (portfolio_record e state) |}.

(** *** _construct_decision_prompt *)

(** The prompt is kept as the data its sections are rendered from; the
    layout of the text and the fixed instruction block are not modelled. *)
Inductive PromptLine :=
| MarketLine (symbol : string) (close open high low volume : Q)
| TechnicalLine (symbol : string) (ma5 ma10 ma20 rsi macd : Q)
    (price_trend momentum : string) (bollinger_upper bollinger_lower : Q)
| DetailedHeading (symbol : string)
| SummaryLines (total_change_str trend_direction trend_strength_str
                volatility_str volume_trend : string)
    (avg_volume min_low max_high : Q)
| AnalysisLines (price_momentum volume_support volatility_level
                 trend_quality : string)
| DayLine (date : string) (open high low close volume : Q)
    (change_str : string)
| DecisionHeader
| DecisionLine (step : nat) (action : string) (symbol : option string)
    (amount : Q) (reasoning : Reasoning)
| PortfolioHeader
| PortfolioLine (step : nat) (total_value : Q) (change_pct : option Q)
| PriceTrendLine (symbol : string) (price_changes : list Q)
| TradeLine (step : Q) (action symbol : string) (amount price score : Q)
| PositionLine (symbol : string) (amount : Q).

Record Prompt := {
  market_summary : list PromptLine;
  technical_summary : list PromptLine;
  detailed_history_summary : list PromptLine;
  history_summary : list PromptLine;
  trade_summary : list PromptLine;
  decision_history_summary : list PromptLine;
  portfolio_history_summary : list PromptLine;
  prompt_cash : Q;
  position_summary : list PromptLine
}.

(** [d[key]] on an entry that may lack the key. *)
Definition subscript {A} (key : string) (entry : option A) : Exc A :=
  match entry with
  | Some a => Ok a
  | None => Raise (mkExc KeyError key)
  end.

Definition market_line (item : string * OHLCV) : PromptLine :=
  let '(symbol, data) := item in
  MarketLine symbol (default 0%Q (md_close data)) (default 0%Q (md_open data))
    (default 0%Q (md_high data)) (default 0%Q (md_low data))
    (default 0%Q (md_volume data)).

Definition technical_line (item : string * Indicators) : PromptLine :=
  let '(symbol, indicators) := item in
  TechnicalLine symbol
    (default 0%Q (ti_ma5 indicators)) (default 0%Q (ti_ma10 indicators))
    (default 0%Q (ti_ma20 indicators)) (default 0%Q (ti_rsi indicators))
    (default 0%Q (ti_macd indicators))
    (default "unknown" (ti_price_trend indicators))
    (default "unknown" (ti_momentum indicators))
    (default 0%Q (ti_bollinger_upper indicators))
    (default 0%Q (ti_bollinger_lower indicators)).

(** The lines of one entry, with the keys subscripted in the order of
    the source. *)
Definition summary_lines (summary : HistorySummary) : Exc PromptLine :=
  let! total_change_str :=
    subscript "total_change_str" (hs_total_change_str summary) in
  let! trend_direction :=
    subscript "trend_direction" (hs_trend_direction summary) in
  let! trend_strength_str :=
    subscript "trend_strength_str" (hs_trend_strength_str summary) in
  let! volatility_str :=
    subscript "volatility_str" (hs_volatility_str summary) in
  let! volume_trend := subscript "volume_trend" (hs_volume_trend summary) in
  let! avg_volume := subscript "avg_volume" (hs_avg_volume summary) in
  let! min_low := subscript "min_low" (hs_min_low summary) in
  let! max_high := subscript "max_high" (hs_max_high summary) in
  Ok (SummaryLines total_change_str trend_direction trend_strength_str
        volatility_str volume_trend avg_volume min_low max_high).

Definition analysis_lines (analysis : HistoryAnalysis) : Exc PromptLine :=
  let! price_momentum :=
    subscript "price_momentum" (ha_price_momentum analysis) in
  let! volume_support :=
    subscript "volume_support" (ha_volume_support analysis) in
  let! volatility_level :=
    subscript "volatility_level" (ha_volatility_level analysis) in
  let! trend_quality := subscript "trend_quality" (ha_trend_quality analysis) in
  Ok (AnalysisLines price_momentum volume_support volatility_level
        trend_quality).

Definition day_line (day_data : DayData) : Exc PromptLine :=
  let! date := subscript "date" (dd_date day_data) in
  let! open := subscript "open" (dd_open day_data) in
  let! high := subscript "high" (dd_high day_data) in
  let! low := subscript "low" (dd_low day_data) in
  let! close := subscript "close" (dd_close day_data) in
  let! volume := subscript "volume" (dd_volume day_data) in
  let! change_str := subscript "change_str" (dd_change_str day_data) in
  Ok (DayLine date open high low close volume change_str).

Fixpoint day_lines (daily_data : list DayData) : Exc (list PromptLine) :=
  match daily_data with
  | [] => Ok []
  | day_data :: rest =>
      let! line := day_line day_data in
      let! more := day_lines rest in
      Ok (line :: more)
  end.

Fixpoint detailed_history_lines (items : dict DetailedHistory)
  : Exc (list PromptLine) :=
  match items with
  | [] => Ok []
  | (symbol, history_data) :: rest =>
      match dh_error history_data with
      | Some _ => detailed_history_lines rest            (* continue *)
      | None =>
          let! summary := subscript "summary" (dh_summary history_data) in
          let! analysis := subscript "analysis" (dh_analysis history_data) in
          let! summary_part := summary_lines summary in
          let! analysis_part := analysis_lines analysis in
          let! daily_data := subscript "daily_data" (dh_daily_data history_data) in
          let! days := day_lines daily_data in
          let! more := detailed_history_lines rest in
          Ok (DetailedHeading symbol :: summary_part :: analysis_part
                :: (days ++ more)%list)
      end
  end.

Definition decision_line (record : DecisionRecord) : PromptLine :=
  let decision := dr_decision record in
  DecisionLine (dr_step record) (action decision) (symbol decision)
    (amount decision) (reasoning decision).

(** [previous] is the total value of the record before, if any. *)
Fixpoint portfolio_lines (previous : option Q)
    (records : list PortfolioRecord) : list PromptLine :=
  match records with
  | [] => []
  | record :: rest =>
      let total_value := pr_total_value record in
      let change_pct :=
        match previous with
        | Some prev_value =>
            if Qltb 0 prev_value
            then Some ((total_value - prev_value) / prev_value * 100)%Q
            else None
        | None => None
        end in
      PortfolioLine (pr_step record) total_value change_pct
        :: portfolio_lines (Some total_value) rest
  end.

(** [p["close"] for p in history[-5:]] *)
Fixpoint closes (points : list (option Q)) : Exc (list Q) :=
  match points with
  | [] => Ok []
  | p :: rest =>
      let! close := subscript "close" p in
      let! more := closes rest in
      Ok (close :: more)
  end.

(** The percentage changes between neighbours. *)
Fixpoint price_changes (recent_prices : list Q) : Exc (list Q) :=
  match recent_prices with
  | previous :: ((current :: _) as rest) =>
      if Qeq_bool previous 0
      then Raise (mkExc ZeroDivisionError "division by zero")
      else
        let! more := price_changes rest in
        Ok (((current - previous) / previous * 100)%Q :: more)
  | _ => Ok []
  end.

Fixpoint price_history_lines (items : dict (list (option Q)))
  : Exc (list PromptLine) :=
  match items with
  | [] => Ok []
  | (symbol, history) :: rest =>
      if (5 <=? length history)%nat
      then
        let! recent_prices := closes (last_n 5 history) in
        let! changes := price_changes recent_prices in
        let! more := price_history_lines rest in
        Ok (PriceTrendLine symbol changes :: more)
      else price_history_lines rest
  end.

Definition trade_line (trade : Trade) : PromptLine :=
  TradeLine (default 0%Q (tr_step trade)) (default EmptyString (tr_action trade))
    (default EmptyString (tr_symbol trade)) (default 0%Q (tr_amount trade))
    (default 0%Q (tr_price trade)) (default 0%Q (tr_score trade)).

Definition position_line (item : string * Q) : PromptLine :=
  let '(symbol, amount) := item in PositionLine symbol amount.

Definition construct_decision_prompt (e : Engine) (state : State)
  : Exc Prompt :=
  let market_summary := map market_line (market_data state) in
  let technical_summary := map technical_line (technical_indicators state) in
  let! detailed_history_summary :=
    detailed_history_lines (detailed_history state) in
  let decision_history_summary :=
    match decision_history e with
    | [] => []
    | _ => DecisionHeader :: map decision_line (last_n 10 (decision_history e))
    end in
  let portfolio_history_summary :=
    match portfolio_history e with
    | [] => []
    | _ => PortfolioHeader
             :: portfolio_lines None (last_n 10 (portfolio_history e))
    end in
  let! history_summary := price_history_lines (price_history state) in
  let trade_summary := map trade_line (last_n 10 (trade_history state)) in
  let cash := default 0%Q (cash (portfolio state)) in
  let position_summary := map position_line (positions (portfolio state)) in
  Ok {| market_summary := market_summary;
        technical_summary := technical_summary;
        detailed_history_summary := detailed_history_summary;
        history_summary := history_summary;
        trade_summary := trade_summary;
        decision_history_summary := decision_history_summary;
        portfolio_history_summary := portfolio_history_summary;
        prompt_cash := cash;
        position_summary := position_summary |}.

(** *** Scoring, shared by _parse_decision and _fallback_decision
    (the source repeats the same statements in both). *)

Definition buy_score_of (rsi ma5 ma20 : Q) : Q :=
  let buy_score := 0%Q in
  let buy_score := if Qltb rsi 70 then (buy_score + 0.3)%Q else buy_score in
  let buy_score := if Qltb ma20 ma5 then (buy_score + 0.4)%Q else buy_score in
  if Qltb 0 ma5 && Qltb 0 ma20
  then
    let trend_strength := ((ma5 - ma20) / ma20)%Q in
    (buy_score + py_min 0.3 (trend_strength * 10))%Q
  else buy_score.

Definition sell_score_of (rsi ma5 ma20 : Q) : Q :=
  let sell_score := 0%Q in
  let sell_score := if Qltb 30 rsi then (sell_score + 0.3)%Q else sell_score in
  let sell_score := if Qltb ma5 ma20 then (sell_score + 0.4)%Q else sell_score in
  if Qltb 0 ma5 && Qltb 0 ma20
  then
    let trend_strength := ((ma20 - ma5) / ma20)%Q in
    (sell_score + py_min 0.3 (trend_strength * 10))%Q
  else sell_score.

(** The variables the scoring loop assigns; [technical_indicators] is the
    loop's local of that name, which the code reads again after the
    loop. *)
Record Scores := {
  best_buy_symbol : option string;
  best_buy_score : Q;
  best_sell_symbol : option string;
  best_sell_score : Q;
  loop_indicators : option Indicators
}.

Definition initial_scores : Scores :=
  {| best_buy_symbol := None; best_buy_score := (-1)%Q;
     best_sell_symbol := None; best_sell_score := (-1)%Q;
     loop_indicators := None |}.

(** One pass of the loop body for [symbol] with its indicators. *)
Definition score_symbol (acc : Scores) (symbol : string)
    (technical_indicators : Indicators) : Scores :=
  let rsi := default 50%Q (ti_rsi technical_indicators) in
  let ma5 := default 0%Q (ti_ma5 technical_indicators) in
  let ma20 := default 0%Q (ti_ma20 technical_indicators) in
  let buy_score := buy_score_of rsi ma5 ma20 in
  let sell_score := sell_score_of rsi ma5 ma20 in
  let better_buy := Qltb (best_buy_score acc) buy_score in
  let better_sell := Qltb (best_sell_score acc) sell_score in
  {| best_buy_symbol := if better_buy then Some symbol else best_buy_symbol acc;
     best_buy_score := if better_buy then buy_score else best_buy_score acc;
     best_sell_symbol := if better_sell then Some symbol else best_sell_symbol acc;
     best_sell_score := if better_sell then sell_score else best_sell_score acc;
     loop_indicators := Some technical_indicators |}.

(** [state.get("technical_indicators", {}).get(symbol, {})] *)
Definition indicators_of (state : State) (symbol : string) : Indicators :=
  default no_indicators (dict_get symbol (technical_indicators state)).

(** [market_data[s].get("close", 0) - market_data[s].get("open", 0)] for a
    key [s] of [market_data]. *)
Definition day_gain (market_data : dict OHLCV) (s : string) : Q :=
  match dict_get s market_data with
  | Some data => (default 0 (md_close data) - default 0 (md_open data))%Q
  | None => 0%Q
  end.

(** [max(first :: others, key=key)]: the first of the greatest. *)
Definition max_by {A} (key : A -> Q) (first : A) (others : list A) : A :=
  fold_left (fun best x => if Qltb (key best) (key x) then x else best)
            others first.

(** *** _parse_decision *)

Definition default_symbols : list string := ["AAPL"; "GOOGL"; "MSFT"; "AMZN"].

Definition state_symbols (state : State) : list string :=
  default default_symbols (symbols state).

Definition kw_buy : string := "买入".
Definition kw_sell : string := "卖出".

(** [float(amount_match.group(1)) if amount_match else 100] *)
Definition extract_amount (response : string) : Q :=
  match re_search_number (utf8_decode response) with
  | Some amount_match => float_of_match amount_match
  | None => 100%Q
  end.

(** [for symbol in symbols: if symbol in text: return {...}] *)
Definition scan_symbols (act : string) (text response : string)
    (symbols : list string) : option Decision :=
  match List.find (fun symbol => str_in symbol text) symbols with
  | Some symbol =>
      Some {| action := act; symbol := Some symbol;
              amount := extract_amount response;
              reasoning := ReasonResponse response |}
  | None => None
  end.

(** The keyword rules, in the order of the source: 买入, then 卖出, on
    the text as it is (its 方式1); then BUY, then SELL, on the upper-cased
    text (its 方式2). *)
Definition parse_keywords `{StrOps} (response : string)
    (symbols : list string) : option Decision :=
  let by_kw_buy :=
    if str_in kw_buy response
    then scan_symbols "BUY" response response symbols else None in
  match by_kw_buy with
  | Some d => Some d
  | None =>
  let by_kw_sell :=
    if str_in kw_sell response
    then scan_symbols "SELL" response response symbols else None in
  match by_kw_sell with
  | Some d => Some d
  | None =>
  let response_upper := str_upper response in
  let by_buy :=
    if str_in "BUY" response_upper
    then scan_symbols "BUY" response_upper response symbols else None in
  match by_buy with
  | Some d => Some d
  | None =>
    if str_in "SELL" response_upper
    then scan_symbols "SELL" response_upper response symbols else None
  end end end.

(** The loop of the scoring rule (方式3), over the configured symbols. *)
Fixpoint parse_score_loop (state : State) (symbols : list string)
    (acc : Scores) : Exc Scores :=
  match symbols with
  | [] => Ok acc
  | symbol :: rest =>
      match dict_get symbol (market_data state) with
      | None => parse_score_loop state rest acc
      | Some data =>
          let technical_indicators := indicators_of state symbol in
          let! price := subscript "close" (md_close data) in
          parse_score_loop state rest
            (score_symbol acc symbol technical_indicators)
      end
  end.

(** [technical_indicators.get('rsi', 0)] after the loop. *)
Definition loop_rsi (acc : Scores) : Exc Q :=
  match loop_indicators acc with
  | Some technical_indicators => Ok (default 0%Q (ti_rsi technical_indicators))
  | None => Raise (mkExc NameError "technical_indicators")
  end.

(** The forced choices (方式4 and the two returns after it): the greatest
    gain of the day, else the first configured symbol, else AAPL. *)
Definition parse_forced (state : State) : Decision :=
  let symbols := state_symbols state in
  let market_data := market_data state in
  match dict_keys market_data with
  | first :: others =>
      let best_symbol := max_by (day_gain market_data) first others in
      {| action := "BUY"; symbol := Some best_symbol; amount := 100;
         reasoning := ReasonForced best_symbol |}
  | [] =>
      match symbols with
      | first :: _ =>
          {| action := "BUY"; symbol := Some first; amount := 100;
             reasoning := ReasonBackup first |}
      | [] =>
          {| action := "BUY"; symbol := Some "AAPL"; amount := 100;
             reasoning := ReasonUnparsed |}
      end
  end.

(** The scoring rule (方式3) when there is market data; [None] when it
    returns nothing. *)
Definition parse_by_score (state : State) : Exc (option Decision) :=
  let symbols := state_symbols state in
  match market_data state with
  | [] => Ok None
  | _ =>
      let! acc := parse_score_loop state symbols initial_scores in
      if Qltb (best_sell_score acc) (best_buy_score acc)
         && Qltb 0.3 (best_buy_score acc)
      then
        let! rsi := loop_rsi acc in
        Ok (Some {| action := "BUY"; symbol := best_buy_symbol acc;
                    amount := 100;
                    reasoning := ReasonTechnical "BUY" (best_buy_symbol acc) rsi |})
      else if Qltb 0.3 (best_sell_score acc)
      then
        let! rsi := loop_rsi acc in
        Ok (Some {| action := "SELL"; symbol := best_sell_symbol acc;
                    amount := 100;
                    reasoning := ReasonTechnical "SELL" (best_sell_symbol acc) rsi |})
      else Ok None
  end.

(** The rules after the keywords, which do not read the response. *)
Definition parse_by_market (state : State) : Exc Decision :=
  let! by_score := parse_by_score state in
  match by_score with
  | Some d => Ok d
  | None => Ok (parse_forced state)
  end.

Definition parse_decision `{StrOps} (response : string) (state : State)
  : Exc Decision :=
  let response := str_strip response in
  match parse_keywords response (state_symbols state) with
  | Some d => Ok d
  | None => parse_by_market state
  end.

(** *** _fallback_decision *)

Fixpoint fallback_score_loop (state : State) (symbols : list string)
    (acc : Scores) : Scores :=
  match symbols with
  | [] => acc
  | symbol :: rest =>
      let technical_indicators := indicators_of state symbol in
      fallback_score_loop state rest
        (score_symbol acc symbol technical_indicators)
  end.

Definition fallback_decision (state : State) : Exc Decision :=
  let market_data := market_data state in
  match market_data with
  | [] =>
      let symbols := state_symbols state in
      match symbols with
      | first :: _ =>
          Ok {| action := "BUY"; symbol := Some first; amount := 100;
                reasoning := ReasonFallbackNoData |}
      | [] => Raise (mkExc IndexError "list index out of range")
      end
  | _ =>
      let symbols := dict_keys market_data in
      match symbols with
      | first :: others =>
          let acc := fallback_score_loop state symbols initial_scores in
          if Qltb (best_sell_score acc) (best_buy_score acc)
             && Qltb 0.3 (best_buy_score acc)
          then Ok {| action := "BUY"; symbol := best_buy_symbol acc;
                     amount := 100;
                     reasoning := ReasonFallbackTechnical "BUY" (best_buy_symbol acc) |}
          else if Qltb 0.3 (best_sell_score acc)
          then Ok {| action := "SELL"; symbol := best_sell_symbol acc;
                     amount := 100;
                     reasoning := ReasonFallbackTechnical "SELL" (best_sell_symbol acc) |}
          else
            let best_symbol := max_by (day_gain market_data) first others in
            Ok {| action := "BUY"; symbol := Some best_symbol; amount := 100;
                  reasoning := ReasonFallbackGain best_symbol |}
      | [] =>
          Ok {| action := "BUY"; symbol := Some "AAPL"; amount := 100;
                reasoning := ReasonFallbackDefault |}
      end
  end.

(** *** make_decision *)

(** What a call of [make_decision] meets outside the engine:
    [service] stands for
    [self.llm_manager.generate_for_node(node_id, prompt, **kwargs)] and
    [clock] for [datetime.now().isoformat()]. *)
Record CallEnv := {
  service : string -> Prompt -> Kwargs -> Exc LLMResponse;
  clock : string
}.

(** The two shapes [make_decision] returns: the bare decision of the
    [except] branch, and the dict of the normal path. *)
Inductive DecisionResult :=
| FallbackResult (decision : Decision)
| FullResult (decision : Decision) (llm_response : string)
    (prompt : Prompt) (decision_count : nat).

Definition result_decision (r : DecisionResult) : Decision :=
  match r with
  | FallbackResult d => d
  | FullResult d _ _ _ => d
  end.

Definition count_decision (e : Engine) : Engine :=
  {| decision_count := S (decision_count e);
     decision_history := decision_history e;
     market_history := market_history e;
     portfolio_history := portfolio_history e |}.

Definition make_decision `{StrOps} (e : Engine) (state : State)
    (env : CallEnv) : Engine * Exc DecisionResult :=
  let e := count_decision e in
  match construct_decision_prompt e state with
  | Raise x => (e, Raise x)
  | Ok prompt =>
      match service env "trading_decision" prompt trading_decision_kwargs with
      | Raise _ =>
          (* except Exception: return self._fallback_decision(state) *)
          (e, exc_map FallbackResult (fallback_decision state))
      | Ok response =>
          match parse_decision (text response) state with
          | Raise x => (e, Raise x)
          | Ok decision =>
              (update_history e state decision (text response) (clock env),
               Ok (FullResult decision (text response) prompt
                     (decision_count e)))
          end
      end
  end.

(** A run of the loop driver: [make_decision] on each input in turn,
    whatever each call returns or raises. *)
Definition run `{StrOps} (e : Engine) (calls : list (State * CallEnv))
  : Engine :=
  fold_left (fun e call => fst (make_decision e (fst call) (snd call)))
            calls e.

(** *** The state as the loop driver reads it *)

(** The functions of the driver subscript the state, so that a missing
    key is an error there; [None] is a missing key. *)
Record RawPortfolio := {
  raw_cash : option Q;
  raw_positions : option (dict Q)
}.

Record RawState := {
  raw_market_data : option (dict OHLCV);
  raw_portfolio : option RawPortfolio;
  raw_technical_indicators : option (dict Indicators);
  raw_price_history : option (dict (list (option Q)));
  raw_trade_history : option (list Trade);
  raw_detailed_history : option (dict DetailedHistory);
  raw_symbols : option (list string)
}.

(** The same state as [make_decision] reads it, with [.get(key, {})]. *)
Definition state_of_raw (raw : RawState) : State :=
  {| market_data := default [] (raw_market_data raw);
     portfolio :=
       match raw_portfolio raw with
       | Some p => {| cash := raw_cash p;
                      positions := default [] (raw_positions p) |}
       | None => {| cash := None; positions := [] |}
       end;
     technical_indicators := default [] (raw_technical_indicators raw);
     price_history := default [] (raw_price_history raw);
     trade_history := default [] (raw_trade_history raw);
     detailed_history := default [] (raw_detailed_history raw);
     symbols := raw_symbols raw |}.

(** *** _calculate_volatility *)

(** [sum(xs)] *)
Definition py_sum (xs : list Q) : Q := fold_left Qplus xs 0%Q.

(** The closes of the snapshot, in its order. *)
Fixpoint snapshot_closes (items : dict OHLCV) : list Q :=
  match items with
  | [] => []
  | (_, symbol_data) :: rest =>
      match md_close symbol_data with
      | Some close => close :: snapshot_closes rest
      | None => snapshot_closes rest
      end
  end.

(** The relative steps between neighbours whose first is positive. *)
Fixpoint price_returns (prices : list Q) : list Q :=
  match prices with
  | previous :: ((current :: _) as rest) =>
      if Qltb 0 previous
      then (Qabs (current - previous) / previous)%Q :: price_returns rest
      else price_returns rest
  | _ => []
  end.

Definition calculate_volatility (state : State) : Q :=
  let prices := snapshot_closes (market_data state) in
  if (length prices <? 2)%nat then 0.5%Q
  else
    let returns := price_returns prices in
    match returns with
    | [] => 0.5%Q
    | _ => py_min 1 (py_sum returns / Q_of_nat (length returns) * 10)
    end.

(** *** _calculate_portfolio_value (the function of the module) *)

Definition calculate_portfolio_value (state : RawState) : Exc Q :=
  let! portfolio := subscript "portfolio" (raw_portfolio state) in
  let! cash := subscript "cash" (raw_cash portfolio) in
  let! positions := subscript "positions" (raw_positions portfolio) in
  let! market_data := subscript "market_data" (raw_market_data state) in
  let position_value :=
    fold_left
      (fun position_value '(symbol, amount) =>
         match dict_get symbol market_data with
         | Some data =>
             match md_close data with
             | Some close => (position_value + amount * close)%Q
             | None => position_value
             end
         | None => position_value
         end)
      positions 0%Q in
  Ok (cash + position_value)%Q.

(** *** One step of run_rl_trading_demo *)

Record StateFeatures := {
  market_volatility : Q;
  portfolio_value : Q;
  cash_ratio : Q;
  position_count : nat;
  decision_type : nat
}.

(** [1 if action == "BUY" else (2 if action == "SELL" else 0)] *)
Definition decision_type_of (act : string) : nat :=
  if String.eqb act "BUY" then 1 else if String.eqb act "SELL" then 2 else 0.

Definition state_features (current_state : RawState) (decision : Decision)
  : Exc StateFeatures :=
  let volatility := calculate_volatility (state_of_raw current_state) in
  let! value := calculate_portfolio_value current_state in
  let! portfolio := subscript "portfolio" (raw_portfolio current_state) in
  let! cash := subscript "cash" (raw_cash portfolio) in
  let! positions := subscript "positions" (raw_positions portfolio) in
  Ok {| market_volatility := volatility;
        portfolio_value := value;
        cash_ratio := (cash / 100000)%Q;
        position_count := length positions;
        decision_type := decision_type_of (action decision) |}.

(** What a step meets outside the engine: the sandbox of the node, the
    generation service and the trainer. *)
Record StepEnv := {
  (* [node and node.sandbox] *)
  step_node : bool;
  (* [node.sandbox.case_generator()["state"]] *)
  step_case : Exc RawState;
  (* the generation service and the clock of [make_decision] *)
  step_call : CallEnv;
  (* [node.sandbox.verify_score(text, case)] *)
  step_verify_score : string -> Exc Q;
  (* [rl_trainer.add_experience(...)], then [rl_trainer.update_policy()] *)
  step_train : StateFeatures -> Decision -> Q -> Exc Kwargs;
  step_sandbox_id : string
}.

(** The two records a step appends to [results]; the second stands for
    [{"decision": {"action": "HOLD", ...}, "score": 0.0, "reward": 0.0,
      "error": str(e)}]. *)
Inductive StepResult :=
| StepExecuted (state : RawState) (decision : Decision)
    (llm_response : string) (score reward : Q) (rl_update : Kwargs)
    (sandbox_id : string)
| StepFailed (state : RawState) (error : string).

Definition result_score (r : StepResult) : Q :=
  match r with
  | StepExecuted _ _ _ score _ _ _ => score
  | StepFailed _ _ => 0%Q
  end.

Definition result_reward (r : StepResult) : Q :=
  match r with
  | StepExecuted _ _ _ _ reward _ _ => reward
  | StepFailed _ _ => 0%Q
  end.

Definition result_action (r : StepResult) : string :=
  match r with
  | StepExecuted _ decision _ _ _ _ _ => action decision
  | StepFailed _ _ => "HOLD"
  end.

(** [decision_result["decision"]] and [decision_result["llm_response"]]:
    the decision of the [except] branch of [make_decision] has neither
    key. *)
Definition result_subscript_decision (r : DecisionResult) : Exc Decision :=
  match r with
  | FullResult decision _ _ _ => Ok decision
  | FallbackResult _ => Raise (mkExc KeyError "decision")
  end.

Definition result_subscript_llm_response (r : DecisionResult) : Exc string :=
  match r with
  | FullResult _ llm_response _ _ => Ok llm_response
  | FallbackResult _ => Raise (mkExc KeyError "llm_response")
  end.

(** [f"{decision['action']} {decision.get('symbol', '')}
       {decision.get('amount', 0)}"] *)
Definition score_text `{StrOps} (decision : Decision) : string :=
  action decision ++ " " ++ default "None" (symbol decision) ++ " "
    ++ str_of_Q (amount decision).

(** The inner [try] of a step and its [except]. *)
Definition execute_decision `{StrOps} (env : StepEnv)
    (current_state : RawState) (decision_result : DecisionResult)
    (decision : Decision) : StepResult :=
  let attempt :=
    let! score := step_verify_score env (score_text decision) in
    let reward := (score * 10)%Q in
    let! features := state_features current_state decision in
    let! update_result := step_train env features decision reward in
    let! llm_response := result_subscript_llm_response decision_result in
    Ok (StepExecuted current_state decision llm_response score reward
          update_result (step_sandbox_id env)) in
  match attempt with
  | Ok result => result
  | Raise e => StepFailed current_state (exc_msg e)
  end.

(** The body of the loop: what it appends to [results], if anything. *)
Definition trading_step `{StrOps} (e : Engine) (env : StepEnv)
  : Engine * option StepResult :=
  if step_node env
  then
    match step_case env with
    | Raise _ => (e, None)
    | Ok current_state =>
        let '(e, made) :=
          make_decision e (state_of_raw current_state) (step_call env) in
        match (let! decision_result := made in
               let! decision := result_subscript_decision decision_result in
               Ok (decision_result, decision)) with
        | Raise _ => (e, None)                 (* the outer [except] *)
        | Ok (decision_result, decision) =>
            (e, Some (execute_decision env current_state decision_result
                        decision))
        end
    end
  else (e, None).

(** The loop over the steps. *)
Definition run_steps `{StrOps} (e : Engine) (envs : list StepEnv)
  : Engine * list StepResult :=
  fold_left
    (fun acc env =>
       let '(e, appended) := trading_step (fst acc) env in
       (e, match appended with
           | Some result => (snd acc ++ [result])%list
           | None => snd acc
           end))
    envs (e, []).

(** The figures printed at the end. *)
Record DemoSummary := {
  total_reward : Q;
  avg_score : Q;
  total_decisions : nat
}.

Definition demo_summary (e : Engine) (results : list StepResult)
  : DemoSummary :=
  {| total_reward := py_sum (map result_reward results);
     avg_score :=
       match results with
       | [] => 0%Q
       | _ => (py_sum (map result_score results)
               / Q_of_nat (length results))%Q
       end;
     total_decisions := decision_count e |}.

End TradingDemo.

(** * Vocabulary of the properties

    Definitions that the statements below use: the specification's side
    of the comparisons, the records and the histories of runs, and the
    shapes of results. *)

Import Py LLMInterface TradingDemo.

Section Vocabulary.
Context {ops : StrOps}.

(** The valuation in the words of the specification: cash plus, over the
    positions whose symbol is in the snapshot, quantity times close. *)
Definition in_snapshot (market_data : dict OHLCV) (item : string * Q) : bool :=
  match dict_get (fst item) market_data with
  | Some _ => true
  | None => false
  end.

Definition close_price (market_data : dict OHLCV) (symbol : string) : Q :=
  match dict_get symbol market_data with
  | Some data => default 0%Q (md_close data)
  | None => 0%Q
  end.

Fixpoint Qsum (l : list Q) : Q :=
  match l with
  | [] => 0%Q
  | x :: rest => (x + Qsum rest)%Q
  end.

Definition total_value_spec (state : State) : Q :=
  let market_data := market_data state in
  (default 0 (cash (portfolio state))
   + Qsum (map (fun item => snd item * close_price market_data (fst item))
             (List.filter (in_snapshot market_data)
                (positions (portfolio state)))))%Q.

(** The three records a call of [make_decision] hands to the histories:
    one of each when the call reaches [_update_history], none when it
    raises or returns the fallback decision. *)
Definition call_records (e : Engine) (state : State) (env : CallEnv)
  : list (DecisionRecord * MarketRecord * PortfolioRecord) :=
  match snd (make_decision e state env) with
  | Ok (FullResult decision llm_response _ _) =>
      let e1 := count_decision e in
      [(decision_record e1 state decision llm_response (clock env),
        market_record e1 state, portfolio_record e1 state)]
  | _ => []
  end.

(** All the records of a run, in call order. *)
Fixpoint history_log (e : Engine) (calls : list (State * CallEnv))
  : list (DecisionRecord * MarketRecord * PortfolioRecord) :=
  match calls with
  | [] => []
  | call :: rest =>
      (call_records e (fst call) (snd call)
       ++ history_log (fst (make_decision e (fst call) (snd call))) rest)%list
  end.

Definition log_decisions (log : list (DecisionRecord * MarketRecord * PortfolioRecord)) :=
  map (fun r => fst (fst r)) log.
Definition log_markets (log : list (DecisionRecord * MarketRecord * PortfolioRecord)) :=
  map (fun r => snd (fst r)) log.
Definition log_portfolios (log : list (DecisionRecord * MarketRecord * PortfolioRecord)) :=
  map (fun r => snd r) log.

(** Whether the prompt can be built from a state: every entry of the
    detailed history without an error marker has its three keys, and the
    last five points of every price history have a close, the first four
    of them not zero. *)
Definition prompt_builds (state : State) : bool :=
  is_ok (detailed_history_lines (detailed_history state))
  && is_ok (price_history_lines (price_history state)).

(** The generation service raises whatever it is asked. *)
Definition service_raises (env : CallEnv) : Prop :=
  forall node_id prompt kwargs, is_ok (service env node_id prompt kwargs) = false.

(** What every record of the decision history satisfies. *)
Definition well_formed_record (record : DecisionRecord) : Prop :=
  let d := dr_decision record in
  (action d = "BUY" \/ action d = "SELL")
  /\ (0 <= amount d)%Q
  /\ exists s, symbol d = Some s.

(** A call whose prompt builds, whose service answers and whose snapshot
    has its closes. *)
Definition answered (call : State * CallEnv) : Prop :=
  prompt_builds (fst call) = true
  /\ (forall node_id prompt kwargs,
        is_ok (service (snd call) node_id prompt kwargs) = true)
  /\ (forall s data, dict_get s (market_data (fst call)) = Some data ->
                     md_close data <> None).

(** A call of a run, with whether its generation service answers. *)
Definition tagged_as (t : State * CallEnv * bool) : Prop :=
  if snd t then answered (fst t) else service_raises (snd (fst t)).

(** The ordinals, counted from [n], of the calls whose service
    answers. *)
Fixpoint ordinals_from (n : nat) (tags : list bool) : list nat :=
  match tags with
  | [] => []
  | tag :: rest =>
      if tag then n :: ordinals_from (S n) rest
      else ordinals_from (S n) rest
  end.

(** The characters of a text before its first digit, and the text from
    that digit on. *)
Fixpoint no_digit (s : list N) : bool :=
  match s with
  | [] => true
  | c :: rest => negb (is_digit c) && no_digit rest
  end.

Definition starts_with_digit (s : list N) : bool :=
  match s with
  | [] => false
  | c :: _ => is_digit c
  end.

(** The first number of a text, if it has one, is within the range of a
    double: [float()] gives a number for it and not [inf]. *)
Definition amount_finite (text : string) : bool :=
  match re_search_number (utf8_decode text) with
  | Some amount_match => negb (float_overflows (decimal_of_match amount_match))
  | None => true
  end.

(** The first listed symbol that occurs in [text]. *)
Definition first_symbol_in (text : string) (symbols : list string)
  : option string :=
  List.find (fun symbol => str_in symbol text) symbols.

(** The decision the keyword rules return. *)
Definition keyword_decision (act : string) (symbol response : string)
  : Decision :=
  {| action := act; symbol := Some symbol;
     amount := extract_amount response;
     reasoning := ReasonResponse response |}.

(** What the loop keeps true of its variables: a best symbol is one the
    loop has scored, and while none is set the score is still -1. *)
Definition scores_inv (P : string -> Prop) (acc : Scores) : Prop :=
  match best_buy_symbol acc with
  | Some s => P s
  | None => best_buy_score acc = (-1)%Q
  end
  /\ match best_sell_symbol acc with
     | Some s => P s
     | None => best_sell_score acc = (-1)%Q
     end
  /\ (loop_indicators acc = None ->
      best_buy_score acc = (-1)%Q /\ best_sell_score acc = (-1)%Q).

(** Where the symbol of a decision comes from. *)
Definition symbol_source (state : State) (s : string) : Prop :=
  In s (state_symbols state)
  \/ In s (dict_keys (market_data state))
  \/ (symbols state = Some [] /\ s = "AAPL").

(** The key of the snapshot with the greatest close minus open, the
    first of them when several are greatest. *)
Definition greatest_gain (market_data : dict OHLCV) (s : string) : Prop :=
  exists before after,
    dict_keys market_data = (before ++ s :: after)%list
    /\ Forall (fun k => (day_gain market_data k < day_gain market_data s)%Q)
              before
    /\ Forall (fun k => (day_gain market_data k <= day_gain market_data s)%Q)
              after.

(** Where the symbol of a recorded decision comes from: the configured
    symbols; or, when neither a keyword rule nor the scores decide, the
    key of the snapshot with the greatest gain; or the placeholder, when
    there is neither a configured symbol nor market data. *)
Definition record_symbol_source (state : State) (text : string) (s : string)
  : Prop :=
  In s (state_symbols state)
  \/ (parse_keywords text (state_symbols state) = None
      /\ parse_by_score state = Ok None
      /\ greatest_gain (market_data state) s)
  \/ (state_symbols state = [] /\ market_data state = [] /\ s = "AAPL").

(** What every decision of the two cascades satisfies. *)
Definition committed (state : State) (d : Decision) : Prop :=
  (action d = "BUY" \/ action d = "SELL")
  /\ amount d = 100%Q
  /\ exists s, symbol d = Some s /\ symbol_source state s.

(** The fixed texts of the failure responses. *)
Definition failure_texts : list string :=
  ["输入为空，无法生成响应"; "输入处理失败，请尝试简化输入";
   "输入tokenization失败"; "模型生成失败，输出为空"; "响应解码失败"].

(** A failure response: confidence 0.0, an ["error"] entry in the
    metadata, and a text that reports the failure. *)
Definition is_failure_response (r : LLMResponse) : Prop :=
  confidence r = 0%Q
  /\ (exists error, metadata r !! "error" = Some (VStr error))
  /\ (In (text r) failure_texts
      \/ exists error, text r = "生成失败: " ++ error).

(** Every step of a generation went through: the prompt is not blank, the
    tokenizer gave tokens, the tensors moved to the device, the model gave
    a non-empty output and the decoder a text. *)
Definition generation_went_through (hf : HuggingFaceLLM) (prompt : string)
    (r : LLMResponse) : Prop :=
  let rt := hf_runtime hf in
  str_empty prompt = false
  /\ str_empty (str_strip prompt) = false
  /\ rt_to_device rt = Ok tt
  /\ (exists fed n, rt_encode rt fed = Ok n /\ n <> 0%nat
        /\ exists generation_kwargs rows cols seconds,
             rt_model_generate rt n generation_kwargs = Ok (rows, cols, seconds)
             /\ rows <> 0%nat /\ cols <> 0%nat)
  /\ exists generated_text,
       rt_decode rt = Ok generated_text
       /\ text r = (if str_empty (str_strip generated_text)
                    then "Based on the current situation, I recommend a cautious approach."
                    else str_strip generated_text).

(** A summary, an analysis and a day with every key the prompt
    subscripts. *)
Definition summary_complete (summary : HistorySummary) : Prop :=
  hs_total_change_str summary <> None
  /\ hs_trend_direction summary <> None
  /\ hs_trend_strength_str summary <> None
  /\ hs_volatility_str summary <> None
  /\ hs_volume_trend summary <> None
  /\ hs_avg_volume summary <> None
  /\ hs_min_low summary <> None
  /\ hs_max_high summary <> None.

Definition analysis_complete (analysis : HistoryAnalysis) : Prop :=
  ha_price_momentum analysis <> None
  /\ ha_volume_support analysis <> None
  /\ ha_volatility_level analysis <> None
  /\ ha_trend_quality analysis <> None.

Definition day_complete (day_data : DayData) : Prop :=
  dd_date day_data <> None
  /\ dd_open day_data <> None
  /\ dd_high day_data <> None
  /\ dd_low day_data <> None
  /\ dd_close day_data <> None
  /\ dd_volume day_data <> None
  /\ dd_change_str day_data <> None.

(** An entry of the detailed history that the prompt can render: it
    carries an error marker, or its three keys with every key of the
    summary, of the analysis and of each day. *)
Definition detailed_entry_ok (item : string * DetailedHistory) : Prop :=
  dh_error (snd item) <> None
  \/ exists summary analysis daily_data,
       dh_summary (snd item) = Some summary
       /\ dh_analysis (snd item) = Some analysis
       /\ dh_daily_data (snd item) = Some daily_data
       /\ summary_complete summary
       /\ analysis_complete analysis
       /\ Forall day_complete daily_data.

(** A price history that the prompt can render: fewer than five points,
    or the last five all with a close, none of the first four of them
    zero. *)
Definition price_points_ok (item : string * list (option Q)) : Prop :=
  (length (snd item) < 5)%nat
  \/ exists recent_prices,
       last_n 5 (snd item) = map Some recent_prices
       /\ Forall (fun c => ~ (c == 0)%Q) (removelast recent_prices).

(** A configured symbol whose entry in the snapshot has no close. *)
Definition missing_close (state : State) : Prop :=
  exists symbol data,
    In symbol (state_symbols state)
    /\ dict_get symbol (market_data state) = Some data
    /\ md_close data = None.

(** The market and portfolio records that belong to a decision record. *)
Definition market_view (r : DecisionRecord) : MarketRecord :=
  {| mr_step := dr_step r;
     mr_market_data := dr_market_data r;
     mr_detailed_history := dr_detailed_history r |}.

Definition record_state (r : DecisionRecord) : State :=
  {| market_data := dr_market_data r;
     portfolio := dr_portfolio r;
     technical_indicators := dr_technical_indicators r;
     price_history := [];
     trade_history := [];
     detailed_history := dr_detailed_history r;
     symbols := None |}.

Definition portfolio_view (r : DecisionRecord) : PortfolioRecord :=
  {| pr_step := dr_step r;
     pr_portfolio := dr_portfolio r;
     pr_total_value := calculate_total_portfolio_value (record_state r) |}.

(** Best scores that are not above the threshold of 0.3, as they are
    when no symbol has indicators. *)
Definition below_threshold (acc : Scores) : Prop :=
  Qltb 0.3 (best_buy_score acc) = false
  /\ Qltb 0.3 (best_sell_score acc) = false.

Section ManagerVocabulary.
Context {L : Type} {B : BaseLLM L}.

(** The operations on a manager. *)
Inductive ManagerOp :=
| OpRegister (node_id : string) (node_config : option Kwargs) (now : Q)
| OpGenerate (node_id prompt : string) (kwargs : Kwargs) (now : Q).

Definition apply_op (mgr : SharedLLMManager L) (op : ManagerOp)
  : SharedLLMManager L :=
  match op with
  | OpRegister node_id node_config now =>
      register_node mgr node_id node_config now
  | OpGenerate node_id prompt kwargs now =>
      fst (generate_for_node mgr node_id prompt kwargs now)
  end.

(** Keyword arguments that [generate(self, prompt, **kwargs)] binds: no
    key is the name of one of its own parameters.  With such a key
    the call [self.llm.generate(prompt, **merged_kwargs)] is a [TypeError]
    before [generate] runs, which [generate_for_node] does not model. *)
Definition binds_generate (kwargs : Kwargs) : Prop :=
  kwargs !! "prompt" = None /\ kwargs !! "self" = None.

(** An operation whose configuration, or keyword arguments, bind. *)
Definition op_binds (op : ManagerOp) : Prop :=
  match op with
  | OpRegister _ node_config _ => binds_generate (default ∅ node_config)
  | OpGenerate _ _ kwargs _ => binds_generate kwargs
  end.

(** The manager after a history of operations on [SharedLLMManager(l)]. *)
Definition manager_after (l : L) (history : list ManagerOp)
  : SharedLLMManager L :=
  fold_left apply_op history (new_manager l).

(** The latest registration of [node_id] in a history, after [current]. *)
Fixpoint last_registration (node_id : string) (history : list ManagerOp)
    (current : option NodeEntry) : option NodeEntry :=
  match history with
  | [] => current
  | OpRegister id node_config now :: rest =>
      last_registration node_id rest
        (if String.eqb id node_id
         then Some {| config := default ∅ node_config; registered_time := now |}
         else current)
  | OpGenerate _ _ _ _ :: rest => last_registration node_id rest current
  end.

(** The manager [LLMDecisionMaker.__init__] leaves behind: the role
    ["trading_decision"] registered on a manager of the LLM [l]. *)
Definition engine_manager (l : L) (now : Q) : SharedLLMManager L :=
  register_node (new_manager l) "trading_decision"
    (Some trading_decision_config) now.

(** The generation service of an engine whose manager is [mgr]; [render]
    is the text of a prompt. *)
Definition manager_service (render : Prompt -> string)
    (mgr : SharedLLMManager L) (now : Q)
  : string -> Prompt -> Kwargs -> Exc LLMResponse :=
  fun node_id prompt kwargs =>
    snd (generate_for_node mgr node_id (render prompt) kwargs now).

(** The usage record [register_node] installs. *)
Definition fresh_usage : NodeUsage :=
  {| usage_generation_count := 0; last_used := None; total_tokens := 0 |}.

(** The two maps of a manager have the same keys. *)
Definition stats_aligned (mgr : SharedLLMManager L) : Prop :=
  forall node_id,
    is_Some (registered_nodes mgr !! node_id)
    <-> is_Some (node_usage_stats mgr !! node_id).

End ManagerVocabulary.

End Vocabulary.

(** ** Sample inputs *)

Module Sample.

Definition no_portfolio : Portfolio := {| cash := None; positions := [] |}.

(** [{}] *)
Definition empty_state : State :=
  {| market_data := []; portfolio := no_portfolio;
     technical_indicators := []; price_history := []; trade_history := [];
     detailed_history := []; symbols := None |}.

(** [{"symbols": []}] *)
Definition no_symbols_state : State :=
  {| market_data := []; portfolio := no_portfolio;
     technical_indicators := []; price_history := []; trade_history := [];
     detailed_history := []; symbols := Some [] |}.

Definition quote (open close : Q) : OHLCV :=
  {| md_open := Some open; md_high := None; md_low := None;
     md_close := Some close; md_volume := None |}.

(** [{"symbols": ["AAPL"],
      "market_data": {"AAPL": {"open": 100, "close": 105}}}] *)
Definition aapl_state : State :=
  {| market_data := [("AAPL", quote 100 105)]; portfolio := no_portfolio;
     technical_indicators := []; price_history := []; trade_history := [];
     detailed_history := []; symbols := Some ["AAPL"] |}.

(** The same market seen with a portfolio and a price history. *)
Definition aapl_state_held : State :=
  {| market_data := [("AAPL", quote 100 105)];
     portfolio := {| cash := Some 2500%Q; positions := [("AAPL", 4%Q)] |};
     technical_indicators := [];
     price_history := [("AAPL", [Some 101%Q; Some 102%Q])];
     trade_history := []; detailed_history := [];
     symbols := Some ["AAPL"] |}.

(** A snapshot of a symbol that is not configured. *)
Definition xyz_state : State :=
  {| market_data := [("XYZ", quote 1 2)]; portfolio := no_portfolio;
     technical_indicators := []; price_history := []; trade_history := [];
     detailed_history := []; symbols := Some ["AAPL"] |}.

(** Cash 1000 and ten X, with and without X at close 5 in the snapshot. *)
Definition x_portfolio : Portfolio :=
  {| cash := Some 1000%Q; positions := [("X", 10%Q)] |}.

Definition x_state_priced : State :=
  {| market_data := [("X", quote 4 5)]; portfolio := x_portfolio;
     technical_indicators := []; price_history := []; trade_history := [];
     detailed_history := []; symbols := None |}.

Definition x_state_unpriced : State :=
  {| market_data := [("Y", quote 4 5)]; portfolio := x_portfolio;
     technical_indicators := []; price_history := []; trade_history := [];
     detailed_history := []; symbols := None |}.

Definition a_clock : string := "2025-01-01T09:30:00".

(** A generation service that raises. *)
Definition raising_env : CallEnv :=
  {| service := fun _ _ _ => Raise (mkExc RuntimeError "backend unavailable");
     clock := a_clock |}.

(** A generation service that answers [answer]. *)
Definition answering_env (answer : string) : CallEnv :=
  {| service := fun _ _ _ =>
       Ok {| text := answer; confidence := 0.7%Q; LLMInterface.reasoning := EmptyString;
             metadata := ∅ |};
     clock := a_clock |}.

Definition a_config : LLMConfig :=
  {| cfg_backend := HUGGINGFACE; cfg_model_name := "Qwen/Qwen-7B-Chat";
     cfg_max_length := 512; cfg_temperature := 0.7; cfg_top_p := 0.9;
     cfg_top_k := 50; cfg_do_sample := true; cfg_use_cache := true |}.

(** A runtime whose loading fails with [load_error] when [loads] is
    false, and whose tokenizer raises. *)
Definition load_error : PyException := mkExc RuntimeError "cannot load model".

Definition broken_runtime (loads : bool) : HFRuntime :=
  {| rt_load_model := if loads then None else Some load_error;
     rt_encode := fun _ => Raise (mkExc RuntimeError "tokenizer failure");
     rt_to_device := Ok tt;
     rt_eos_token_id := VNum 2;
     rt_model_generate := fun _ _ => Ok (1%nat, 8%nat, 0.5%Q);
     rt_decode := Ok "BUY AAPL 150 shares";
     rt_device := "cpu" |}.

(** [HuggingFaceLLM(config)] before the first call. *)
Definition new_hf (rt : HFRuntime) : HuggingFaceLLM :=
  {| hf_config := a_config; hf_generation_count := 0; hf_update_count := 0;
     hf_model_loaded := false; hf_runtime := rt |}.

(** [MockLLM(config)] *)
Definition new_mock : MockLLM :=
  {| mock_config := a_config; mock_generation_count := 0;
     mock_update_count := 0; mock_model_loaded := false |}.

(** A [MockLLM] after [n] parameter updates. *)
Definition trained_mock (n : nat) : MockLLM :=
  {| mock_config := a_config; mock_generation_count := 0;
     mock_update_count := n; mock_model_loaded := true |}.

(** Two parameters, and gradients for the first and for an unknown
    name. *)
Definition small_parameters : gmap string (list Q) :=
  <["w" := [1; 2; 3]%Q]> (<["b" := [5]%Q]> ∅).

Definition small_gradients : dict Gradient :=
  [("w", GradList [10; 10]%Q); ("unknown", GradScalar 1%Q)].

(** A runtime that loads, tokenizes, generates and decodes. *)
Definition working_runtime : HFRuntime :=
  {| rt_load_model := None;
     rt_encode := fun _ => Ok 5%nat;
     rt_to_device := Ok tt;
     rt_eos_token_id := VNum 2;
     rt_model_generate := fun _ _ => Ok (1%nat, 8%nat, 0.5%Q);
     rt_decode := Ok "BUY AAPL 150 shares";
     rt_device := "cpu" |}.

(** A manager of a [MockLLM] on which the role ["analyst"] is
    registered. *)
Definition analyst_entry : NodeEntry :=
  {| config := <["temperature" := VNum 0.7]> ∅; registered_time := 0 |}.

Definition analyst_history : list ManagerOp :=
  [OpRegister "analyst" (Some (config analyst_entry)) 0].

Definition analyst_manager : SharedLLMManager MockLLM :=
  manager_after new_mock analyst_history.

(** Two symbols, the second with the greater gain of the day. *)
Definition two_symbol_state : State :=
  {| market_data := [("AAPL", quote 100 105); ("MSFT", quote 50 60)];
     portfolio := no_portfolio;
     technical_indicators := []; price_history := []; trade_history := [];
     detailed_history := []; symbols := None |}.

(** A price history with a zero close among its last five points. *)
Definition zero_close_state : State :=
  {| market_data := [("AAPL", quote 100 105)]; portfolio := no_portfolio;
     technical_indicators := [];
     price_history := [("AAPL", [Some 1; Some 0; Some 2; Some 3; Some 4]%Q)];
     trade_history := []; detailed_history := [];
     symbols := Some ["AAPL"] |}.

(** A detailed history whose entry has its three keys and a summary
    without its average volume. *)
Definition incomplete_summary_state : State :=
  {| market_data := [("AAPL", quote 100 105)]; portfolio := no_portfolio;
     technical_indicators := []; price_history := []; trade_history := [];
     detailed_history :=
       [("AAPL",
         {| dh_error := None;
            dh_summary :=
              Some {| hs_total_change_str := Some "+5.00%";
                      hs_trend_direction := Some "up";
                      hs_trend_strength_str := Some "strong";
                      hs_volatility_str := Some "1.20%";
                      hs_volume_trend := Some "rising";
                      hs_avg_volume := None;
                      hs_min_low := Some 98%Q;
                      hs_max_high := Some 106%Q |};
            dh_analysis :=
              Some {| ha_price_momentum := Some "positive";
                      ha_volume_support := Some "strong";
                      ha_volatility_level := Some "low";
                      ha_trend_quality := Some "steady" |};
            dh_daily_data := Some [] |})];
     symbols := Some ["AAPL"] |}.

(** A configured symbol whose entry in the snapshot has no close. *)
Definition unclosed_state : State :=
  {| market_data :=
       [("AAPL", {| md_open := Some 100%Q; md_high := None; md_low := None;
                    md_close := None; md_volume := None |})];
     portfolio := no_portfolio;
     technical_indicators := []; price_history := []; trade_history := [];
     detailed_history := []; symbols := Some ["AAPL"] |}.

(** [{"market_data": {"X": {"open": 4, "close": 5}},
      "portfolio": {"cash": 1000, "positions": {"X": 10}}}] *)
Definition x_raw_state : RawState :=
  {| raw_market_data := Some [("X", quote 4 5)];
     raw_portfolio :=
       Some {| raw_cash := Some 1000%Q; raw_positions := Some [("X", 10%Q)] |};
     raw_technical_indicators := None; raw_price_history := None;
     raw_trade_history := None; raw_detailed_history := None;
     raw_symbols := None |}.

(** A step on a node with a sandbox that gives [x_raw_state], scores 0.5
    and trains. *)
Definition a_step (call : CallEnv) : StepEnv :=
  {| step_node := true;
     step_case := Ok x_raw_state;
     step_call := call;
     step_verify_score := fun _ => Ok 0.5%Q;
     step_train := fun _ _ _ => Ok ∅;
     step_sandbox_id := "trading_sandbox" |}.

End Sample.

(** * Properties *)


(** ** Numbers and lists *)

Lemma Qltb_lt (x y : Q) : Qltb x y = true <-> (x < y)%Q.
Proof.
  unfold Qltb. rewrite negb_true_iff. split.
  - intros Hle. apply Qnot_le_lt. intros Hyx.
    apply Qle_bool_iff in Hyx. congruence.
  - intros Hlt. destruct (Qle_bool y x) eqn:E; [|reflexivity].
    apply Qle_bool_iff in E. exfalso. exact (Qlt_not_le _ _ Hlt E).
Qed.

Lemma Qltb_irrefl (x : Q) : Qltb x x = false.
Proof.
  destruct (Qltb x x) eqn:E; [|reflexivity].
  apply Qltb_lt in E. exfalso. exact (Qlt_irrefl _ E).
Qed.

Lemma last_n_length {A} (n : nat) (l : list A) :
  length (last_n n l) = Nat.min n (length l).
Proof. unfold last_n. rewrite length_drop. lia. Qed.

Lemma last_n_all {A} (n : nat) (l : list A) :
  (length l <= n)%nat -> last_n n l = l.
Proof.
  intros Hle. unfold last_n.
  replace (length l - n)%nat with 0%nat by lia. reflexivity.
Qed.

Lemma last_n_app_one {A} (n : nat) (l : list A) (x : A) :
  last_n (S n) (l ++ [x])%list = (last_n n l ++ [x])%list.
Proof.
  unfold last_n. rewrite length_app. simpl.
  replace (length l + 1 - S n)%nat with (length l - n)%nat by lia.
  rewrite drop_app_le by lia. reflexivity.
Qed.

Lemma last_n_last_n {A} (n m : nat) (l : list A) :
  (n <= m)%nat -> last_n n (last_n m l) = last_n n l.
Proof.
  intros Hnm. unfold last_n. rewrite length_drop, drop_drop.
  f_equal. lia.
Qed.

(** ** Portfolio valuation *)

Lemma position_value_fold (market_data : dict OHLCV) (positions : dict Q) (acc : Q) :
  (fold_left
     (fun position_value '(symbol, amount) =>
        match dict_get symbol market_data with
        | Some data =>
            match md_close data with
            | Some close => (position_value + amount * close)%Q
            | None => position_value
            end
        | None => position_value
        end) positions acc
   == acc + Qsum (map (fun item => snd item * close_price market_data (fst item))
                    (List.filter (in_snapshot market_data) positions)))%Q.
Proof.
  revert acc. induction positions as [|[symbol amount] rest IH]; intros acc.
  - simpl. ring.
  - cbn [fold_left List.filter]. rewrite IH.
    unfold in_snapshot at 2. cbn [fst].
    destruct (dict_get symbol market_data) as [data|] eqn:Hget.
    + cbn [map Qsum fst snd]. unfold close_price at 2. rewrite Hget.
      destruct (md_close data) as [close|]; unfold default; cbn [from_option id]; ring.
    + ring.
Qed.

(** C5.  [_calculate_total_portfolio_value] returns a number for every
    state (it cannot raise), equal to the cash plus the sum of quantity
    times close price over the positions whose symbol is in the market
    snapshot; a position outside the snapshot adds nothing.  With cash 1000
    and the single position X: 10 the value is 1050 when the snapshot has
    X at close 5, and 1000 when X is not in the snapshot. *)
Theorem portfolio_total_value (state : State) :
  (calculate_total_portfolio_value state == total_value_spec state)%Q
  /\ (cash (portfolio state) = Some 1000%Q ->
      positions (portfolio state) = [("X", 10%Q)] ->
      (forall data, dict_get "X" (market_data state) = Some data ->
                    md_close data = Some 5%Q ->
                    calculate_total_portfolio_value state = 1050%Q)
      /\ (dict_get "X" (market_data state) = None ->
          calculate_total_portfolio_value state = 1000%Q)).
Proof.
  split.
  - unfold calculate_total_portfolio_value, total_value_spec.
    rewrite position_value_fold. ring.
  - intros Hcash Hpos. unfold calculate_total_portfolio_value.
    rewrite Hcash, Hpos. cbn [fold_left default]. split.
    + intros data Hget Hclose. rewrite Hget, Hclose. reflexivity.
    + intros Hget. rewrite Hget. reflexivity.
Qed.

(** ** Capped histories *)

Lemma append_capped_last_n {A} (cap : nat) (l : list A) (x : A) :
  (0 < cap)%nat ->
  append_capped cap (last_n cap l) x = last_n cap (l ++ [x])%list.
Proof.
  intros Hcap. unfold append_capped.
  destruct cap as [|n]; [lia|].
  rewrite length_app, last_n_length. cbn [length].
  destruct (Nat.ltb_spec (S n) (Nat.min (S n) (length l) + 1)) as [Hfull|Hroom].
  - rewrite !last_n_app_one. rewrite last_n_last_n by lia. reflexivity.
  - rewrite (last_n_all (S n) l) by lia.
    rewrite last_n_all; [reflexivity|]. rewrite length_app. cbn [length]. lia.
Qed.

Lemma fold_append_capped {A} (cap : nat) (records l : list A) :
  (0 < cap)%nat ->
  fold_left (append_capped cap) records (last_n cap l)
  = last_n cap (l ++ records)%list.
Proof.
  intros Hcap. revert l.
  induction records as [|x rest IH]; intros l.
  - rewrite app_nil_r. reflexivity.
  - cbn [fold_left]. rewrite append_capped_last_n by exact Hcap.
    rewrite IH. rewrite <- app_assoc. reflexivity.
Qed.

Lemma last_n_min {A} (cap n : nat) (l : list A) :
  (length l <= n)%nat -> last_n (Nat.min n cap) l = last_n cap l.
Proof.
  intros Hlen. destruct (Nat.le_gt_cases cap n) as [Hle|Hgt].
  - rewrite Nat.min_r by exact Hle. reflexivity.
  - rewrite Nat.min_l by lia. rewrite !last_n_all by lia. reflexivity.
Qed.

Section Engine.
Context {ops : StrOps}.

(** The three ways a call ends. *)
Lemma make_decision_cases (e : Engine) (state : State) (env : CallEnv) :
  let e1 := count_decision e in
  (exists x, make_decision e state env = (e1, Raise x))
  \/ (exists d, make_decision e state env = (e1, Ok (FallbackResult d)))
  \/ (exists d response prompt,
        make_decision e state env
        = (update_history e1 state d (text response) (clock env),
           Ok (FullResult d (text response) prompt (decision_count e1)))).
Proof.
  intros e1. unfold make_decision. fold e1.
  destruct (construct_decision_prompt e1 state) as [prompt|x]; [|left; eauto].
  destruct (service env "trading_decision" prompt trading_decision_kwargs)
    as [response|x].
  - destruct (parse_decision (text response) state) as [d|x]; [|left; eauto].
    right. right. eauto.
  - destruct (fallback_decision state) as [d|y]; cbn; [right; left|left]; eauto.
Qed.

Lemma make_decision_histories (e : Engine) (state : State) (env : CallEnv) :
  let e' := fst (make_decision e state env) in
  let log := call_records e state env in
  decision_count e' = S (decision_count e)
  /\ decision_history e'
     = fold_left (append_capped 50) (log_decisions log) (decision_history e)
  /\ market_history e'
     = fold_left (append_capped 30) (log_markets log) (market_history e)
  /\ portfolio_history e'
     = fold_left (append_capped 30) (log_portfolios log) (portfolio_history e).
Proof.
  unfold call_records.
  destruct (make_decision_cases e state env)
    as [[x ->]|[[d ->]|(d & response & prompt & ->)]]; cbn; auto.
Qed.

Lemma run_cons (e : Engine) (call : State * CallEnv)
    (rest : list (State * CallEnv)) :
  run e (call :: rest) = run (fst (make_decision e (fst call) (snd call))) rest.
Proof. reflexivity. Qed.

Lemma run_histories (calls : list (State * CallEnv)) (e : Engine) :
  let e' := run e calls in
  let log := history_log e calls in
  decision_count e' = (decision_count e + length calls)%nat
  /\ decision_history e'
     = fold_left (append_capped 50) (log_decisions log) (decision_history e)
  /\ market_history e'
     = fold_left (append_capped 30) (log_markets log) (market_history e)
  /\ portfolio_history e'
     = fold_left (append_capped 30) (log_portfolios log) (portfolio_history e).
Proof.
  revert e. induction calls as [|call rest IH]; intros e.
  - cbn. auto with arith.
  - rewrite run_cons. cbn [history_log length].
    destruct (make_decision_histories e (fst call) (snd call))
      as (Hc & Hd & Hm & Hp).
    destruct (IH (fst (make_decision e (fst call) (snd call))))
      as (Hc' & Hd' & Hm' & Hp').
    unfold log_decisions, log_markets, log_portfolios in *.
    rewrite !map_app, !fold_left_app.
    rewrite <- Hd, <- Hm, <- Hp. repeat split; try assumption.
    rewrite Hc', Hc. lia.
Qed.

Lemma call_records_length (e : Engine) (state : State) (env : CallEnv) :
  (length (call_records e state env) <= 1)%nat.
Proof.
  unfold call_records.
  destruct (snd (make_decision e state env)) as [[d|d r p n]|x]; cbn; lia.
Qed.

Lemma history_log_length (calls : list (State * CallEnv)) (e : Engine) :
  (length (history_log e calls) <= length calls)%nat.
Proof.
  revert e. induction calls as [|call rest IH]; intros e; cbn; [lia|].
  rewrite length_app.
  pose proof (call_records_length e (fst call) (snd call)).
  pose proof (IH (fst (make_decision e (fst call) (snd call)))). lia.
Qed.

(** The histories of a run are the last [cap] records of its log. *)
Lemma history_cap_bounds (calls : list (State * CallEnv)) :
  let e' := run new_engine calls in
  let log := history_log new_engine calls in
  decision_history e' = last_n 50 (log_decisions log)
  /\ market_history e' = last_n 30 (log_markets log)
  /\ portfolio_history e' = last_n 30 (log_portfolios log).
Proof.
  intros e' log.
  destruct (run_histories calls new_engine) as (_ & Hd & Hm & Hp).
  fold e' log in Hd, Hm, Hp. cbn [new_engine decision_history market_history
    portfolio_history] in Hd, Hm, Hp.
  rewrite Hd, Hm, Hp. repeat split.
  - apply (fold_append_capped 50 _ []). lia.
  - apply (fold_append_capped 30 _ []). lia.
  - apply (fold_append_capped 30 _ []). lia.
Qed.

End Engine.

(** ** The fallback path of make_decision *)

Lemma construct_decision_prompt_ok (e : Engine) (state : State) :
  prompt_builds state = true ->
  exists prompt, construct_decision_prompt e state = Ok prompt.
Proof.
  unfold prompt_builds, construct_decision_prompt. intros Hb.
  apply andb_prop in Hb as [Hd Hp].
  destruct (detailed_history_lines (detailed_history state)); [|discriminate].
  destruct (price_history_lines (price_history state)); [|discriminate].
  cbn. eauto.
Qed.

Lemma construct_decision_prompt_raises (e : Engine) (state : State) :
  prompt_builds state = false ->
  exists x, construct_decision_prompt e state = Raise x.
Proof.
  unfold prompt_builds, construct_decision_prompt. intros Hb.
  destruct (detailed_history_lines (detailed_history state)); cbn in *; [|eauto].
  destruct (price_history_lines (price_history state)); cbn in *; [discriminate|eauto].
Qed.

Section Fallback.
Context {ops : StrOps}.

(** When the service raises, [make_decision] is [_fallback_decision]
    after the counter: no history is touched. *)
Lemma make_decision_fallback (e : Engine) (state : State) (env : CallEnv) :
  prompt_builds state = true ->
  service_raises env ->
  make_decision e state env
  = (count_decision e, exc_map FallbackResult (fallback_decision state)).
Proof.
  intros Hb Hraise. unfold make_decision.
  destruct (construct_decision_prompt_ok (count_decision e) state Hb)
    as [prompt ->].
  specialize (Hraise "trading_decision" prompt trading_decision_kwargs).
  destruct (service env "trading_decision" prompt trading_decision_kwargs);
    [discriminate|reflexivity].
Qed.

(** C7.  What the code does against the claim: a call in which the
    generation service raises returns from the [except] branch before
    [_update_history]; the counter is incremented and the three
    histories are left as they were, whatever the state. *)
Theorem fallback_call_skips_history (e : Engine) (state : State)
    (env : CallEnv) :
  prompt_builds state = true ->
  service_raises env ->
  let e' := fst (make_decision e state env) in
  decision_count e' = S (decision_count e)
  /\ decision_history e' = decision_history e
  /\ market_history e' = market_history e
  /\ portfolio_history e' = portfolio_history e.
Proof.
  intros Hb Hraise. rewrite make_decision_fallback by assumption.
  cbn. auto.
Qed.

(** C1.  What the code does against the claim: with an explicitly empty
    symbol list and no market data, a call in which the generation
    service raises ends in the [IndexError] of [symbols[0]] and returns no
    action. *)
Theorem fallback_empty_symbols_raises (e : Engine) (state : State)
    (env : CallEnv) :
  prompt_builds state = true ->
  service_raises env ->
  market_data state = [] ->
  symbols state = Some [] ->
  snd (make_decision e state env)
  = Raise (mkExc IndexError "list index out of range").
Proof.
  intros Hb Hraise Hmd Hsym. rewrite make_decision_fallback by assumption.
  unfold fallback_decision, state_symbols. rewrite Hmd, Hsym. reflexivity.
Qed.

(** C4.  With a generation service that always raises, the symbol
    universe ["AAPL"], a market snapshot holding AAPL alone with open 100
    and close 105, and no technical indicators, [make_decision] returns
    the action BUY, symbol AAPL, amount 100. *)
Theorem end_to_end_scenario (e : Engine) (state : State) (env : CallEnv)
    (data : OHLCV) :
  prompt_builds state = true ->
  service_raises env ->
  symbols state = Some ["AAPL"] ->
  market_data state = [("AAPL", data)] ->
  md_open data = Some 100%Q ->
  md_close data = Some 105%Q ->
  technical_indicators state = [] ->
  exists decision,
    snd (make_decision e state env) = Ok (FallbackResult decision)
    /\ action decision = "BUY"
    /\ symbol decision = Some "AAPL"
    /\ amount decision = 100%Q.
Proof.
  intros Hb Hraise Hsym Hmd Hopen Hclose Hti.
  rewrite make_decision_fallback by assumption.
  unfold fallback_decision. rewrite Hmd.
  cbn [dict_keys map fst fallback_score_loop].
  unfold indicators_of. rewrite Hti. cbn [dict_get].
  eexists. split; [reflexivity|]. cbn. auto.
Qed.

End Fallback.

(** ** Parsing the response *)

Lemma re_search_number_none (s : list N) :
  re_search_number s = None <-> no_digit s = true.
Proof.
  induction s as [|c rest IH]; cbn [re_search_number no_digit].
  - tauto.
  - destruct (is_digit c); cbn; [split; discriminate|exact IH].
Qed.

Lemma re_search_number_leftmost (pre rest : list N) :
  no_digit pre = true ->
  starts_with_digit rest = true ->
  re_search_number (pre ++ rest)%list = Some (match_number_at rest).
Proof.
  intros Hpre Hrest. induction pre as [|c pre IH].
  - destruct rest as [|d rest]; [discriminate|].
    cbn [starts_with_digit] in Hrest. cbn [app re_search_number].
    rewrite Hrest. reflexivity.
  - cbn [no_digit] in Hpre.
    apply andb_prop in Hpre as [Hc Hpre]. apply negb_true_iff in Hc.
    cbn [app re_search_number]. rewrite Hc. exact (IH Hpre).
Qed.

Lemma extract_amount_default (s : string) :
  no_digit (utf8_decode s) = true -> extract_amount s = 100%Q.
Proof.
  intros Hs. apply re_search_number_none in Hs.
  unfold extract_amount. rewrite Hs. reflexivity.
Qed.

Lemma extract_amount_first (s : string) (pre rest : list N) :
  utf8_decode s = (pre ++ rest)%list ->
  no_digit pre = true ->
  starts_with_digit rest = true ->
  extract_amount s = float_of_match (match_number_at rest).
Proof.
  intros Hs Hpre Hrest. unfold extract_amount.
  rewrite Hs, re_search_number_leftmost by assumption. reflexivity.
Qed.

Lemma round_half_even_nonneg (a b : Z) :
  (0 <= a)%Z -> (0 < b)%Z -> (0 <= round_half_even a b)%Z.
Proof.
  intros Ha Hb. unfold round_half_even.
  pose proof (Z.div_pos a b Ha Hb).
  destruct (2 * (a mod b) ?= b)%Z; [destruct (Z.even (a / b))| |]; lia.
Qed.

Lemma float_round_nonneg (q : Q) : (0 <= float_round q)%Q.
Proof.
  unfold float_round.
  destruct (Qnum q <=? 0)%Z eqn:Hn; [apply Qle_refl|].
  apply Z.leb_gt in Hn.
  destruct (0 <=? _)%Z eqn:Hshift.
  - apply Z.leb_le in Hshift.
    change 0%Q with (inject_Z 0). rewrite <- Zle_Qle.
    apply Z.mul_nonneg_nonneg.
    + apply round_half_even_nonneg; [lia|].
      apply Z.mul_pos_pos; [lia|apply Z.pow_pos_nonneg; lia].
    + apply Z.pow_nonneg. lia.
  - apply Z.leb_gt in Hshift. rewrite Qred_correct.
    match goal with
    | |- (0 <= Qmake ?m ?p)%Q =>
        assert (Hm : (0 <= m)%Z);
        [|revert Hm; generalize m as m'; generalize p as p';
          intros p' m' Hm; unfold Qle; cbn [Qnum Qden]; lia]
    end.
    apply round_half_even_nonneg; [|lia].
    apply Z.mul_nonneg_nonneg; [lia|apply Z.pow_nonneg; lia].
Qed.

Lemma float_of_match_nonneg (m : NumberMatch) : (0 <= float_of_match m)%Q.
Proof. apply float_round_nonneg. Qed.

Lemma extract_amount_nonneg (s : string) : (0 <= extract_amount s)%Q.
Proof.
  unfold extract_amount. destruct (re_search_number (utf8_decode s)).
  - apply float_of_match_nonneg.
  - discriminate.
Qed.

Section Parsing.
Context {ops : StrOps}.

Lemma scan_symbols_find (act text response : string) (symbols : list string) :
  scan_symbols act text response symbols
  = option_map (fun s => keyword_decision act s response)
      (first_symbol_in text symbols).
Proof.
  unfold scan_symbols, first_symbol_in.
  destruct (List.find _ symbols); reflexivity.
Qed.

(** C3, as the code has it.  On the stripped text: with the keyword 买入
    and a known symbol in the text, the action is BUY for the first listed
    symbol that occurs in it, whatever sell keyword the text also has.
    With BUY in the upper-cased text and a known symbol in the upper-cased
    text, the action is BUY for the first listed symbol that occurs there,
    whatever SELL the text also has, provided the Chinese rules did not
    decide: no listed symbol occurs in the text as written, or neither
    Chinese keyword does.  In both cases the amount is the number that
    the first run of decimal digits of the text writes, with the digits
    after a point if there are any, as [float()] reads it, and 100 when
    the text has no digit.  A number beyond the largest double, which
    Python reads as [inf], is left out. *)
Theorem parse_buy_priority (response : string) (state : State) :
  let txt := str_strip response in
  let symbols := state_symbols state in
  let buys s :=
    exists d,
      parse_decision response state = Ok d
      /\ action d = "BUY"
      /\ symbol d = Some s
      /\ reasoning d = ReasonResponse txt
      /\ (amount_finite txt = true -> amount d = extract_amount txt) in
  (str_in kw_buy txt = true ->
   forall s, first_symbol_in txt symbols = Some s -> buys s)
  /\ (first_symbol_in txt symbols = None
      \/ (str_in kw_buy txt = false /\ str_in kw_sell txt = false) ->
      str_in "BUY" (str_upper txt) = true ->
      forall s, first_symbol_in (str_upper txt) symbols = Some s -> buys s)
  /\ (no_digit (utf8_decode txt) = true -> extract_amount txt = 100%Q)
  /\ (forall pre rest,
        utf8_decode txt = (pre ++ rest)%list ->
        no_digit pre = true ->
        starts_with_digit rest = true ->
        extract_amount txt = float_of_match (match_number_at rest)
        /\ float_of_match (match_number_at rest)
           = float_round (decimal_of_match (match_number_at rest))).
Proof.
  intros txt symbols buys.
  assert (Hkw : forall s,
            parse_keywords txt symbols = Some (keyword_decision "BUY" s txt) ->
            buys s).
  { intros s Hs. exists (keyword_decision "BUY" s txt).
    unfold parse_decision. fold txt symbols. rewrite Hs.
    cbn. repeat split; auto. }
  split; [|split; [|split]].
  - intros Hbuy s Hs. apply Hkw. unfold parse_keywords.
    rewrite Hbuy, scan_symbols_find, Hs. reflexivity.
  - intros Hno Hbuy s Hs. apply Hkw. unfold parse_keywords.
    rewrite !scan_symbols_find, Hbuy, Hs.
    destruct Hno as [Hnone|[Hb Hs']].
    + rewrite Hnone. cbn.
      destruct (str_in kw_buy txt), (str_in kw_sell txt); reflexivity.
    + rewrite Hb, Hs'. reflexivity.
  - apply extract_amount_default.
  - intros pre rest Htxt Hpre Hrest.
    split; [apply (extract_amount_first txt pre rest); assumption|reflexivity].
Qed.

End Parsing.

(** ** The scoring cascade *)

Lemma dict_get_keys {V} (k : string) (d : dict V) (v : V) :
  dict_get k d = Some v -> In k (dict_keys d).
Proof.
  induction d as [|[k' v'] rest IH]; cbn; [discriminate|].
  destruct (String.eqb_spec k k') as [->|Hne]; [auto|].
  intros Hget. right. exact (IH Hget).
Qed.

Lemma max_by_in {A} (key : A -> Q) (others : list A) (first : A) :
  In (max_by key first others) (first :: others).
Proof.
  unfold max_by. revert first.
  induction others as [|x rest IH]; intros first; cbn [fold_left].
  - left. reflexivity.
  - destruct (Qltb (key first) (key x)).
    + right. exact (IH x).
    + destruct (IH first) as [Heq|Hin]; [left|right; right]; assumption.
Qed.

Lemma Qltb_le_false (x y : Q) : Qltb x y = false <-> (y <= x)%Q.
Proof.
  unfold Qltb. rewrite negb_false_iff. apply Qle_bool_iff.
Qed.

(** [max_by] returns the first of the greatest: the elements before it
    are smaller, the elements after it are not greater. *)
Lemma max_by_spec {A} (key : A -> Q) (others : list A) (first : A) :
  exists before after,
    first :: others = (before ++ max_by key first others :: after)%list
    /\ Forall (fun x => (key x < key (max_by key first others))%Q) before
    /\ Forall (fun x => (key x <= key (max_by key first others))%Q) after.
Proof.
  unfold max_by. induction others as [|x rest IH] using rev_ind.
  - exists [], []. cbn. auto.
  - rewrite fold_left_app. cbn [fold_left].
    destruct IH as (before & after & Heq & Hb & Ha).
    set (m := fold_left (fun best y => if Qltb (key best) (key y) then y else best)
                rest first) in *.
    destruct (Qltb (key m) (key x)) eqn:Hlt.
    + apply Qltb_lt in Hlt.
      exists (before ++ m :: after)%list, [].
      split; [rewrite <- Heq, app_comm_cons; reflexivity|]. split; [|constructor].
      apply Forall_app. split; [|constructor].
      * eapply List.Forall_impl; [|exact Hb]. cbn. intros y Hy. lra.
      * exact Hlt.
      * eapply List.Forall_impl; [|exact Ha]. cbn. intros y Hy. lra.
    + apply Qltb_le_false in Hlt.
      exists before, (after ++ [x])%list.
      split; [rewrite app_comm_cons, Heq, <- app_assoc; reflexivity|].
      split; [exact Hb|]. apply Forall_app. split; [exact Ha|].
      constructor; [exact Hlt|constructor].
Qed.

Lemma max_by_greatest {A} (key : A -> Q) (others : list A) (first : A) (x : A) :
  In x (first :: others) -> (key x <= key (max_by key first others))%Q.
Proof.
  destruct (max_by_spec key others first) as (before & after & -> & Hb & Ha).
  rewrite List.Forall_forall in Hb, Ha.
  intros Hin. apply in_app_or in Hin as [Hin|[<-|Hin]].
  - apply Qlt_le_weak, Hb, Hin.
  - apply Qle_refl.
  - apply Ha, Hin.
Qed.

Lemma scores_inv_initial (P : string -> Prop) : scores_inv P initial_scores.
Proof. repeat split. Qed.

Lemma scores_inv_step (P : string -> Prop) (acc : Scores) (symbol : string)
    (ti : Indicators) :
  P symbol -> scores_inv P acc -> scores_inv P (score_symbol acc symbol ti).
Proof.
  intros Hs (Hb & Hsell & Hl). unfold scores_inv, score_symbol. cbn.
  repeat split.
  - destruct (Qltb (best_buy_score acc) _); assumption.
  - destruct (Qltb (best_sell_score acc) _); assumption.
  - discriminate.
  - discriminate.
Qed.

Lemma parse_score_loop_inv (P : string -> Prop) (state : State)
    (symbols : list string) (acc acc' : Scores) :
  (forall s, In s symbols -> In s (dict_keys (market_data state)) -> P s) ->
  scores_inv P acc ->
  parse_score_loop state symbols acc = Ok acc' ->
  scores_inv P acc'.
Proof.
  revert acc. induction symbols as [|symbol rest IH]; intros acc HP Hinv Hloop.
  - cbn in Hloop. congruence.
  - cbn [parse_score_loop] in Hloop.
    assert (HP' : forall s, In s rest ->
                    In s (dict_keys (market_data state)) -> P s).
    { intros s Hin. apply HP. right. exact Hin. }
    destruct (dict_get symbol (market_data state)) as [data|] eqn:Hget.
    + destruct (md_close data) as [price|]; cbn in Hloop; [|discriminate].
      apply (IH _ HP') in Hloop; [exact Hloop|].
      apply scores_inv_step; [|exact Hinv].
      apply HP; [left; reflexivity|]. exact (dict_get_keys _ _ _ Hget).
    + exact (IH _ HP' Hinv Hloop).
Qed.

Lemma fallback_score_loop_inv (P : string -> Prop) (state : State)
    (symbols : list string) (acc : Scores) :
  (forall s, In s symbols -> P s) ->
  scores_inv P acc ->
  scores_inv P (fallback_score_loop state symbols acc).
Proof.
  revert acc. induction symbols as [|symbol rest IH]; intros acc HP Hinv.
  - exact Hinv.
  - cbn [fallback_score_loop]. apply IH.
    + intros s Hin. apply HP. right. exact Hin.
    + apply scores_inv_step; [|exact Hinv]. apply HP. left. reflexivity.
Qed.

(** A score above the threshold comes with its symbol and with the
    loop's indicators. *)
Lemma scores_inv_buy (P : string -> Prop) (acc : Scores) :
  scores_inv P acc ->
  Qltb 0.3 (best_buy_score acc) = true ->
  (exists s, best_buy_symbol acc = Some s /\ P s)
  /\ exists ti, loop_indicators acc = Some ti.
Proof.
  intros (Hb & _ & Hl) Hlt. split.
  - destruct (best_buy_symbol acc) as [s|]; [eauto|].
    rewrite Hb in Hlt. discriminate.
  - destruct (loop_indicators acc) as [ti|]; [eauto|].
    destruct (Hl eq_refl) as [Hb' _]. rewrite Hb' in Hlt. discriminate.
Qed.

Lemma scores_inv_sell (P : string -> Prop) (acc : Scores) :
  scores_inv P acc ->
  Qltb 0.3 (best_sell_score acc) = true ->
  (exists s, best_sell_symbol acc = Some s /\ P s)
  /\ exists ti, loop_indicators acc = Some ti.
Proof.
  intros (_ & Hs & Hl) Hlt. split.
  - destruct (best_sell_symbol acc) as [s|]; [eauto|].
    rewrite Hs in Hlt. discriminate.
  - destruct (loop_indicators acc) as [ti|]; [eauto|].
    destruct (Hl eq_refl) as [_ Hs']. rewrite Hs' in Hlt. discriminate.
Qed.

Lemma parse_forced_committed (state : State) :
  committed state (parse_forced state).
Proof.
  unfold parse_forced, committed, symbol_source.
  destruct (dict_keys (market_data state)) as [|first others] eqn:Hkeys.
  - destruct (state_symbols state) as [|first rest] eqn:Hsym;
      cbn; repeat split; auto.
    + exists "AAPL". split; [reflexivity|]. right. right. split; [|reflexivity].
      unfold state_symbols in Hsym.
      destruct (symbols state) as [l|]; cbn in Hsym; [subst; reflexivity|].
      discriminate.
    + exists first. split; [reflexivity|]. left. left. reflexivity.
  - cbn; repeat split; auto.
    eexists. split; [reflexivity|]. right. left. apply max_by_in.
Qed.

Lemma parse_by_score_committed (state : State) (d : Decision) :
  parse_by_score state = Ok (Some d) -> committed state d.
Proof.
  unfold parse_by_score. intros Hparse.
  set (P := fun s => In s (state_symbols state)) in *.
  destruct (market_data state) as [|item items] eqn:Hmd; [discriminate|].
  destruct (parse_score_loop state (state_symbols state) initial_scores)
    as [acc|x] eqn:Hloop; cbn [bind] in Hparse; [|discriminate].
  assert (Hinv : scores_inv P acc).
  { apply (parse_score_loop_inv P state (state_symbols state) initial_scores);
      [auto|apply scores_inv_initial|exact Hloop]. }
  destruct (Qltb (best_sell_score acc) (best_buy_score acc)
            && Qltb 0.3 (best_buy_score acc)) eqn:Hbuy.
  - apply andb_prop in Hbuy as [_ Hbuy].
    destruct (scores_inv_buy P acc Hinv Hbuy) as [(s & Hs & HP) [ti Hti]].
    unfold loop_rsi in Hparse. rewrite Hti in Hparse. cbn in Hparse.
    injection Hparse as <-. unfold committed, symbol_source. cbn.
    repeat split; auto. exists s. auto.
  - destruct (Qltb 0.3 (best_sell_score acc)) eqn:Hsell; [|discriminate].
    destruct (scores_inv_sell P acc Hinv Hsell) as [(s & Hs & HP) [ti Hti]].
    unfold loop_rsi in Hparse. rewrite Hti in Hparse. cbn in Hparse.
    injection Hparse as <-. unfold committed, symbol_source. cbn.
    repeat split; auto. exists s. auto.
Qed.

Lemma parse_by_market_committed (state : State) (d : Decision) :
  parse_by_market state = Ok d -> committed state d.
Proof.
  unfold parse_by_market. intros Hparse.
  destruct (parse_by_score state) as [[d'|]|x] eqn:Hscore;
    cbn in Hparse; [| |discriminate].
  - injection Hparse as <-. exact (parse_by_score_committed _ _ Hscore).
  - injection Hparse as <-. apply parse_forced_committed.
Qed.

(** [_fallback_decision] returns a committed decision whenever it
    returns, and it returns unless there is no market data and the symbol
    list is explicitly empty. *)
Lemma fallback_decision_committed (state : State) (d : Decision) :
  fallback_decision state = Ok d -> committed state d.
Proof.
  unfold fallback_decision. intros Hd.
  destruct (market_data state) as [|[symbol data] items] eqn:Hmd.
  - destruct (state_symbols state) as [|first rest] eqn:Hsym; [discriminate|].
    injection Hd as <-. unfold committed, symbol_source. cbn.
    repeat split; auto. exists first. split; [reflexivity|].
    left. rewrite Hsym. left. reflexivity.
  - cbn [dict_keys map fst] in Hd.
    set (keys := symbol :: map fst items) in *.
    set (P := fun s => In s keys).
    set (acc := fallback_score_loop state keys initial_scores) in *.
    assert (Hinv : scores_inv P acc).
    { apply fallback_score_loop_inv; [auto|apply scores_inv_initial]. }
    assert (Hkeys : forall s, P s -> symbol_source state s).
    { intros s Hs. right. left. rewrite Hmd. exact Hs. }
    destruct (Qltb (best_sell_score acc) (best_buy_score acc)
              && Qltb 0.3 (best_buy_score acc)) eqn:Hbuy.
    + apply andb_prop in Hbuy as [_ Hbuy].
      destruct (scores_inv_buy P acc Hinv Hbuy) as [(s & Hs & HP) _].
      injection Hd as <-. unfold committed. cbn. repeat split; auto.
      exists s. auto.
    + destruct (Qltb 0.3 (best_sell_score acc)) eqn:Hsell.
      * destruct (scores_inv_sell P acc Hinv Hsell) as [(s & Hs & HP) _].
        injection Hd as <-. unfold committed. cbn. repeat split; auto.
        exists s. auto.
      * injection Hd as <-. unfold committed. cbn. repeat split; auto.
        eexists. split; [reflexivity|]. apply Hkeys.
        apply (max_by_in (day_gain ((symbol, data) :: items))).
Qed.

Lemma fallback_decision_returns (state : State) :
  market_data state <> [] \/ symbols state <> Some [] ->
  exists d, fallback_decision state = Ok d.
Proof.
  unfold fallback_decision, state_symbols. intros Hok.
  destruct (market_data state) as [|[symbol data] items].
  - destruct Hok as [Hmd|Hsym]; [congruence|].
    destruct (symbols state) as [[|first rest]|]; cbn; eauto. congruence.
  - cbn [dict_keys map fst].
    destruct (_ && _); [eauto|]. destruct (Qltb _ _); eauto.
Qed.

Lemma last_append_capped {A} (cap : nat) (history : list A) (record : A) :
  (0 < cap)%nat -> last (append_capped cap history record) = Some record.
Proof.
  intros Hcap. unfold append_capped.
  destruct (cap <? length (history ++ [record])%list)%nat.
  - destruct cap as [|n]; [lia|].
    rewrite last_n_app_one. apply last_snoc.
  - apply last_snoc.
Qed.

Section Records.
Context {ops : StrOps}.

Lemma first_symbol_in_listed (text : string) (symbols : list string)
    (s : string) :
  first_symbol_in text symbols = Some s -> In s symbols /\ str_in s text = true.
Proof. unfold first_symbol_in. intros H. apply find_some in H. exact H. Qed.

(** Every decision of the keyword rules. *)
Lemma parse_keywords_shape (response : string) (symbols : list string)
    (d : Decision) :
  parse_keywords response symbols = Some d ->
  (action d = "BUY" \/ action d = "SELL")
  /\ amount d = extract_amount response
  /\ exists s, symbol d = Some s /\ In s symbols.
Proof.
  unfold parse_keywords. rewrite !scan_symbols_find. intros Hd.
  destruct (first_symbol_in response symbols) as [s1|] eqn:E1;
  destruct (first_symbol_in (str_upper response) symbols) as [s2|] eqn:E2;
  destruct (str_in kw_buy response), (str_in kw_sell response),
           (str_in "BUY" (str_upper response)),
           (str_in "SELL" (str_upper response));
  cbn in Hd; try discriminate; injection Hd as <-; cbn;
  (repeat split; auto; eexists; (split; [reflexivity|]));
  first [exact (proj1 (first_symbol_in_listed _ _ _ E1))
        |exact (proj1 (first_symbol_in_listed _ _ _ E2))].
Qed.

(** Every decision of [_parse_decision]. *)
Lemma parse_decision_shape (response : string) (state : State) (d : Decision) :
  parse_decision response state = Ok d ->
  (action d = "BUY" \/ action d = "SELL")
  /\ (amount d = 100%Q \/ amount d = extract_amount (str_strip response))
  /\ exists s, symbol d = Some s /\ symbol_source state s.
Proof.
  unfold parse_decision. intros Hd.
  destruct (parse_keywords (str_strip response) (state_symbols state))
    as [d'|] eqn:Hkw.
  - injection Hd as <-.
    destruct (parse_keywords_shape _ _ _ Hkw) as (Ha & Hamt & s & Hs & Hin).
    repeat split; auto. exists s. split; [exact Hs|]. left. exact Hin.
  - destruct (parse_by_market_committed _ _ Hd) as (Ha & Hamt & Hs). auto.
Qed.

Lemma max_by_greatest_gain (market_data : dict OHLCV) (first : string)
    (others : list string) :
  dict_keys market_data = first :: others ->
  greatest_gain market_data (max_by (day_gain market_data) first others).
Proof.
  intros Hkeys.
  destruct (max_by_spec (day_gain market_data) others first)
    as (before & after & Heq & Hb & Ha).
  exists before, after. rewrite Hkeys. auto.
Qed.

(** The scores decide for a configured symbol that has an entry in the
    snapshot. *)
Lemma parse_by_score_configured (state : State) (d : Decision) :
  parse_by_score state = Ok (Some d) ->
  exists s, symbol d = Some s
    /\ In s (state_symbols state)
    /\ In s (dict_keys (market_data state)).
Proof.
  unfold parse_by_score. intros Hparse.
  assert (Hloops : forall acc,
            parse_score_loop state (state_symbols state) initial_scores
            = Ok acc ->
            scores_inv (fun s => In s (state_symbols state)
                                 /\ In s (dict_keys (market_data state))) acc).
  { intros acc Hloop.
    apply (parse_score_loop_inv _ state (state_symbols state) initial_scores);
      [intros s Hin Hkey; split; assumption|apply scores_inv_initial
      |exact Hloop]. }
  destruct (market_data state) as [|item items] eqn:Hmd; [discriminate|].
  destruct (parse_score_loop state (state_symbols state) initial_scores)
    as [acc|x] eqn:Hloop; cbn [bind] in Hparse; [|discriminate].
  pose proof (Hloops acc eq_refl) as Hinv.
  destruct (Qltb (best_sell_score acc) (best_buy_score acc)
            && Qltb 0.3 (best_buy_score acc)) eqn:Hbuy.
  - apply andb_prop in Hbuy as [_ Hbuy].
    destruct (scores_inv_buy _ acc Hinv Hbuy) as [(s & Hs & HP) [ti Hti]].
    unfold loop_rsi in Hparse. rewrite Hti in Hparse. cbn in Hparse.
    injection Hparse as <-. exists s. cbn [symbol]. destruct HP. auto.
  - destruct (Qltb 0.3 (best_sell_score acc)) eqn:Hsell; [|discriminate].
    destruct (scores_inv_sell _ acc Hinv Hsell) as [(s & Hs & HP) [ti Hti]].
    unfold loop_rsi in Hparse. rewrite Hti in Hparse. cbn in Hparse.
    injection Hparse as <-. exists s. cbn [symbol]. destruct HP. auto.
Qed.

(** The symbol of the rule of last resort. *)
Lemma parse_forced_source (state : State) :
  exists s, symbol (parse_forced state) = Some s
    /\ (In s (state_symbols state)
        \/ greatest_gain (market_data state) s
        \/ (state_symbols state = [] /\ market_data state = []
            /\ s = "AAPL")).
Proof.
  unfold parse_forced.
  destruct (dict_keys (market_data state)) as [|first others] eqn:Hkeys.
  - assert (Hmd : market_data state = []).
    { destruct (market_data state); [reflexivity|discriminate]. }
    destruct (state_symbols state) as [|first rest] eqn:Hsym; cbn.
    + exists "AAPL". split; [reflexivity|]. right. right. auto.
    + exists first. split; [reflexivity|]. left. left. reflexivity.
  - cbn. eexists. split; [reflexivity|]. right. left.
    apply max_by_greatest_gain. exact Hkeys.
Qed.

(** Where the symbol of a parsed decision comes from. *)
Lemma parse_decision_source (response : string) (state : State) (d : Decision) :
  parse_decision response state = Ok d ->
  exists s, symbol d = Some s
    /\ record_symbol_source state (str_strip response) s.
Proof.
  unfold parse_decision, record_symbol_source. intros Hd.
  destruct (parse_keywords (str_strip response) (state_symbols state))
    as [d'|] eqn:Hkw.
  - injection Hd as <-.
    destruct (parse_keywords_shape _ _ _ Hkw) as (_ & _ & s & Hs & Hin).
    exists s. auto.
  - unfold parse_by_market in Hd.
    destruct (parse_by_score state) as [[d'|]|x] eqn:Hscore;
      cbn in Hd; [| |discriminate]; injection Hd as <-.
    + destruct (parse_by_score_configured _ _ Hscore) as (s & Hs & Hin & _).
      exists s. auto.
    + destruct (parse_forced_source state) as (s & Hs & Hsrc).
      exists s. split; [exact Hs|].
      destruct Hsrc as [Hin|[Hgain|Hnone]]; auto.
Qed.

(** The amount of a parsed decision: the number of the text when a
    keyword rule decides, and 100 otherwise. *)
Lemma parse_decision_amount (response : string) (state : State) (d : Decision) :
  parse_decision response state = Ok d ->
  (parse_keywords (str_strip response) (state_symbols state) = None ->
   amount d = 100%Q)
  /\ (parse_keywords (str_strip response) (state_symbols state) <> None ->
      amount d = extract_amount (str_strip response)).
Proof.
  unfold parse_decision. intros Hd.
  destruct (parse_keywords (str_strip response) (state_symbols state))
    as [d'|] eqn:Hkw.
  - injection Hd as <-.
    destruct (parse_keywords_shape _ _ _ Hkw) as (_ & Hamt & _).
    split; [discriminate|auto].
  - destruct (parse_by_market_committed _ _ Hd) as (_ & Hamt & _).
    split; [auto|congruence].
Qed.

(** C6, as the code has it.  The record a call appends to the decision
    history holds the decision that was parsed.  Its action is BUY or
    SELL.  Its amount is not negative: it is the first number of the
    stripped response when a keyword rule decides, which may be zero, and
    100 otherwise.  Its symbol is a configured symbol; or, when neither a
    keyword rule nor the scores decide, the key of the market snapshot
    with the greatest close minus open, the first of the greatest; or
    AAPL when there is neither a configured symbol nor market data.  The
    symbol is not the empty string when no configured symbol and no key of
    the snapshot is. *)
Theorem decision_record_invariant (e e' : Engine) (state : State)
    (env : CallEnv) (d : Decision) (response : string) (prompt : Prompt)
    (n : nat) :
  make_decision e state env = (e', Ok (FullResult d response prompt n)) ->
  let txt := str_strip response in
  let symbols := state_symbols state in
  last (decision_history e')
    = Some (decision_record (count_decision e) state d response (clock env))
  /\ (action d = "BUY" \/ action d = "SELL")
  /\ (0 <= amount d)%Q
  /\ (parse_keywords txt symbols = None -> amount d = 100%Q)
  /\ (parse_keywords txt symbols <> None -> amount_finite txt = true ->
      amount d = extract_amount txt)
  /\ exists s, symbol d = Some s
       /\ record_symbol_source state txt s
       /\ (Forall (fun x => x <> EmptyString) symbols ->
           Forall (fun x => x <> EmptyString) (dict_keys (market_data state)) ->
           s <> EmptyString).
Proof.
  intros Hmake. cbv zeta. unfold make_decision in Hmake.
  destruct (construct_decision_prompt (count_decision e) state) as [p|x];
    [|discriminate].
  destruct (service env "trading_decision" p trading_decision_kwargs)
    as [r|x].
  2:{ destruct (fallback_decision state); discriminate. }
  destruct (parse_decision (text r) state) as [d0|x] eqn:Hparse;
    [|discriminate].
  injection Hmake as <- <- <- <- <-.
  destruct (parse_decision_shape _ _ _ Hparse) as (Hact & Hamt & _).
  destruct (parse_decision_amount _ _ _ Hparse) as (Hnone & Hsome).
  destruct (parse_decision_source _ _ _ Hparse) as (s & Hs & Hsrc).
  split; [apply last_append_capped; lia|].
  split; [exact Hact|]. split.
  { destruct Hamt as [->| ->]; [discriminate|apply extract_amount_nonneg]. }
  split; [exact Hnone|]. split; [intros Hkw _; exact (Hsome Hkw)|].
  exists s. split; [exact Hs|]. split; [exact Hsrc|].
  intros Hsyms Hkeys. rewrite List.Forall_forall in Hsyms, Hkeys.
  destruct Hsrc as [Hin|[(_ & _ & before & after & Heq & _)|(_ & _ & ->)]];
    [auto| |discriminate].
  apply Hkeys. rewrite Heq. apply in_or_app. right. left. reflexivity.
Qed.

Lemma call_records_well_formed (e : Engine) (state : State) (env : CallEnv) :
  Forall well_formed_record (log_decisions (call_records e state env)).
Proof.
  unfold call_records, make_decision.
  destruct (construct_decision_prompt (count_decision e) state) as [p|x];
    [|constructor].
  destruct (service env "trading_decision" p trading_decision_kwargs)
    as [r|x].
  2:{ destruct (fallback_decision state); constructor. }
  destruct (parse_decision (text r) state) as [d|x] eqn:Hparse; [|constructor].
  destruct (parse_decision_shape _ _ _ Hparse) as (Hact & Hamt & s & Hs & _).
  cbn. constructor; [|constructor]. unfold well_formed_record. cbn.
  split; [exact Hact|]. split; [|eauto].
  destruct Hamt as [->| ->]; [discriminate|apply extract_amount_nonneg].
Qed.

(** The invariant of the decision history over runs. *)
Lemma decision_history_well_formed (calls : list (State * CallEnv)) :
  Forall well_formed_record (decision_history (run new_engine calls)).
Proof.
  destruct (history_cap_bounds calls) as (-> & _ & _).
  unfold last_n. apply Forall_drop.
  generalize new_engine.
  induction calls as [|call rest IH]; intros e; [constructor|].
  cbn [history_log]. unfold log_decisions. rewrite map_app.
  apply Forall_app. split; [apply call_records_well_formed|apply IH].
Qed.

End Records.

(** ** The cascade reads three keys of the state and nothing else *)

Lemma parse_score_loop_ext (st1 st2 : State) (symbols : list string)
    (acc : Scores) :
  market_data st1 = market_data st2 ->
  technical_indicators st1 = technical_indicators st2 ->
  parse_score_loop st1 symbols acc = parse_score_loop st2 symbols acc.
Proof.
  intros Hmd Hti. revert acc.
  induction symbols as [|symbol rest IH]; intros acc; cbn [parse_score_loop].
  - reflexivity.
  - unfold indicators_of. rewrite Hmd, Hti.
    destruct (dict_get symbol (market_data st2)) as [data|]; [|apply IH].
    destruct (md_close data); cbn; [apply IH|reflexivity].
Qed.

Lemma fallback_score_loop_ext (st1 st2 : State) (symbols : list string)
    (acc : Scores) :
  technical_indicators st1 = technical_indicators st2 ->
  fallback_score_loop st1 symbols acc = fallback_score_loop st2 symbols acc.
Proof.
  intros Hti. revert acc.
  induction symbols as [|symbol rest IH]; intros acc; cbn [fallback_score_loop].
  - reflexivity.
  - unfold indicators_of. rewrite Hti. apply IH.
Qed.

Lemma parse_by_market_ext (st1 st2 : State) :
  market_data st1 = market_data st2 ->
  technical_indicators st1 = technical_indicators st2 ->
  symbols st1 = symbols st2 ->
  parse_by_market st1 = parse_by_market st2.
Proof.
  intros Hmd Hti Hsym.
  unfold parse_by_market, parse_by_score, parse_forced, state_symbols.
  rewrite (parse_score_loop_ext st1 st2) by assumption.
  rewrite Hmd, Hsym. reflexivity.
Qed.

Lemma fallback_decision_ext (st1 st2 : State) :
  market_data st1 = market_data st2 ->
  technical_indicators st1 = technical_indicators st2 ->
  symbols st1 = symbols st2 ->
  fallback_decision st1 = fallback_decision st2.
Proof.
  intros Hmd Hti Hsym. unfold fallback_decision, state_symbols.
  rewrite Hmd, Hsym.
  rewrite (fallback_score_loop_ext st1 st2) by assumption. reflexivity.
Qed.

Section Determinism.
Context {ops : StrOps}.

(** C8.  Two invocations of the cascade on states with the same market
    data, technical indicators and symbol list give the same result (the
    same action tag, symbol and amount, or the same exception): for
    [_fallback_decision] always, and for [_parse_decision] on any two
    response texts in which no keyword rule finds an action, whatever the
    texts and the rest of the two states are.  Neither function reads the
    engine. *)
Theorem score_cascade_deterministic (st1 st2 : State) :
  market_data st1 = market_data st2 ->
  technical_indicators st1 = technical_indicators st2 ->
  symbols st1 = symbols st2 ->
  fallback_decision st1 = fallback_decision st2
  /\ forall r1 r2 : string,
       parse_keywords (str_strip r1) (state_symbols st1) = None ->
       parse_keywords (str_strip r2) (state_symbols st2) = None ->
       parse_decision r1 st1 = parse_decision r2 st2.
Proof.
  intros Hmd Hti Hsym. split.
  - apply fallback_decision_ext; assumption.
  - intros r1 r2 H1 H2. unfold parse_decision. rewrite H1, H2.
    apply parse_by_market_ext; assumption.
Qed.

End Determinism.

(** ** The shared manager *)

Section Manager.
Context {ops : StrOps} {L : Type} {B : BaseLLM L}.

Lemma record_generation_registered (mgr : SharedLLMManager L)
    (node_id : string) (now : Q) (out : L * Exc LLMResponse) :
  registered_nodes (fst (record_generation mgr node_id now out))
  = registered_nodes mgr.
Proof.
  unfold record_generation. destruct out as [l [response|e]]; [|reflexivity].
  destruct (node_usage_stats mgr !! node_id); reflexivity.
Qed.

Lemma generate_for_node_registered (mgr : SharedLLMManager L)
    (node_id prompt : string) (kwargs : Kwargs) (now : Q) :
  registered_nodes (fst (generate_for_node mgr node_id prompt kwargs now))
  = registered_nodes mgr.
Proof.
  unfold generate_for_node.
  destruct (registered_nodes mgr !! node_id); [|reflexivity].
  apply record_generation_registered.
Qed.

Lemma registered_after (history : list ManagerOp) (mgr : SharedLLMManager L)
    (node_id : string) :
  registered_nodes (fold_left apply_op history mgr) !! node_id
  = last_registration node_id history (registered_nodes mgr !! node_id).
Proof.
  revert mgr. induction history as [|op rest IH]; intros mgr; [reflexivity|].
  cbn [fold_left last_registration]. rewrite IH. destruct op as [id cfg t|id p k t].
  - cbn [apply_op register_node registered_nodes].
    destruct (String.eqb_spec id node_id) as [->|Hne].
    + rewrite lookup_insert_eq. reflexivity.
    + rewrite lookup_insert_ne by exact Hne. reflexivity.
  - cbn [apply_op]. rewrite generate_for_node_registered. reflexivity.
Qed.

Lemma merge_kwargs_lookup (node_config kwargs : Kwargs) (key : string) :
  merge_kwargs node_config kwargs !! key
  = match kwargs !! key with
    | Some v => Some v
    | None => node_config !! key
    end.
Proof.
  unfold merge_kwargs. rewrite lookup_union.
  destruct (kwargs !! key), (node_config !! key); reflexivity.
Qed.

(** C9.  On a manager with any history of registrations and generations:
    [generate_for_node] for a role that was never registered raises
    [ValueError] and leaves the manager as it was; for a registered role
    the LLM is called with the prompt and with the configuration of the
    role's latest registration merged with the keyword arguments of the
    call, in which every key of the call has the call's value and every
    other key the configuration's. *)
Theorem generate_for_node_contract (l : L) (history : list ManagerOp)
    (node_id prompt : string) (kwargs : Kwargs) (now : Q) :
  let mgr := manager_after l history in
  match last_registration node_id history None with
  | None =>
      generate_for_node mgr node_id prompt kwargs now
      = (mgr, Raise (mkExc ValueError ("节点 " ++ node_id ++ " 未注册")))
  | Some entry =>
      generate_for_node mgr node_id prompt kwargs now
      = record_generation mgr node_id now
          (generate (llm mgr) prompt (merge_kwargs (config entry) kwargs))
      /\ forall key,
           merge_kwargs (config entry) kwargs !! key
           = match kwargs !! key with
             | Some v => Some v
             | None => config entry !! key
             end
  end.
Proof.
  intros mgr. unfold generate_for_node.
  pose proof (registered_after history (new_manager l) node_id) as Hreg.
  fold (manager_after l history) in Hreg. fold mgr in Hreg.
  cbn [new_manager registered_nodes] in Hreg. rewrite lookup_empty in Hreg.
  rewrite Hreg.
  destruct (last_registration node_id history None) as [entry|]; [|reflexivity].
  split; [reflexivity|]. intros key. apply merge_kwargs_lookup.
Qed.

End Manager.

(** ** HuggingFaceLLM.generate *)

Section HuggingFace.
Context {ops : StrOps}.

Lemma error_response_is_failure (hf : HuggingFaceLLM)
    (message reason error : string) :
  In message failure_texts \/ (exists m, message = "生成失败: " ++ m) ->
  is_failure_response (error_response hf message reason error).
Proof.
  intros Hmsg. unfold is_failure_response, error_response. cbn.
  split; [reflexivity|]. split; [|exact Hmsg].
  exists error. rewrite lookup_insert_ne by discriminate.
  apply lookup_insert_eq.
Qed.

Lemma hf_generate_body_result (hf : HuggingFaceLLM) (prompt : string)
    (kwargs : Kwargs) (r : LLMResponse) :
  hf_generate_body hf prompt kwargs = Ok r ->
  is_failure_response r \/ generation_went_through hf prompt r.
Proof.
  unfold hf_generate_body. intros Hbody.
  destruct (str_empty prompt) eqn:Hp; cbn [orb] in Hbody.
  { injection Hbody as <-. left. apply error_response_is_failure.
    left. cbn. auto. }
  destruct (str_empty (str_strip prompt)) eqn:Hs.
  { injection Hbody as <-. left. apply error_response_is_failure.
    left. cbn. auto. }
  match type of Hbody with
  | match rt_encode _ ?fed with _ => _ end = _ =>
      destruct (rt_encode (hf_runtime hf) fed) as [n|te] eqn:Henc
  end.
  2:{ injection Hbody as <-. left. apply error_response_is_failure.
      left. cbn. auto. }
  destruct (Nat.eqb_spec n 0) as [Hn|Hn].
  { injection Hbody as <-. left. apply error_response_is_failure.
    left. cbn. auto. }
  destruct (rt_to_device (hf_runtime hf)) as [[]|de] eqn:Hdev;
    cbn [bind] in Hbody; [|discriminate].
  match type of Hbody with
  | bind ?m _ = _ => destruct m as [gk|ke] eqn:Hgk
  end; cbn [bind] in Hbody; [|discriminate].
  destruct (rt_model_generate (hf_runtime hf) n gk)
    as [[[rows cols] seconds]|ge] eqn:Hgen; cbn [bind] in Hbody; [|discriminate].
  destruct (Nat.eqb_spec rows 0) as [Hr|Hr]; cbn [orb] in Hbody.
  { injection Hbody as <-. left. apply error_response_is_failure.
    left. cbn. auto 10. }
  destruct (Nat.eqb_spec cols 0) as [Hc|Hc].
  { injection Hbody as <-. left. apply error_response_is_failure.
    left. cbn. auto 10. }
  destruct (rt_decode (hf_runtime hf)) as [generated_text|dece] eqn:Hdec.
  2:{ injection Hbody as <-. left. apply error_response_is_failure.
      left. cbn. auto 10. }
  injection Hbody as <-. right. unfold generation_went_through.
  rewrite Hdev, Hdec. repeat split; try assumption.
  - eexists _, n. split; [exact Henc|]. split; [exact Hn|].
    exists gk, rows, cols, seconds. auto.
  - exists generated_text. split; [reflexivity|]. cbn.
    destruct (str_empty (str_strip generated_text)); reflexivity.
Qed.

Lemma hf_generate_returns (hf : HuggingFaceLLM) (prompt : string)
    (kwargs : Kwargs) :
  hf_model_loaded hf = true \/ rt_load_model (hf_runtime hf) = None ->
  exists response,
    snd (hf_generate hf prompt kwargs) = Ok response
    /\ (is_failure_response response
        \/ generation_went_through hf prompt response).
Proof.
  intros Hload. unfold hf_generate, load_model.
  assert (Hgo : forall hf1, hf_runtime hf1 = hf_runtime hf ->
    exists response,
      snd (match hf_generate_body (hf_count_generation hf1) prompt kwargs with
           | Ok response => (hf_count_generation hf1, Ok response)
           | Raise e =>
               (hf_count_generation hf1,
                Ok (error_response (hf_count_generation hf1)
                      ("生成失败: " ++ exc_msg e) "生成过程中出现错误" (exc_msg e)))
           end) = Ok response
      /\ (is_failure_response response
          \/ generation_went_through hf prompt response)).
  { intros hf1 Hrt.
    destruct (hf_generate_body (hf_count_generation hf1) prompt kwargs)
      as [response|e] eqn:Hbody.
    - exists response. split; [reflexivity|].
      destruct (hf_generate_body_result _ _ _ _ Hbody) as [Hf|Hs]; [auto|].
      right. unfold generation_went_through in *.
      cbn [hf_count_generation hf_runtime] in Hs. rewrite Hrt in Hs. exact Hs.
    - eexists. split; [reflexivity|]. left.
      apply error_response_is_failure. right. eauto. }
  destruct (hf_model_loaded hf) eqn:Hl.
  - apply Hgo. reflexivity.
  - destruct Hload as [Hload|Hload]; [discriminate|]. rewrite Hload.
    apply Hgo. reflexivity.
Qed.

Lemma hf_generate_load_error (hf : HuggingFaceLLM) (prompt : string)
    (kwargs : Kwargs) (e : PyException) :
  hf_model_loaded hf = false ->
  rt_load_model (hf_runtime hf) = Some e ->
  hf_generate hf prompt kwargs = (hf, Raise e).
Proof.
  intros Hl He. unfold hf_generate, load_model. rewrite Hl, He. reflexivity.
Qed.

(** The service of an engine over a HuggingFace backend answers when the
    backend returns and raises when it raises. *)
Lemma engine_manager_registered {L} (l : L) (t0 : Q) :
  registered_nodes (engine_manager l t0) !! "trading_decision"
  = Some {| config := trading_decision_config; registered_time := t0 |}.
Proof. apply lookup_insert_eq. Qed.

Lemma engine_manager_other {L} (l : L) (t0 : Q) (node_id : string) :
  node_id <> "trading_decision" ->
  registered_nodes (engine_manager l t0) !! node_id = None.
Proof.
  intros Hne. unfold engine_manager, register_node. cbn [registered_nodes].
  rewrite lookup_insert_ne by congruence. apply lookup_empty.
Qed.

Lemma engine_manager_usage {L} (l : L) (t0 : Q) :
  is_Some (node_usage_stats (engine_manager l t0) !! "trading_decision").
Proof.
  unfold engine_manager, register_node. cbn [node_usage_stats].
  rewrite lookup_insert_eq. eauto.
Qed.

Lemma manager_service_hf (render : Prompt -> string) (hf : HuggingFaceLLM)
    (t0 now : Q) (prompt : Prompt) (kwargs : Kwargs) :
  is_ok (manager_service render (engine_manager hf t0) now
           "trading_decision" prompt kwargs)
  = is_ok (snd (hf_generate hf (render prompt)
                  (merge_kwargs trading_decision_config kwargs))).
Proof.
  unfold manager_service, generate_for_node.
  rewrite engine_manager_registered. cbn [config generate HuggingFaceLLM_BaseLLM].
  change (llm (engine_manager hf t0)) with hf.
  destruct (hf_generate hf (render prompt)
              (merge_kwargs trading_decision_config kwargs))
    as [hf' [response|e]]; unfold record_generation; [|reflexivity].
  destruct (engine_manager_usage hf t0) as [usage ->]. reflexivity.
Qed.

(** C10, as the code has it.  When the model is loaded, or loads,
    [generate] returns a response for every prompt and keyword arguments
    and never raises: a blank prompt, a tokenizer that raises or gives no
    token, an empty output, a decoder that raises and any other exception
    inside the [try] come back as a response with confidence 0.0, an
    error entry and an error text; a decision engine over this backend
    then passes the text to its parser and never returns its fallback
    decision.  When the model is not loaded and loading raises,
    [generate] raises what loading raised, and the engine's call of the
    service raises. *)
Theorem hf_generate_total (hf : HuggingFaceLLM) (prompt : string)
    (kwargs : Kwargs) :
  (hf_model_loaded hf = true \/ rt_load_model (hf_runtime hf) = None ->
   (exists response,
      snd (hf_generate hf prompt kwargs) = Ok response
      /\ (is_failure_response response
          \/ generation_went_through hf prompt response))
   /\ forall render t0 now e state stamp d,
        snd (make_decision e state
               {| service := manager_service render (engine_manager hf t0) now;
                  clock := stamp |})
        <> Ok (FallbackResult d))
  /\ (forall x, hf_model_loaded hf = false ->
        rt_load_model (hf_runtime hf) = Some x ->
        hf_generate hf prompt kwargs = (hf, Raise x)
        /\ forall render t0 now stamp,
             service_raises
               {| service := manager_service render (engine_manager hf t0) now;
                  clock := stamp |}).
Proof.
  split.
  - intros Hload. split; [apply hf_generate_returns; exact Hload|].
    intros render t0 now e state stamp d. unfold make_decision.
    destruct (construct_decision_prompt (count_decision e) state) as [p|x];
      [|discriminate].
    cbn [service].
    pose proof (manager_service_hf render hf t0 now p trading_decision_kwargs)
      as Hsvc.
    destruct (hf_generate_returns hf (render p)
                (merge_kwargs trading_decision_config trading_decision_kwargs)
                Hload) as (response & Hgen & _).
    rewrite Hgen in Hsvc. cbn [is_ok] in Hsvc.
    destruct (manager_service render (engine_manager hf t0) now
                "trading_decision" p trading_decision_kwargs) as [r|x];
      [|discriminate].
    destruct (parse_decision (text r) state); discriminate.
  - intros x Hl Hx. split; [apply hf_generate_load_error; assumption|].
    intros render t0 now stamp node_id p k. cbn [service].
    unfold manager_service, generate_for_node.
    destruct (String.eqb_spec node_id "trading_decision") as [->|Hne].
    + rewrite engine_manager_registered.
      cbn [config generate HuggingFaceLLM_BaseLLM].
      change (llm (engine_manager hf t0)) with hf.
      rewrite (hf_generate_load_error hf _ _ x Hl Hx). reflexivity.
    + rewrite engine_manager_other by exact Hne. reflexivity.
Qed.

End HuggingFace.

(** ** Runs in which every call is answered *)

Lemma parse_score_loop_returns (state : State) (symbols : list string)
    (acc : Scores) :
  (forall s data, dict_get s (market_data state) = Some data ->
                  md_close data <> None) ->
  exists acc', parse_score_loop state symbols acc = Ok acc'.
Proof.
  intros Hclose. revert acc.
  induction symbols as [|symbol rest IH]; intros acc; cbn [parse_score_loop].
  - eauto.
  - destruct (dict_get symbol (market_data state)) as [data|] eqn:Hget; [|apply IH].
    specialize (Hclose symbol data Hget).
    destruct (md_close data) as [price|]; [|congruence]. cbn. apply IH.
Qed.

(** [_parse_decision] returns for every text when every entry of the
    market snapshot has a close: the [NameError] of the loop's local
    cannot happen. *)
Lemma parse_by_market_returns (state : State) :
  (forall s data, dict_get s (market_data state) = Some data ->
                  md_close data <> None) ->
  exists d, parse_by_market state = Ok d.
Proof.
  intros Hclose. unfold parse_by_market, parse_by_score.
  destruct (parse_score_loop_returns state (state_symbols state)
              initial_scores Hclose) as [acc Hloop].
  assert (Hinv : scores_inv (fun _ => True) acc).
  { apply (parse_score_loop_inv _ state (state_symbols state) initial_scores);
      [auto|apply scores_inv_initial|exact Hloop]. }
  destruct (market_data state) as [|item items]; [cbn; eauto|].
  rewrite Hloop. cbn [bind].
  destruct (Qltb (best_sell_score acc) (best_buy_score acc)
            && Qltb 0.3 (best_buy_score acc)) eqn:Hbuy.
  - apply andb_prop in Hbuy as [_ Hbuy].
    destruct (scores_inv_buy _ acc Hinv Hbuy) as [_ [ti Hti]].
    unfold loop_rsi. rewrite Hti. cbn. eauto.
  - destruct (Qltb 0.3 (best_sell_score acc)) eqn:Hsell; [|cbn; eauto].
    destruct (scores_inv_sell _ acc Hinv Hsell) as [_ [ti Hti]].
    unfold loop_rsi. rewrite Hti. cbn. eauto.
Qed.

Section Answered.
Context {ops : StrOps}.

Lemma parse_decision_returns (response : string) (state : State) :
  (forall s data, dict_get s (market_data state) = Some data ->
                  md_close data <> None) ->
  exists d, parse_decision response state = Ok d.
Proof.
  intros Hclose. unfold parse_decision.
  destruct (parse_keywords _ _); [eauto|].
  apply parse_by_market_returns. exact Hclose.
Qed.

Lemma call_records_answered (e : Engine) (call : State * CallEnv) :
  answered call ->
  length (call_records e (fst call) (snd call)) = 1%nat.
Proof.
  intros (Hb & Hsvc & Hclose). unfold call_records, make_decision.
  destruct (construct_decision_prompt_ok (count_decision e) (fst call) Hb)
    as [prompt ->].
  specialize (Hsvc "trading_decision" prompt trading_decision_kwargs).
  destruct (service (snd call) "trading_decision" prompt trading_decision_kwargs)
    as [response|x]; [|discriminate].
  destruct (parse_decision_returns (text response) (fst call) Hclose)
    as [d ->]. reflexivity.
Qed.

(** When every call of a run is answered, every call appends: the
    histories hold min(N, cap) records. *)
Lemma answered_run_fills (calls : list (State * CallEnv)) :
  Forall answered calls ->
  let e' := run new_engine calls in
  let N := length calls in
  length (decision_history e') = Nat.min N 50
  /\ length (market_history e') = Nat.min N 30
  /\ length (portfolio_history e') = Nat.min N 30.
Proof.
  intros Hall e' N.
  assert (Hlen : forall e, length (history_log e calls) = length calls).
  { induction Hall as [|call rest Hcall _ IH]; intros e; [reflexivity|].
    cbn [history_log length]. rewrite length_app, IH.
    rewrite (call_records_answered e call Hcall). reflexivity. }
  destruct (history_cap_bounds calls) as (Hd & Hm & Hp).
  fold e' in Hd, Hm, Hp. rewrite Hd, Hm, Hp.
  unfold log_decisions, log_markets, log_portfolios.
  rewrite !last_n_length, !length_map, Hlen. fold N. lia.
Qed.

End Answered.

(** * Further properties of llm_interface.py *)

(** ** Numbers *)

Lemma py_min_le_l (a b : Q) : (py_min a b <= a)%Q.
Proof.
  unfold py_min. destruct (Qltb b a) eqn:E.
  - apply Qltb_lt in E. apply Qlt_le_weak. exact E.
  - apply Qle_refl.
Qed.

Lemma py_min_le_r (a b : Q) : (py_min a b <= b)%Q.
Proof.
  unfold py_min, Qltb. destruct (Qle_bool a b) eqn:E; cbn.
  - apply Qle_bool_iff. exact E.
  - apply Qle_refl.
Qed.

Lemma py_min_glb (c a b : Q) : (c <= a)%Q -> (c <= b)%Q -> (c <= py_min a b)%Q.
Proof. intros Ha Hb. unfold py_min. destruct (Qltb b a); assumption. Qed.

Lemma py_min_mono (a b b' : Q) : (b <= b')%Q -> (py_min a b <= py_min a b')%Q.
Proof.
  intros Hb. apply py_min_glb; [apply py_min_le_l|].
  eapply Qle_trans; [apply py_min_le_r|exact Hb].
Qed.

Lemma Q_of_nat_nonneg (n : nat) : (0 <= Q_of_nat n)%Q.
Proof. unfold Q_of_nat, Qle. cbn. lia. Qed.

Lemma Q_of_nat_le (n m : nat) : (n <= m)%nat -> (Q_of_nat n <= Q_of_nat m)%Q.
Proof. intros H. unfold Q_of_nat, Qle. cbn. lia. Qed.

(** ** MockLLM *)

Section Mock.
Context {ops : StrOps}.

(** X1.  [MockLLM.generate] never raises, and the confidence it reports
    lies between 0.6 and 0.95 for every prompt and every number of
    parameter updates; on the same prompt it does not decrease when the
    number of updates grows. *)
Theorem mock_confidence_bounds (m : MockLLM) (prompt : string)
    (kwargs : Kwargs) :
  exists response,
    snd (mock_generate m prompt kwargs) = Ok response
    /\ (0.6 <= confidence response)%Q
    /\ (confidence response <= 0.95)%Q
    /\ forall m2 kwargs2 response2,
         (mock_update_count m <= mock_update_count m2)%nat ->
         snd (mock_generate m2 prompt kwargs2) = Ok response2 ->
         (confidence response <= confidence response2)%Q.
Proof.
  unfold mock_generate.
  pose proof (Q_of_nat_nonneg (mock_update_count m)) as Hn. cbn [mock_update_count].
  destruct (str_in "数学" prompt || str_in "计算" prompt || str_in "24点" prompt);
    [|destruct (str_in "策略" prompt || str_in "规划" prompt || str_in "选择" prompt);
      [|destruct (str_in "创新" prompt || str_in "创造" prompt)]];
    (eexists; split; [reflexivity|]; cbn [confidence];
     split; [apply py_min_glb; lra|];
     split; [apply py_min_le_l|];
     intros m2 kwargs2 response2 Hle Hgen; cbn [snd] in Hgen;
     injection Hgen as <-; cbn [confidence];
     apply py_min_mono; apply Q_of_nat_le in Hle; lra).
Qed.

End Mock.

Lemma subtract_scaled_length (learning_rate : Q) (parameter gradient : list Q) :
  length (subtract_scaled learning_rate parameter gradient) = length parameter.
Proof.
  revert gradient. induction parameter as [|p ps IH]; intros [|g gs]; cbn;
    auto.
Qed.

Lemma apply_gradient_length (learning_rate : Q) (parameter : list Q)
    (gradient : Gradient) :
  length (apply_gradient learning_rate parameter gradient) = length parameter.
Proof.
  destruct gradient; cbn; [apply subtract_scaled_length|apply length_map].
Qed.

(** X2.  [MockLLM.update_parameters] keeps the names of the parameters
    and the length of every parameter list, leaves a parameter that no
    gradient names as it was, ignores gradients of unknown names, and
    counts one update whatever the gradients are. *)
Theorem mock_update_parameters_shape (m : MockLLM)
    (parameters : gmap string (list Q)) (gradients : dict Gradient)
    (learning_rate : Q) :
  let '(m', parameters') :=
    mock_update_parameters m parameters gradients learning_rate in
  mock_update_count m' = S (mock_update_count m)
  /\ mock_generation_count m' = mock_generation_count m
  /\ (forall name,
        option_map (@length Q) (parameters' !! name)
        = option_map (@length Q) (parameters !! name))
  /\ (forall name, ~ In name (dict_keys gradients) ->
        parameters' !! name = parameters !! name).
Proof.
  unfold mock_update_parameters. split; [reflexivity|]. split; [reflexivity|].
  revert parameters.
  induction gradients as [|[param_name gradient] rest IH]; intros parameters;
    cbn [fold_left]; [split; reflexivity|].
  match goal with
  | |- context [fold_left ?f rest ?ps] =>
      destruct (IH ps) as [Hlen Hkeep]
  end.
  split.
  - intros name. rewrite Hlen.
    destruct (parameters !! param_name) as [parameter|] eqn:Hget; [|reflexivity].
    destruct (String.eqb_spec param_name name) as [->|Hne].
    + rewrite lookup_insert_eq, Hget. cbn. rewrite apply_gradient_length.
      reflexivity.
    + rewrite lookup_insert_ne by exact Hne. reflexivity.
  - intros name Hnot. cbn [dict_keys map fst] in Hnot.
    rewrite Hkeep by (intros Hin; apply Hnot; right; exact Hin).
    destruct (parameters !! param_name) as [parameter|]; [|reflexivity].
    rewrite lookup_insert_ne; [reflexivity|].
    intros ->. apply Hnot. left. reflexivity.
Qed.

(** ** HuggingFaceLLM *)

Section HuggingFaceMore.
Context {ops : StrOps}.

Lemma error_response_marks (hf : HuggingFaceLLM) (message reason error : string) :
  confidence (error_response hf message reason error) = 0%Q
  /\ metadata (error_response hf message reason error) !! "error"
     = Some (VStr error).
Proof.
  split; [reflexivity|]. unfold error_response. cbn.
  rewrite lookup_insert_ne by discriminate. apply lookup_insert_eq.
Qed.

(** A response of the body of the [try] is marked as a failure, or it is
    a generation with a confidence in range, no error entry and a text. *)
Lemma hf_generate_body_marks (hf : HuggingFaceLLM) (prompt : string)
    (kwargs : Kwargs) (r : LLMResponse) :
  hf_generate_body hf prompt kwargs = Ok r ->
  (confidence r = 0%Q /\ is_Some (metadata r !! "error"))
  \/ ((0.7 <= confidence r)%Q /\ (confidence r <= 0.95)%Q
      /\ metadata r !! "error" = None
      /\ str_empty (text r) = false).
Proof.
  unfold hf_generate_body. intros Hbody.
  assert (Hfail : forall message reason error,
            (confidence (error_response hf message reason error) = 0%Q
             /\ is_Some (metadata (error_response hf message reason error)
                           !! "error"))).
  { intros message reason error.
    destruct (error_response_marks hf message reason error) as [Hc He].
    split; [exact Hc|]. rewrite He. eauto. }
  destruct (str_empty prompt || str_empty (str_strip prompt)).
  { injection Hbody as <-. left. apply Hfail. }
  match type of Hbody with
  | match rt_encode _ ?fed with _ => _ end = _ =>
      destruct (rt_encode (hf_runtime hf) fed) as [n|te]
  end.
  2:{ injection Hbody as <-. left. apply Hfail. }
  destruct (n =? 0)%nat.
  { injection Hbody as <-. left. apply Hfail. }
  destruct (rt_to_device (hf_runtime hf)) as [[]|de];
    cbn [bind] in Hbody; [|discriminate].
  match type of Hbody with
  | bind ?m _ = _ => destruct m as [gk|ke]
  end; cbn [bind] in Hbody; [|discriminate].
  destruct (rt_model_generate (hf_runtime hf) n gk)
    as [[[rows cols] seconds]|ge]; cbn [bind] in Hbody; [|discriminate].
  destruct ((rows =? 0)%nat || (cols =? 0)%nat).
  { injection Hbody as <-. left. apply Hfail. }
  destruct (rt_decode (hf_runtime hf)) as [generated_text|dece].
  2:{ injection Hbody as <-. left. apply Hfail. }
  injection Hbody as <-. right. cbn [confidence metadata text].
  pose proof (Q_of_nat_nonneg (hf_update_count hf)) as Hn.
  split; [apply py_min_glb; lra|]. split; [apply py_min_le_l|]. split.
  - repeat (rewrite lookup_insert_ne by discriminate). apply lookup_empty.
  - destruct (str_empty (str_strip generated_text)) eqn:E; [reflexivity|exact E].
Qed.

(** X3.  Whenever [HuggingFaceLLM.generate] returns, the confidence
    tells failure from success: a failure has confidence 0 and an
    ["error"] entry in its metadata; a generation has a confidence
    between 0.7 and 0.95, no ["error"] entry and a text that is not
    empty. *)
Theorem hf_confidence_marks_failure (hf : HuggingFaceLLM) (prompt : string)
    (kwargs : Kwargs) (r : LLMResponse) :
  snd (hf_generate hf prompt kwargs) = Ok r ->
  (confidence r = 0%Q /\ is_Some (metadata r !! "error"))
  \/ ((0.7 <= confidence r)%Q /\ (confidence r <= 0.95)%Q
      /\ metadata r !! "error" = None
      /\ str_empty (text r) = false).
Proof.
  unfold hf_generate. intros Hgen.
  destruct (load_model hf) as [hf1 [[]|e]]; [|discriminate].
  destruct (hf_generate_body (hf_count_generation hf1) prompt kwargs)
    as [response|e] eqn:Hbody; cbn [snd] in Hgen; injection Hgen as <-.
  - exact (hf_generate_body_marks _ _ _ _ Hbody).
  - left. destruct (error_response_marks (hf_count_generation hf1)
                      ("生成失败: " ++ exc_msg e) "生成过程中出现错误" (exc_msg e))
      as [Hc He].
    split; [exact Hc|]. rewrite He. eauto.
Qed.

(** The two ways a call of [generate] ends. *)
Lemma hf_generate_cases (hf : HuggingFaceLLM) (prompt : string)
    (kwargs : Kwargs) :
  (exists x, hf_generate hf prompt kwargs = (hf, Raise x))
  \/ (exists hf1 r,
        hf_generate hf prompt kwargs = (hf_count_generation hf1, Ok r)
        /\ hf_model_loaded hf1 = true
        /\ hf_generation_count hf1 = hf_generation_count hf
        /\ hf_update_count hf1 = hf_update_count hf
        /\ hf_config hf1 = hf_config hf
        /\ hf_runtime hf1 = hf_runtime hf).
Proof.
  unfold hf_generate, load_model.
  destruct (hf_model_loaded hf) eqn:Hl.
  - right. exists hf.
    destruct (hf_generate_body (hf_count_generation hf) prompt kwargs);
      eexists; (split; [reflexivity|auto]).
  - destruct (rt_load_model (hf_runtime hf)); [left; eauto|].
    right. exists (hf_set_loaded hf).
    destruct (hf_generate_body (hf_count_generation (hf_set_loaded hf))
                prompt kwargs);
      eexists; (split; [reflexivity|cbn; auto]).
Qed.

(** X4.  A call of [generate] that returns, with a failure response or
    not, counts one generation and leaves the model loaded, so that every
    later call returns too.  A call raises only when the model was not
    loaded and loading raised: it raises what loading raised, counts no
    generation and no update, and leaves the model not loaded (what
    loading assigned before it raised, the tokenizer or the model, is not
    part of the record).  After [unload_model] the next call loads again
    and raises if loading does. *)
Theorem hf_generate_state (hf : HuggingFaceLLM) (prompt : string)
    (kwargs : Kwargs) :
  let hf' := fst (hf_generate hf prompt kwargs) in
  (is_ok (snd (hf_generate hf prompt kwargs)) = true ->
   hf_model_loaded hf' = true
   /\ hf_generation_count hf' = S (hf_generation_count hf)
   /\ hf_update_count hf' = hf_update_count hf
   /\ hf_config hf' = hf_config hf
   /\ hf_runtime hf' = hf_runtime hf
   /\ forall prompt2 kwargs2,
        is_ok (snd (hf_generate hf' prompt2 kwargs2)) = true)
  /\ (is_ok (snd (hf_generate hf prompt kwargs)) = false ->
      hf_model_loaded hf = false
      /\ hf_model_loaded hf' = false
      /\ hf_generation_count hf' = hf_generation_count hf
      /\ hf_update_count hf' = hf_update_count hf
      /\ exists x,
           rt_load_model (hf_runtime hf) = Some x
           /\ snd (hf_generate hf prompt kwargs) = Raise x)
  /\ (forall x, rt_load_model (hf_runtime hf) = Some x ->
        let unloaded := unload_model hf in
        snd (hf_generate unloaded prompt kwargs) = Raise x
        /\ hf_model_loaded (fst (hf_generate unloaded prompt kwargs)) = false
        /\ hf_generation_count (fst (hf_generate unloaded prompt kwargs))
           = hf_generation_count hf).
Proof.
  cbn zeta. split; [|split].
  - destruct (hf_generate_cases hf prompt kwargs)
      as [[x ->]|(hf1 & r & -> & Hl & Hg & Hu & Hc & Hrt)]; [discriminate|].
    intros _. cbn [fst hf_count_generation hf_model_loaded hf_generation_count
      hf_update_count hf_config hf_runtime].
    repeat split; try congruence.
    intros prompt2 kwargs2.
    destruct (hf_generate_returns (hf_count_generation hf1) prompt2 kwargs2
                (or_introl Hl)) as (r2 & -> & _).
    reflexivity.
  - unfold hf_generate, load_model.
    destruct (hf_model_loaded hf) eqn:Hl.
    + destruct (hf_generate_body (hf_count_generation hf) prompt kwargs);
        discriminate.
    + destruct (rt_load_model (hf_runtime hf)) as [x|] eqn:Hload.
      * intros _. cbn [fst snd]. rewrite Hl. eauto 10.
      * destruct (hf_generate_body (hf_count_generation (hf_set_loaded hf))
                    prompt kwargs); discriminate.
  - intros x Hx.
    assert (Hraise : hf_generate (unload_model hf) prompt kwargs
                     = (unload_model hf, Raise x)).
    { apply hf_generate_load_error.
      - unfold unload_model.
        destruct (hf_model_loaded hf) eqn:E; [reflexivity|exact E].
      - unfold unload_model. destruct (hf_model_loaded hf); exact Hx. }
    rewrite Hraise. cbn [fst snd]. split; [reflexivity|].
    unfold unload_model.
    destruct (hf_model_loaded hf) eqn:E; cbn; auto.
Qed.

End HuggingFaceMore.

(** ** SharedLLMManager *)

Section ManagerMore.
Context {ops : StrOps} {L : Type} {B : BaseLLM L}.

Lemma stats_aligned_register (mgr : SharedLLMManager L) (node_id : string)
    (node_config : option Kwargs) (now : Q) :
  stats_aligned mgr -> stats_aligned (register_node mgr node_id node_config now).
Proof.
  intros Hal other. unfold register_node. cbn [registered_nodes node_usage_stats].
  destruct (String.eqb_spec node_id other) as [->|Hne].
  - rewrite !lookup_insert_eq. split; eauto.
  - rewrite !lookup_insert_ne by exact Hne. apply Hal.
Qed.

Lemma stats_aligned_record (mgr : SharedLLMManager L) (node_id : string)
    (now : Q) (out : L * Exc LLMResponse) :
  stats_aligned mgr ->
  stats_aligned (fst (record_generation mgr node_id now out)).
Proof.
  intros Hal. unfold record_generation. destruct out as [l [response|e]];
    [|exact Hal].
  destruct (node_usage_stats mgr !! node_id) as [usage|] eqn:Hu; [|exact Hal].
  intros other. cbn [fst registered_nodes node_usage_stats].
  destruct (String.eqb_spec node_id other) as [->|Hne].
  - rewrite lookup_insert_eq. split; [eauto|]. intros _. apply Hal. eauto.
  - rewrite lookup_insert_ne by exact Hne. apply Hal.
Qed.

Lemma stats_aligned_generate (mgr : SharedLLMManager L)
    (node_id prompt : string) (kwargs : Kwargs) (now : Q) :
  stats_aligned mgr ->
  stats_aligned (fst (generate_for_node mgr node_id prompt kwargs now)).
Proof.
  intros Hal. unfold generate_for_node.
  destruct (registered_nodes mgr !! node_id); [|exact Hal].
  apply stats_aligned_record. exact Hal.
Qed.

Lemma stats_aligned_after (l : L) (history : list ManagerOp) :
  stats_aligned (manager_after l history).
Proof.
  unfold manager_after.
  assert (H : forall mgr, stats_aligned mgr ->
                stats_aligned (fold_left apply_op history mgr)).
  { induction history as [|op rest IH]; intros mgr Hal; [exact Hal|].
    cbn [fold_left]. apply IH. destruct op; cbn [apply_op].
    - apply stats_aligned_register. exact Hal.
    - apply stats_aligned_generate. exact Hal. }
  apply H. intros node_id. cbn. rewrite !lookup_empty.
  split; intros [x Hx]; discriminate.
Qed.

Lemma merge_kwargs_binds (node_config kwargs : Kwargs) :
  binds_generate node_config -> binds_generate kwargs ->
  binds_generate (merge_kwargs node_config kwargs).
Proof.
  intros [Hp Hs] [Hp' Hs']. unfold binds_generate.
  rewrite !merge_kwargs_lookup, Hp, Hs, Hp', Hs'. auto.
Qed.

Lemma last_registration_binds (node_id : string) (history : list ManagerOp)
    (current : option NodeEntry) (entry : NodeEntry) :
  Forall op_binds history ->
  (forall entry0, current = Some entry0 -> binds_generate (config entry0)) ->
  last_registration node_id history current = Some entry ->
  binds_generate (config entry).
Proof.
  intros Hall. revert current.
  induction Hall as [|op rest Hop _ IH]; intros current Hcur Hlast;
    cbn [last_registration] in Hlast; [exact (Hcur _ Hlast)|].
  destruct op as [id cfg t|id p k t]; [|exact (IH _ Hcur Hlast)].
  refine (IH _ _ Hlast). intros entry0.
  destruct (String.eqb id node_id); [|apply Hcur].
  intros [= <-]. exact Hop.
Qed.

(** X5.  On a manager with any history of registrations and
    generations the registered roles are exactly the roles with usage
    statistics, so that [get_node_stats] raises only the [ValueError] of an
    unregistered role.  When, besides, no configuration and no keyword
    argument names a parameter of [generate] (["prompt"], ["self"]),
    [generate_for_node] raises only that [ValueError] or what the LLM
    itself raised. *)
Theorem manager_raises_only (l : L) (history : list ManagerOp)
    (node_id prompt : string) (kwargs : Kwargs) (now : Q) :
  let mgr := manager_after l history in
  stats_aligned mgr
  /\ (forall e,
        get_node_stats mgr node_id = Raise e ->
        registered_nodes mgr !! node_id = None /\ exc_type e = ValueError)
  /\ (Forall op_binds history ->
      binds_generate kwargs ->
      forall e,
        snd (generate_for_node mgr node_id prompt kwargs now) = Raise e ->
        (registered_nodes mgr !! node_id = None /\ exc_type e = ValueError)
        \/ exists entry,
             registered_nodes mgr !! node_id = Some entry
             /\ binds_generate (merge_kwargs (config entry) kwargs)
             /\ snd (generate (llm mgr) prompt
                       (merge_kwargs (config entry) kwargs)) = Raise e).
Proof.
  intros mgr. pose proof (stats_aligned_after l history) as Hal. fold mgr in Hal.
  split; [exact Hal|]. split.
  - intros e. unfold get_node_stats.
    destruct (registered_nodes mgr !! node_id) as [entry|] eqn:Hreg.
    + destruct (proj1 (Hal node_id)) as [usage Hu]; [rewrite Hreg; eauto|].
      rewrite Hu. discriminate.
    + intros [= <-]. auto.
  - intros Hhistory Hkwargs e. unfold generate_for_node.
    destruct (registered_nodes mgr !! node_id) as [entry|] eqn:Hreg.
    + intros Hgen. right. exists entry. split; [reflexivity|]. split.
      * apply merge_kwargs_binds; [|exact Hkwargs].
        apply (last_registration_binds node_id history None entry Hhistory);
          [discriminate|].
        rewrite <- Hreg. unfold mgr, manager_after.
        rewrite registered_after. cbn [new_manager registered_nodes].
        rewrite lookup_empty. reflexivity.
      * unfold record_generation in Hgen.
        destruct (generate (llm mgr) prompt
                    (merge_kwargs (config entry) kwargs))
          as [l' [response|x]]; [|exact Hgen].
        destruct (proj1 (Hal node_id)) as [usage Hu]; [rewrite Hreg; eauto|].
        rewrite Hu in Hgen. discriminate.
    + cbn. intros [= <-]. left. auto.
Qed.

(** X6.  A generation for a registered role that the LLM answers adds
    one to the role's generation count and to the manager's total, stamps
    the role's last use, adds the number of words of the answer to the
    role's tokens, and touches no other role and no registration.  When
    the LLM raises, no statistic changes. *)
Theorem generate_for_node_accounting (mgr : SharedLLMManager L)
    (node_id prompt : string) (kwargs : Kwargs) (now : Q)
    (entry : NodeEntry) (usage : NodeUsage) :
  registered_nodes mgr !! node_id = Some entry ->
  node_usage_stats mgr !! node_id = Some usage ->
  let out := generate (llm mgr) prompt (merge_kwargs (config entry) kwargs) in
  let mgr' := fst (generate_for_node mgr node_id prompt kwargs now) in
  llm mgr' = fst out
  /\ registered_nodes mgr' = registered_nodes mgr
  /\ total_updates mgr' = total_updates mgr
  /\ match snd out with
     | Ok response =>
         total_generations mgr' = S (total_generations mgr)
         /\ node_usage_stats mgr' !! node_id
            = Some {| usage_generation_count := S (usage_generation_count usage);
                      last_used := Some now;
                      total_tokens :=
                        total_tokens usage + length (str_split (text response)) |}
         /\ forall other, other <> node_id ->
              node_usage_stats mgr' !! other = node_usage_stats mgr !! other
     | Raise e =>
         total_generations mgr' = total_generations mgr
         /\ node_usage_stats mgr' = node_usage_stats mgr
         /\ snd (generate_for_node mgr node_id prompt kwargs now) = Raise e
     end.
Proof.
  intros Hreg Hu. cbn zeta. unfold generate_for_node, record_generation.
  rewrite Hreg.
  destruct (generate (llm mgr) prompt (merge_kwargs (config entry) kwargs))
    as [l' [response|e]]; [rewrite Hu|]; cbn; repeat split; auto.
  - apply lookup_insert_eq.
  - intros other Hne. apply lookup_insert_ne. congruence.
Qed.

(** X7.  The response [generate_for_node] returns is the LLM's: same
    text, confidence and reasoning.  Its metadata, when the LLM gave any,
    gain the role under ["node_id"] and the manager's new total under
    ["global_generation_count"] and keep every other entry; empty
    metadata stay empty. *)
Theorem generate_for_node_tags (mgr : SharedLLMManager L)
    (node_id prompt : string) (kwargs : Kwargs) (now : Q)
    (entry : NodeEntry) (usage : NodeUsage) (l' : L) (response : LLMResponse) :
  registered_nodes mgr !! node_id = Some entry ->
  node_usage_stats mgr !! node_id = Some usage ->
  generate (llm mgr) prompt (merge_kwargs (config entry) kwargs)
  = (l', Ok response) ->
  exists response',
    snd (generate_for_node mgr node_id prompt kwargs now) = Ok response'
    /\ text response' = text response
    /\ confidence response' = confidence response
    /\ LLMInterface.reasoning response' = LLMInterface.reasoning response
    /\ (metadata response = ∅ -> metadata response' = ∅)
    /\ (metadata response <> ∅ ->
        metadata response' !! "node_id" = Some (VStr node_id)
        /\ metadata response' !! "global_generation_count"
           = Some (VNat (S (total_generations mgr)))
        /\ forall key, key <> "node_id" -> key <> "global_generation_count" ->
             metadata response' !! key = metadata response !! key).
Proof.
  intros Hreg Hu Hgen. unfold generate_for_node, record_generation.
  rewrite Hreg, Hgen, Hu. cbn [snd].
  destruct (decide (metadata response = ∅)) as [Hempty|Hfull].
  - exists response. split; [reflexivity|]. do 4 (split; [auto|]).
    intros Hne. contradiction.
  - eexists. split; [reflexivity|]. cbn. do 3 (split; [reflexivity|]).
    split; [intros Hempty; contradiction|]. intros _. split; [|split].
    + rewrite lookup_insert_ne by discriminate. apply lookup_insert_eq.
    + apply lookup_insert_eq.
    + intros key Hk1 Hk2. rewrite !lookup_insert_ne by congruence. reflexivity.
Qed.

(** X8.  After [register_node] the statistics of the role read back the
    configuration just registered (empty for [None]) and a usage of zero,
    whatever the role had accumulated before; the manager's total of
    generations is kept, and the statistics of every other role read as
    before. *)
Theorem register_resets_stats (mgr : SharedLLMManager L) (node_id : string)
    (node_config : option Kwargs) (now : Q) :
  let mgr' := register_node mgr node_id node_config now in
  get_node_stats mgr' node_id
  = Ok {| ns_node_id := node_id;
          ns_config := default ∅ node_config;
          ns_usage_stats := fresh_usage;
          ns_shared_llm_model := model_name (llm mgr);
          ns_shared_llm_backend := backend_value (backend (llm mgr)) |}
  /\ total_generations mgr' = total_generations mgr
  /\ forall other, other <> node_id ->
       get_node_stats mgr' other = get_node_stats mgr other.
Proof.
  cbn zeta. unfold get_node_stats, register_node.
  cbn [registered_nodes node_usage_stats llm total_generations].
  rewrite !lookup_insert_eq. split; [reflexivity|]. split; [reflexivity|].
  intros other Hne. rewrite !lookup_insert_ne by congruence. reflexivity.
Qed.

End ManagerMore.

(** * Further properties of trading_demo.py *)

(** ** The features of the driver *)

Lemma py_sum_from (xs : list Q) (a : Q) :
  (fold_left Qplus xs a == a + Qsum xs)%Q.
Proof.
  revert a. induction xs as [|x rest IH]; intros a; cbn [fold_left Qsum].
  - ring.
  - rewrite IH. ring.
Qed.

Lemma py_sum_Qsum (xs : list Q) : (py_sum xs == Qsum xs)%Q.
Proof. unfold py_sum. rewrite py_sum_from. ring. Qed.

Lemma Qsum_nonneg (xs : list Q) :
  Forall (fun x => (0 <= x)%Q) xs -> (0 <= Qsum xs)%Q.
Proof.
  induction 1 as [|x rest Hx _ IH]; cbn [Qsum]; [apply Qle_refl|lra].
Qed.

Lemma price_returns_nonneg (prices : list Q) :
  Forall (fun x => (0 <= x)%Q) (price_returns prices).
Proof.
  induction prices as [|previous rest IH]; [constructor|].
  destruct rest as [|current rest']; [constructor|].
  cbn [price_returns] in *. destruct (Qltb 0 previous) eqn:Hpos; [|exact IH].
  constructor; [|exact IH]. apply Qltb_lt in Hpos.
  unfold Qdiv. apply Qmult_le_0_compat; [apply Qabs_nonneg|].
  apply Qlt_le_weak, Qinv_lt_0_compat. exact Hpos.
Qed.

Lemma price_returns_none (prices : list Q) :
  Forall (fun c => (c <= 0)%Q) prices -> price_returns prices = [].
Proof.
  induction 1 as [|previous rest Hp Hrest IH]; [reflexivity|].
  destruct rest as [|current rest']; [reflexivity|].
  cbn [price_returns] in *. destruct (Qltb 0 previous) eqn:Hpos; [|exact IH].
  apply Qltb_lt in Hpos. lra.
Qed.

(** X9.  [_calculate_volatility] always lies between 0 and 1.  It is
    the constant 0.5 when fewer than two entries of the snapshot have a
    close (a snapshot of one symbol, for one), and when no close is
    positive. *)
Theorem volatility_bounds (state : State) :
  (0 <= calculate_volatility state)%Q
  /\ (calculate_volatility state <= 1)%Q
  /\ ((length (snapshot_closes (market_data state)) < 2)%nat ->
      calculate_volatility state = 0.5%Q)
  /\ (Forall (fun c => (c <= 0)%Q) (snapshot_closes (market_data state)) ->
      calculate_volatility state = 0.5%Q).
Proof.
  unfold calculate_volatility.
  set (prices := snapshot_closes (market_data state)).
  pose proof (price_returns_nonneg prices) as Hnn.
  destruct (Nat.ltb_spec (length prices) 2) as [Hfew|Hmany].
  - repeat split; auto; lra.
  - destruct (price_returns prices) as [|r rest] eqn:Hret.
    + repeat split; auto; lra.
    + rewrite <- Hret in *. split; [|split; [|split]].
      * apply py_min_glb; [lra|].
        assert (0 <= py_sum (price_returns prices)
                     / Q_of_nat (length (price_returns prices)))%Q; [|lra].
        unfold Qdiv. apply Qmult_le_0_compat.
        -- rewrite py_sum_Qsum. apply Qsum_nonneg. exact Hnn.
        -- apply Qinv_le_0_compat, Q_of_nat_nonneg.
      * apply py_min_le_l.
      * intros Hlt. lia.
      * intros Hall. rewrite (price_returns_none prices Hall) in Hret.
        discriminate.
Qed.

(** X10.  The module's [_calculate_portfolio_value] returns exactly
    when the state has the keys ["portfolio"], ["cash"], ["positions"]
    and ["market_data"], and raises [KeyError] otherwise; when it
    returns, its value is the one the engine's
    [_calculate_total_portfolio_value] computes for the same state. *)
Theorem portfolio_value_agrees (raw : RawState) :
  (is_ok (calculate_portfolio_value raw) = true
   <-> exists p c ps md,
         raw_portfolio raw = Some p /\ raw_cash p = Some c
         /\ raw_positions p = Some ps /\ raw_market_data raw = Some md)
  /\ (forall v, calculate_portfolio_value raw = Ok v ->
        v = calculate_total_portfolio_value (state_of_raw raw))
  /\ (forall x, calculate_portfolio_value raw = Raise x ->
        exc_type x = KeyError).
Proof.
  unfold calculate_portfolio_value, calculate_total_portfolio_value,
    state_of_raw.
  destruct (raw_portfolio raw) as [[[c|] [ps|]]|];
    destruct (raw_market_data raw) as [md|]; cbn;
    (split; [split; [intros H; try discriminate H; eauto 10
                    |intros (p' & c' & ps' & md' & H1 & H2 & H3 & H4);
                     try discriminate; try reflexivity;
                     injection H1 as <-; cbn in *; discriminate]
            |split; [intros v [= <-]; reflexivity
                    |intros x [= <-]; reflexivity]]).
Qed.

(** ** Building the prompt *)

Lemma is_ok_bind {A B} (m : Exc A) (k : A -> Exc B) :
  is_ok (bind m k) = true <-> exists a, m = Ok a /\ is_ok (k a) = true.
Proof.
  destruct m as [a|e]; cbn.
  - split; [eauto|]. intros (a' & [= <-] & H). exact H.
  - split; [discriminate|]. intros (a' & H & _). discriminate.
Qed.

Lemma closes_ok (points : list (option Q)) (recent_prices : list Q) :
  closes points = Ok recent_prices <-> points = map Some recent_prices.
Proof.
  revert recent_prices.
  induction points as [|p rest IH]; intros recent_prices; cbn [closes].
  - destruct recent_prices; cbn; split; congruence.
  - destruct p as [c|]; cbn [subscript bind].
    + destruct (closes rest) as [more|e] eqn:Hrest; cbn [bind].
      * destruct recent_prices as [|c' more']; cbn [map];
          [split; discriminate|].
        split.
        -- intros [= <- <-]. f_equal. apply IH. reflexivity.
        -- intros [= <- Hmore]. apply IH in Hmore. congruence.
      * split; [discriminate|].
        destruct recent_prices as [|c' more']; cbn [map]; [discriminate|].
        intros [= <- Hmore]. apply IH in Hmore. discriminate.
    + split; [discriminate|]. destruct recent_prices; discriminate.
Qed.

Lemma price_changes_cons (previous current : Q) (rest : list Q) :
  price_changes (previous :: current :: rest)
  = if Qeq_bool previous 0
    then Raise (mkExc ZeroDivisionError "division by zero")
    else bind (price_changes (current :: rest))
           (fun more =>
              Ok (((current - previous) / previous * 100)%Q :: more)).
Proof. reflexivity. Qed.

Lemma price_changes_ok (recent_prices : list Q) :
  is_ok (price_changes recent_prices) = true
  <-> Forall (fun c => ~ (c == 0)%Q) (removelast recent_prices).
Proof.
  induction recent_prices as [|previous rest IH]; [cbn; split; auto|].
  destruct rest as [|current rest']; [cbn; split; auto|].
  change (removelast (previous :: current :: rest'))
    with (previous :: removelast (current :: rest')).
  rewrite price_changes_cons. destruct (Qeq_bool previous 0) eqn:Hz.
  - apply Qeq_bool_iff in Hz. split; [discriminate|].
    intros H. inversion H; subst. contradiction.
  - apply Qeq_bool_neq in Hz. rewrite is_ok_bind. split.
    + intros (more & Hmore & _). constructor; [exact Hz|].
      apply IH. rewrite Hmore. reflexivity.
    + intros H. inversion H as [|? ? _ Hrest]; subst. apply IH in Hrest.
      destruct (price_changes (current :: rest')) as [more|e];
        [eauto|discriminate].
Qed.

Lemma summary_lines_ok (summary : HistorySummary) :
  is_ok (summary_lines summary) = true <-> summary_complete summary.
Proof.
  unfold summary_lines, summary_complete.
  destruct (hs_total_change_str summary), (hs_trend_direction summary),
    (hs_trend_strength_str summary), (hs_volatility_str summary),
    (hs_volume_trend summary), (hs_avg_volume summary), (hs_min_low summary),
    (hs_max_high summary); cbn;
    (split; [intros H; try discriminate H; repeat split; discriminate
            |intros H; try reflexivity; decompose [and] H; congruence]).
Qed.

Lemma analysis_lines_ok (analysis : HistoryAnalysis) :
  is_ok (analysis_lines analysis) = true <-> analysis_complete analysis.
Proof.
  unfold analysis_lines, analysis_complete.
  destruct (ha_price_momentum analysis), (ha_volume_support analysis),
    (ha_volatility_level analysis), (ha_trend_quality analysis); cbn;
    (split; [intros H; try discriminate H; repeat split; discriminate
            |intros H; try reflexivity; decompose [and] H; congruence]).
Qed.

Lemma day_line_ok (day_data : DayData) :
  is_ok (day_line day_data) = true <-> day_complete day_data.
Proof.
  unfold day_line, day_complete.
  destruct (dd_date day_data), (dd_open day_data), (dd_high day_data),
    (dd_low day_data), (dd_close day_data), (dd_volume day_data),
    (dd_change_str day_data); cbn;
    (split; [intros H; try discriminate H; repeat split; discriminate
            |intros H; try reflexivity; decompose [and] H; congruence]).
Qed.

Lemma day_lines_ok (daily_data : list DayData) :
  is_ok (day_lines daily_data) = true <-> Forall day_complete daily_data.
Proof.
  induction daily_data as [|day_data rest IH]; [cbn; split; auto|].
  cbn [day_lines]. rewrite Forall_cons, <- IH, <- day_line_ok.
  destruct (day_line day_data) as [line|e]; cbn [bind is_ok];
    [|split; [discriminate|intros [H _]; discriminate H]].
  destruct (day_lines rest) as [more|e]; cbn; tauto.
Qed.

Lemma detailed_history_lines_ok (items : dict DetailedHistory) :
  is_ok (detailed_history_lines items) = true
  <-> Forall detailed_entry_ok items.
Proof.
  induction items as [|[symbol h] rest IH]; [cbn; split; auto|].
  cbn [detailed_history_lines]. unfold detailed_entry_ok at 1.
  rewrite Forall_cons. cbn [snd]. fold (detailed_entry_ok).
  destruct (dh_error h) as [err|].
  - rewrite IH. split; [intros H; split; [left; discriminate|exact H]|tauto].
  - destruct (dh_summary h) as [summary|]; cbn [subscript bind].
    2:{ split; [discriminate|].
        intros [[H|(s0 & a0 & d0 & H & _)] _]; congruence. }
    destruct (dh_analysis h) as [analysis|]; cbn [subscript bind].
    2:{ split; [discriminate|].
        intros [[H|(s0 & a0 & d0 & _ & H & _)] _]; congruence. }
    pose proof (summary_lines_ok summary) as Hsummary.
    destruct (summary_lines summary) as [summary_part|e]; cbn [bind is_ok] in *.
    2:{ split; [discriminate|].
        intros [[H|(s0 & a0 & d0 & [= <-] & _ & _ & H & _)] _];
          [congruence|]. apply Hsummary in H. discriminate H. }
    pose proof (analysis_lines_ok analysis) as Hanalysis.
    destruct (analysis_lines analysis) as [analysis_part|e];
      cbn [bind is_ok] in *.
    2:{ split; [discriminate|].
        intros [[H|(s0 & a0 & d0 & _ & [= <-] & _ & _ & H & _)] _];
          [congruence|]. apply Hanalysis in H. discriminate H. }
    destruct (dh_daily_data h) as [daily_data|]; cbn [subscript bind].
    2:{ split; [discriminate|].
        intros [[H|(s0 & a0 & d0 & _ & _ & H & _)] _]; congruence. }
    pose proof (day_lines_ok daily_data) as Hdays.
    destruct (day_lines daily_data) as [days|e]; cbn [bind is_ok] in *.
    2:{ split; [discriminate|].
        intros [[H|(s0 & a0 & d0 & _ & _ & [= <-] & _ & _ & H)] _];
          [congruence|]. apply Hdays in H. discriminate H. }
    destruct (detailed_history_lines rest) as [more|e]; cbn [bind is_ok] in *.
    + split; [|reflexivity]. intros _. split; [|apply IH; reflexivity].
      right. exists summary, analysis, daily_data.
      do 3 (split; [reflexivity|]).
      split; [apply Hsummary; reflexivity|].
      split; [apply Hanalysis|apply Hdays]; reflexivity.
    + split; [discriminate|]. intros [_ H]. apply IH in H. discriminate H.
Qed.

Lemma price_history_lines_ok (items : dict (list (option Q))) :
  is_ok (price_history_lines items) = true
  <-> Forall price_points_ok items.
Proof.
  induction items as [|[symbol history] rest IH]; [cbn; split; auto|].
  cbn [price_history_lines]. rewrite Forall_cons.
  unfold price_points_ok at 1. cbn [snd].
  destruct (Nat.leb_spec 5 (length history)) as [Hlong|Hshort].
  - rewrite is_ok_bind. split.
    + intros (recent_prices & Hcloses & Hrest).
      apply is_ok_bind in Hrest as (changes & Hchanges & Hrest).
      apply is_ok_bind in Hrest as (more & Hmore & _).
      split.
      * right. exists recent_prices. split; [apply closes_ok; exact Hcloses|].
        apply price_changes_ok. rewrite Hchanges. reflexivity.
      * apply IH. rewrite Hmore. reflexivity.
    + intros [[Hshort|(recent_prices & Hlast & Hnz)] Hrest]; [lia|].
      exists recent_prices. split; [apply closes_ok; exact Hlast|].
      apply price_changes_ok in Hnz. apply IH in Hrest.
      destruct (price_changes recent_prices) as [changes|e]; [|discriminate].
      destruct (price_history_lines rest) as [more|e]; [|discriminate].
      reflexivity.
  - rewrite IH. split; [intros H; split; [left; exact Hshort|exact H]|tauto].
Qed.

Lemma portfolio_lines_length (previous : option Q)
    (records : list PortfolioRecord) :
  length (portfolio_lines previous records) = length records.
Proof.
  revert previous. induction records as [|r rest IH]; intros previous;
    cbn; [reflexivity|]. rewrite IH. reflexivity.
Qed.

Section Prompt.
Context {ops : StrOps}.

(** X11.  The prompt can be built exactly when every entry of the
    detailed history carries an error marker or its three keys, with
    every key that the prompt reads of the summary, of the analysis and of
    each day, and every price history has fewer than five points or has
    closes on its last five points with none of the first four of them
    zero.  For any other
    state [make_decision] raises, with every engine and every generation
    service: the prompt is built before the [try], so that neither the
    service nor the fallback is reached, and only the counter moves. *)
Theorem prompt_guard (state : State) :
  (prompt_builds state = true
   <-> Forall detailed_entry_ok (detailed_history state)
       /\ Forall price_points_ok (price_history state))
  /\ (prompt_builds state = false ->
      forall e env, exists x,
        make_decision e state env = (count_decision e, Raise x)).
Proof.
  split.
  - unfold prompt_builds. rewrite andb_true_iff.
    rewrite detailed_history_lines_ok, price_history_lines_ok. reflexivity.
  - intros Hb e env. unfold make_decision.
    destruct (construct_decision_prompt_raises (count_decision e) state Hb)
      as [x ->]. eauto.
Qed.

(** X12.  The prompt does not grow with the engine's histories: it
    shows at most ten decisions and ten portfolio snapshots under their
    headings and at most ten trades, and no heading while a history is
    empty; it has one line for each symbol of the snapshot, of the
    indicators and of the positions. *)
Theorem prompt_sections_bounded (e : Engine) (state : State) (p : Prompt) :
  construct_decision_prompt e state = Ok p ->
  (length (decision_history_summary p) <= 11)%nat
  /\ (length (portfolio_history_summary p) <= 11)%nat
  /\ (length (trade_summary p) <= 10)%nat
  /\ (decision_history e = [] -> decision_history_summary p = [])
  /\ (portfolio_history e = [] -> portfolio_history_summary p = [])
  /\ length (market_summary p) = length (market_data state)
  /\ length (technical_summary p) = length (technical_indicators state)
  /\ length (position_summary p) = length (positions (portfolio state)).
Proof.
  unfold construct_decision_prompt. intros Hp.
  destruct (detailed_history_lines (detailed_history state)) as [dl|x];
    [|discriminate].
  destruct (price_history_lines (price_history state)) as [pl|x];
    [|discriminate].
  cbn [bind] in Hp. injection Hp as <-.
  cbn [decision_history_summary portfolio_history_summary trade_summary
       market_summary technical_summary position_summary].
  repeat split.
  - destruct (decision_history e) as [|d l]; [cbn; lia|].
    cbn [length]. rewrite length_map, last_n_length. lia.
  - destruct (portfolio_history e) as [|d l]; [cbn; lia|].
    cbn [length]. rewrite portfolio_lines_length, last_n_length. lia.
  - rewrite length_map, last_n_length. lia.
  - intros ->. reflexivity.
  - intros ->. reflexivity.
  - apply length_map.
  - apply length_map.
  - apply length_map.
Qed.

End Prompt.

(** ** When the parser raises *)

Lemma parse_score_loop_raises (state : State) (symbols : list string)
    (acc : Scores) :
  is_ok (parse_score_loop state symbols acc) = false
  <-> exists symbol data,
        In symbol symbols
        /\ dict_get symbol (market_data state) = Some data
        /\ md_close data = None.
Proof.
  revert acc. induction symbols as [|symbol rest IH]; intros acc;
    cbn [parse_score_loop].
  - split; [discriminate|]. intros (s & d & [] & _).
  - destruct (dict_get symbol (market_data state)) as [data|] eqn:Hget.
    + destruct (md_close data) as [price|] eqn:Hclose; cbn [subscript bind].
      * rewrite IH. split.
        -- intros (s & d & Hin & H). exists s, d. split; [right; exact Hin|exact H].
        -- intros (s & d & [<-|Hin] & Hs & Hc); [congruence|eauto].
      * split; [|reflexivity]. intros _. exists symbol, data.
        split; [left; reflexivity|auto].
    + rewrite IH. split.
      * intros (s & d & Hin & H). exists s, d. split; [right; exact Hin|exact H].
      * intros (s & d & [<-|Hin] & Hs & Hc); [congruence|eauto].
Qed.

Lemma parse_score_loop_key_error (state : State) (symbols : list string)
    (acc : Scores) (x : PyException) :
  parse_score_loop state symbols acc = Raise x -> x = mkExc KeyError "close".
Proof.
  revert acc. induction symbols as [|symbol rest IH]; intros acc;
    cbn [parse_score_loop]; [discriminate|].
  destruct (dict_get symbol (market_data state)) as [data|]; [|apply IH].
  destruct (md_close data); cbn; [apply IH|congruence].
Qed.

Lemma parse_by_score_cases (state : State) :
  match parse_score_loop state (state_symbols state) initial_scores with
  | Ok acc => is_ok (parse_by_score state) = true
  | Raise x => parse_by_score state = Raise x /\ x = mkExc KeyError "close"
  end.
Proof.
  unfold parse_by_score.
  destruct (parse_score_loop state (state_symbols state) initial_scores)
    as [acc|x] eqn:Hloop.
  - assert (Hinv : scores_inv (fun _ => True) acc).
    { apply (parse_score_loop_inv _ state (state_symbols state) initial_scores);
        [auto|apply scores_inv_initial|exact Hloop]. }
    destruct (market_data state); [reflexivity|]. cbn [bind].
    destruct (Qltb (best_sell_score acc) (best_buy_score acc)
              && Qltb 0.3 (best_buy_score acc)) eqn:Hbuy.
    + apply andb_prop in Hbuy as [_ Hbuy].
      destruct (scores_inv_buy _ acc Hinv Hbuy) as [_ [ti Hti]].
      unfold loop_rsi. rewrite Hti. reflexivity.
    + destruct (Qltb 0.3 (best_sell_score acc)) eqn:Hsell; [|reflexivity].
      destruct (scores_inv_sell _ acc Hinv Hsell) as [_ [ti Hti]].
      unfold loop_rsi. rewrite Hti. reflexivity.
  - assert (Hr : is_ok (parse_score_loop state (state_symbols state)
                          initial_scores) = false) by (rewrite Hloop; reflexivity).
    apply parse_score_loop_raises in Hr as (s & d & _ & Hget & _).
    destruct (market_data state); [discriminate|].
    split; [reflexivity|]. exact (parse_score_loop_key_error _ _ _ _ Hloop).
Qed.

Lemma parse_by_market_raises (state : State) :
  (is_ok (parse_by_market state) = false <-> missing_close state)
  /\ forall x, parse_by_market state = Raise x -> x = mkExc KeyError "close".
Proof.
  pose proof (parse_by_score_cases state) as Hcases.
  pose proof (parse_score_loop_raises state (state_symbols state)
                initial_scores) as Hiff.
  unfold parse_by_market, missing_close.
  destruct (parse_score_loop state (state_symbols state) initial_scores)
    as [acc|x0].
  - destruct (parse_by_score state) as [[d|]|y]; [| |discriminate]; cbn;
      (split; [split; [discriminate|intros H; apply Hiff in H; discriminate]
              |discriminate]).
  - destruct Hcases as [-> ->]. cbn. split.
    + split; [intros _; apply Hiff; reflexivity|reflexivity].
    + congruence.
Qed.

Section ParserRaises.
Context {ops : StrOps}.

(** X13.  [_parse_decision] raises exactly when no keyword rule
    decides and some configured symbol has an entry in the market snapshot
    without a ["close"]; what it raises is the [KeyError] of that key, and
    [make_decision] lets it through: the call raises after the service
    has answered, and only the counter has moved. *)
Theorem parse_decision_raises_iff (response : string) (state : State) :
  (is_ok (parse_decision response state) = false
   <-> parse_keywords (str_strip response) (state_symbols state) = None
       /\ missing_close state)
  /\ (forall x, parse_decision response state = Raise x ->
        x = mkExc KeyError "close")
  /\ (forall e env r,
        prompt_builds state = true ->
        (forall node_id prompt kwargs,
           service env node_id prompt kwargs = Ok r) ->
        text r = response ->
        is_ok (parse_decision response state) = false ->
        make_decision e state env
        = (count_decision e, Raise (mkExc KeyError "close"))).
Proof.
  destruct (parse_by_market_raises state) as [Hiff Hkey].
  assert (Hx : forall x, parse_decision response state = Raise x ->
                 x = mkExc KeyError "close").
  { unfold parse_decision.
    destruct (parse_keywords _ _); [discriminate|]. exact Hkey. }
  split; [|split; [exact Hx|]].
  - unfold parse_decision.
    destruct (parse_keywords (str_strip response) (state_symbols state)).
    + split; [discriminate|]. intros [H _]. discriminate.
    + rewrite Hiff. split; [auto|tauto].
  - intros e env r Hb Hsvc <- Hraise. unfold make_decision.
    destruct (construct_decision_prompt_ok (count_decision e) state Hb)
      as [prompt ->].
    rewrite Hsvc.
    destruct (parse_decision (text r) state) as [d|x] eqn:Hparse;
      [discriminate|].
    rewrite (Hx x eq_refl). reflexivity.
Qed.

End ParserRaises.

(** ** What the two cascades commit to *)

Lemma score_symbol_below (acc : Scores) (symbol : string) :
  below_threshold acc ->
  below_threshold (score_symbol acc symbol no_indicators).
Proof.
  intros [Hb Hs]. unfold below_threshold, score_symbol.
  cbn [best_buy_score best_sell_score].
  split.
  - destruct (Qltb (best_buy_score acc) _); [reflexivity|exact Hb].
  - destruct (Qltb (best_sell_score acc) _); [reflexivity|exact Hs].
Qed.

Lemma indicators_of_none (state : State) (symbol : string) :
  technical_indicators state = [] -> indicators_of state symbol = no_indicators.
Proof. intros H. unfold indicators_of. rewrite H. reflexivity. Qed.

Lemma fallback_score_loop_below (state : State) (symbols : list string)
    (acc : Scores) :
  technical_indicators state = [] ->
  below_threshold acc ->
  below_threshold (fallback_score_loop state symbols acc).
Proof.
  intros Hti. revert acc.
  induction symbols as [|symbol rest IH]; intros acc Hacc; [exact Hacc|].
  cbn [fallback_score_loop]. apply IH. rewrite indicators_of_none by exact Hti.
  apply score_symbol_below. exact Hacc.
Qed.

Lemma parse_score_loop_below (state : State) (symbols : list string)
    (acc acc' : Scores) :
  technical_indicators state = [] ->
  below_threshold acc ->
  parse_score_loop state symbols acc = Ok acc' ->
  below_threshold acc'.
Proof.
  intros Hti. revert acc.
  induction symbols as [|symbol rest IH]; intros acc Hacc Hloop;
    cbn [parse_score_loop] in Hloop; [congruence|].
  destruct (dict_get symbol (market_data state)) as [data|];
    [|exact (IH _ Hacc Hloop)].
  destruct (md_close data); cbn in Hloop; [|discriminate].
  apply (IH _ (score_symbol_below acc symbol Hacc)).
  rewrite indicators_of_none in Hloop by exact Hti. exact Hloop.
Qed.

(** X14.  [_fallback_decision] raises only when there is no market data
    and the symbol list is explicitly empty.  Whenever it returns, the
    action is BUY or SELL and the amount 100; with market data the symbol
    is a key of the snapshot, whatever the configured symbols are, and
    without market data it is the first configured symbol. *)
Theorem fallback_decision_guarantee (state : State) :
  (is_ok (fallback_decision state) = false
   <-> market_data state = [] /\ symbols state = Some [])
  /\ forall d, fallback_decision state = Ok d ->
       (action d = "BUY" \/ action d = "SELL")
       /\ amount d = 100%Q
       /\ exists s, symbol d = Some s
            /\ (market_data state <> [] ->
                In s (dict_keys (market_data state)))
            /\ (market_data state = [] ->
                action d = "BUY" /\ head (state_symbols state) = Some s).
Proof.
  split.
  - split.
    + intros Hraise.
      destruct (market_data state) as [|item items] eqn:Hmd.
      * split; [reflexivity|].
        destruct (symbols state) as [[|first rest]|] eqn:Hsym; [reflexivity| |];
          destruct (fallback_decision_returns state) as [d Hd];
          try (right; rewrite Hsym; discriminate);
          rewrite Hd in Hraise; discriminate.
      * destruct (fallback_decision_returns state) as [d Hd];
          [left; rewrite Hmd; discriminate|].
        rewrite Hd in Hraise. discriminate.
    + intros [Hmd Hsym]. unfold fallback_decision, state_symbols.
      rewrite Hmd, Hsym. reflexivity.
  - intros d Hd.
    destruct (fallback_decision_committed state d Hd) as (Hact & Hamt & _).
    split; [exact Hact|]. split; [exact Hamt|].
    unfold fallback_decision in Hd.
    destruct (market_data state) as [|[symbol data] items] eqn:Hmd.
    + destruct (state_symbols state) as [|first rest] eqn:Hsym; [discriminate|].
      injection Hd as <-. exists first. cbn.
      split; [reflexivity|]. split; [intros H; congruence|auto].
    + cbn [dict_keys map fst] in Hd.
      set (keys := symbol :: map fst items) in *.
      set (acc := fallback_score_loop state keys initial_scores) in *.
      assert (Hinv : scores_inv (fun s => In s keys) acc).
      { apply fallback_score_loop_inv; [auto|apply scores_inv_initial]. }
      destruct (Qltb (best_sell_score acc) (best_buy_score acc)
                && Qltb 0.3 (best_buy_score acc)) eqn:Hbuy.
      * apply andb_prop in Hbuy as [_ Hbuy].
        destruct (scores_inv_buy _ acc Hinv Hbuy) as [(s & Hs & HP) _].
        injection Hd as <-. exists s. cbn.
        split; [exact Hs|]. split; [intros _; exact HP|discriminate].
      * destruct (Qltb 0.3 (best_sell_score acc)) eqn:Hsell.
        -- destruct (scores_inv_sell _ acc Hinv Hsell) as [(s & Hs & HP) _].
           injection Hd as <-. exists s. cbn.
           split; [exact Hs|]. split; [intros _; exact HP|discriminate].
        -- injection Hd as <-. eexists. cbn.
           split; [reflexivity|]. split; [|discriminate]. intros _.
           apply (max_by_in (day_gain ((symbol, data) :: items))).
Qed.

(** X15.  Without technical indicators no score passes the threshold,
    so both cascades buy, and never sell: [_fallback_decision], and
    [_parse_decision] once no keyword rule decides and no configured
    symbol lacks its close, return BUY 100 of the key of the snapshot with
    the greatest close minus open, the first such key when several are
    greatest. *)
Theorem no_indicators_buys_best_gain (state : State) (first : string)
    (others : list string) :
  technical_indicators state = [] ->
  dict_keys (market_data state) = first :: others ->
  let gain := day_gain (market_data state) in
  let best := max_by gain first others in
  fallback_decision state
  = Ok {| action := "BUY"; symbol := Some best; amount := 100;
          reasoning := ReasonFallbackGain best |}
  /\ (~ missing_close state ->
      parse_by_market state
      = Ok {| action := "BUY"; symbol := Some best; amount := 100;
              reasoning := ReasonForced best |})
  /\ (forall k, In k (first :: others) -> (gain k <= gain best)%Q)
  /\ exists before after,
       first :: others = (before ++ best :: after)%list
       /\ Forall (fun k => (gain k < gain best)%Q) before.
Proof.
  intros Hti Hkeys gain best.
  assert (Hinit : below_threshold initial_scores) by (split; reflexivity).
  split; [|split; [|split]].
  - destruct (fallback_score_loop_below state (first :: others) initial_scores
                Hti Hinit) as [Hb Hs].
    subst best gain. unfold fallback_decision. cbv zeta.
    destruct (market_data state) as [|item items] eqn:Hmd; [discriminate|].
    rewrite Hkeys, Hb, Hs, andb_false_r. reflexivity.
  - intros Hclose. unfold parse_by_market.
    destruct (parse_score_loop state (state_symbols state) initial_scores)
      as [acc|x] eqn:Hloop.
    + destruct (parse_score_loop_below state _ _ _ Hti Hinit Hloop) as [Hb Hs].
      assert (Hforced : parse_forced state
                        = {| action := "BUY"; symbol := Some best; amount := 100;
                             reasoning := ReasonForced best |}).
      { unfold parse_forced. cbv zeta. rewrite Hkeys. reflexivity. }
      unfold parse_by_score. cbv zeta.
      destruct (market_data state) as [|item items] eqn:Hmd; [discriminate|].
      rewrite Hloop. cbn [bind]. rewrite Hb, Hs, andb_false_r. cbn [bind].
      rewrite Hforced. reflexivity.
    + exfalso. apply Hclose.
      apply (parse_score_loop_raises state (state_symbols state) initial_scores).
      rewrite Hloop. reflexivity.
  - intros k Hk. apply max_by_greatest. exact Hk.
  - destruct (max_by_spec gain others first) as (before & after & Heq & Hb & _).
    exists before, after. auto.
Qed.

(** The body of the [try] on two objects with the same configuration and
    runtime takes the same path: both fail, or both generate with the
    confidence of their own update counts. *)
Lemma hf_generate_body_paths `{StrOps} (hf1 hf2 : HuggingFaceLLM)
    (prompt : string)
    (kwargs : Kwargs) :
  hf_config hf1 = hf_config hf2 ->
  hf_runtime hf1 = hf_runtime hf2 ->
  match hf_generate_body hf1 prompt kwargs,
        hf_generate_body hf2 prompt kwargs with
  | Ok r1, Ok r2 =>
      (confidence r1 = 0%Q /\ confidence r2 = 0%Q)
      \/ (confidence r1
          = py_min 0.95 (0.7 + Q_of_nat (hf_update_count hf1) * 0.01)
          /\ confidence r2
             = py_min 0.95 (0.7 + Q_of_nat (hf_update_count hf2) * 0.01))
  | Raise _, Raise _ => True
  | _, _ => False
  end.
Proof.
  intros Hcfg Hrt. unfold hf_generate_body. rewrite <- Hcfg, <- Hrt.
  destruct (str_empty prompt || str_empty (str_strip prompt)); [left; auto|].
  match goal with
  | |- context [rt_encode _ ?fed] =>
      destruct (rt_encode (hf_runtime hf1) fed) as [n|te]
  end; [|left; auto].
  destruct (n =? 0)%nat; [left; auto|].
  destruct (rt_to_device (hf_runtime hf1)) as [[]|de]; cbn [bind]; [|exact I].
  match goal with
  | |- context [bind ?m _] => destruct m as [gk|ke]
  end; cbn [bind]; [|exact I].
  destruct (rt_model_generate (hf_runtime hf1) n gk)
    as [[[rows cols] seconds]|ge]; cbn [bind]; [|exact I].
  destruct ((rows =? 0)%nat || (cols =? 0)%nat); [left; auto|].
  destruct (rt_decode (hf_runtime hf1)) as [generated_text|dece];
    [|left; auto].
  right. split; reflexivity.
Qed.

Section HFUpdates.
Context {ops : StrOps}.

Lemma hf_generate_loaded (hf : HuggingFaceLLM) (prompt : string)
    (kwargs : Kwargs) :
  hf_model_loaded hf = true ->
  hf_generate hf prompt kwargs
  = (hf_count_generation hf,
     Ok match hf_generate_body (hf_count_generation hf) prompt kwargs with
        | Ok response => response
        | Raise e =>
            error_response (hf_count_generation hf)
              ("生成失败: " ++ exc_msg e) "生成过程中出现错误" (exc_msg e)
        end).
Proof.
  intros Hl. unfold hf_generate, load_model. rewrite Hl.
  destruct (hf_generate_body (hf_count_generation hf) prompt kwargs);
    reflexivity.
Qed.

(** X21.  [HuggingFaceLLM.update_parameters] counts only on a loaded
    model: before the first load it changes nothing, so that [generate]
    answers as if it had not been called.  On a loaded model it adds one
    to the update count and nothing else, and the next [generate] takes
    the same path with a confidence that is not lower: 0 again for a
    failure, and min(0.95, 0.7 + 0.01 * updates) for a generation. *)
Theorem hf_update_parameters_confidence (hf : HuggingFaceLLM)
    (prompt : string) (kwargs : Kwargs) :
  (hf_model_loaded hf = false ->
   hf_generate (hf_update_parameters hf) prompt kwargs
   = hf_generate hf prompt kwargs)
  /\ (hf_model_loaded hf = true ->
      exists r r',
        snd (hf_generate hf prompt kwargs) = Ok r
        /\ snd (hf_generate (hf_update_parameters hf) prompt kwargs) = Ok r'
        /\ hf_update_count (fst (hf_generate (hf_update_parameters hf)
                                   prompt kwargs))
           = S (hf_update_count hf)
        /\ (confidence r <= confidence r')%Q
        /\ ((confidence r = 0%Q /\ confidence r' = 0%Q)
            \/ (confidence r
                = py_min 0.95 (0.7 + Q_of_nat (hf_update_count hf) * 0.01)
                /\ confidence r'
                   = py_min 0.95
                       (0.7 + Q_of_nat (S (hf_update_count hf)) * 0.01)))).
Proof.
  split.
  - intros Hl. unfold hf_update_parameters. rewrite Hl. reflexivity.
  - intros Hl.
    set (updated := hf_update_parameters hf).
    assert (Hupdated : hf_model_loaded updated = true
                       /\ hf_update_count updated = S (hf_update_count hf)
                       /\ hf_config hf = hf_config updated
                       /\ hf_runtime hf = hf_runtime updated).
    { unfold updated, hf_update_parameters. rewrite Hl. cbn. auto. }
    destruct Hupdated as (Hl' & Hcount & Hcfg & Hrt).
    rewrite (hf_generate_loaded hf prompt kwargs Hl).
    rewrite (hf_generate_loaded updated prompt kwargs Hl').
    cbn [fst snd hf_count_generation hf_update_count].
    pose proof (hf_generate_body_paths (hf_count_generation hf)
                  (hf_count_generation updated) prompt kwargs Hcfg Hrt)
      as Hpaths.
    cbn [hf_count_generation hf_update_count] in Hpaths.
    rewrite Hcount in Hpaths.
    destruct (hf_generate_body (hf_count_generation hf) prompt kwargs)
      as [r|x];
      destruct (hf_generate_body (hf_count_generation updated) prompt kwargs)
        as [r'|x']; try contradiction.
    + exists r, r'. repeat (split; [reflexivity|]).
      split; [exact Hcount|]. split; [|exact Hpaths].
      destruct Hpaths as [[-> ->]|[-> ->]]; [apply Qle_refl|].
      apply py_min_mono.
      pose proof (Q_of_nat_le (hf_update_count hf) (S (hf_update_count hf))
                    (Nat.le_succ_diag_r _)). lra.
    + eexists. eexists. repeat (split; [reflexivity|]).
      split; [exact Hcount|]. split; [apply Qle_refl|].
      left. split; reflexivity.
Qed.

End HFUpdates.

(** ** The three histories against each other *)

Lemma last_n_map {A B} (f : A -> B) (n : nat) (l : list A) :
  last_n n (map f l) = map f (last_n n l).
Proof. unfold last_n. rewrite length_map. apply skipn_map. Qed.

Section Histories.
Context {ops : StrOps}.

Lemma call_records_views (e : Engine) (state : State) (env : CallEnv) :
  let log := call_records e state env in
  log_markets log = map market_view (log_decisions log)
  /\ log_portfolios log = map portfolio_view (log_decisions log)
  /\ Forall (fun r => dr_step r = S (decision_count e)) (log_decisions log).
Proof.
  unfold call_records.
  destruct (snd (make_decision e state env)) as [[d|d response prompt n]|x];
    cbn; repeat split; repeat constructor.
Qed.

Lemma history_log_views (calls : list (State * CallEnv)) (e : Engine) :
  let log := history_log e calls in
  log_markets log = map market_view (log_decisions log)
  /\ log_portfolios log = map portfolio_view (log_decisions log).
Proof.
  revert e. induction calls as [|call rest IH]; intros e; [split; reflexivity|].
  cbn [history_log].
  destruct (call_records_views e (fst call) (snd call)) as (Hm & Hp & _).
  destruct (IH (fst (make_decision e (fst call) (snd call)))) as (Hm' & Hp').
  unfold log_markets, log_portfolios, log_decisions in *.
  rewrite !map_app, Hm, Hp, Hm', Hp'. split; reflexivity.
Qed.

Lemma history_log_steps (calls : list (State * CallEnv)) (e : Engine) :
  let steps := map dr_step (log_decisions (history_log e calls)) in
  StronglySorted lt steps
  /\ Forall (fun s => decision_count e < s <= decision_count e + length calls)%nat
            steps.
Proof.
  revert e. induction calls as [|call rest IH]; intros e.
  - split; constructor.
  - cbn [history_log length].
    destruct (call_records_views e (fst call) (snd call)) as (_ & _ & Hstep).
    destruct (make_decision_histories e (fst call) (snd call)) as (Hc & _).
    destruct (IH (fst (make_decision e (fst call) (snd call)))) as (Hs & Hb).
    rewrite Hc in Hb.
    unfold log_decisions in *. rewrite !map_app.
    pose proof (call_records_length e (fst call) (snd call)) as Hlen.
    destruct (call_records e (fst call) (snd call)) as [|r [|r' rs]];
      cbn in Hlen; [| |lia].
    + cbn. split; [exact Hs|].
      eapply List.Forall_impl; [|exact Hb]. cbn. intros s Hs'. lia.
    + apply Forall_inv in Hstep. cbn in Hstep. cbn. rewrite Hstep. split.
      * constructor; [exact Hs|].
        eapply List.Forall_impl; [|exact Hb]. cbn. intros s Hs'. lia.
      * constructor; [lia|].
        eapply List.Forall_impl; [|exact Hb]. cbn. intros s Hs'. lia.
Qed.

Lemma history_log_steps_answered (calls : list (State * CallEnv)) :
  Forall answered calls ->
  forall e,
    map dr_step (log_decisions (history_log e calls))
    = seq (S (decision_count e)) (length calls).
Proof.
  induction 1 as [|call rest Hcall _ IH]; intros e; [reflexivity|].
  cbn [history_log length seq].
  destruct (call_records_views e (fst call) (snd call)) as (_ & _ & Hstep).
  destruct (make_decision_histories e (fst call) (snd call)) as (Hc & _).
  pose proof (call_records_answered e call Hcall) as Hlen.
  specialize (IH (fst (make_decision e (fst call) (snd call)))).
  rewrite Hc in IH.
  unfold log_decisions in *. rewrite !map_app, IH.
  destruct (call_records e (fst call) (snd call)) as [|r [|r' rs]];
    cbn in Hlen; try discriminate.
  apply Forall_inv in Hstep. cbn in Hstep. cbn. rewrite Hstep. reflexivity.
Qed.

(** X16.  After any run the three histories describe the same calls: the
    market history and the portfolio history are the market data, detailed
    history, portfolio and valuation of the last 30 records of the
    decision history, step by step. *)
Theorem histories_aligned (calls : list (State * CallEnv)) :
  let e' := run new_engine calls in
  market_history e' = map market_view (last_n 30 (decision_history e'))
  /\ portfolio_history e' = map portfolio_view (last_n 30 (decision_history e'))
  /\ map mr_step (market_history e') = map pr_step (portfolio_history e')
  /\ map mr_step (market_history e')
     = last_n 30 (map dr_step (decision_history e')).
Proof.
  intros e'.
  destruct (history_cap_bounds calls) as (Hd & Hm & Hp). fold e' in Hd, Hm, Hp.
  destruct (history_log_views calls new_engine) as (Hmv & Hpv).
  assert (Hmh : market_history e'
                = map market_view (last_n 30 (decision_history e'))).
  { rewrite Hm, Hd, Hmv, last_n_last_n by lia. apply last_n_map. }
  assert (Hph : portfolio_history e'
                = map portfolio_view (last_n 30 (decision_history e'))).
  { rewrite Hp, Hd, Hpv, last_n_last_n by lia. apply last_n_map. }
  split; [exact Hmh|]. split; [exact Hph|].
  rewrite Hmh, Hph, !map_map. cbn [market_view portfolio_view mr_step pr_step].
  split; [reflexivity|]. symmetry. apply last_n_map.
Qed.

(** X17.  The step ordinals of the decision history increase strictly and
    lie between 1 and the number of calls N, whatever the calls did.  When
    every call is answered they are the consecutive ordinals
    N - min(N, 50) + 1, ..., N. *)
Theorem decision_history_ordinals (calls : list (State * CallEnv)) :
  let e' := run new_engine calls in
  let N := length calls in
  let steps := map dr_step (decision_history e') in
  StronglySorted lt steps
  /\ Forall (fun s => 1 <= s <= N)%nat steps
  /\ (Forall answered calls ->
      steps = seq (N - Nat.min N 50 + 1) (Nat.min N 50)).
Proof.
  intros e' N steps.
  destruct (history_cap_bounds calls) as (Hd & _). fold e' in Hd.
  destruct (history_log_steps calls new_engine) as (Hs & Hb).
  assert (Hsteps : steps
                   = last_n 50 (map dr_step
                                  (log_decisions (history_log new_engine calls)))).
  { unfold steps. rewrite Hd. symmetry. apply last_n_map. }
  rewrite Hsteps. split; [|split].
  - unfold last_n.
    rewrite <- (take_drop (length (map dr_step (log_decisions
                                     (history_log new_engine calls))) - 50)) in Hs.
    apply StronglySorted_app_1_r in Hs. exact Hs.
  - unfold last_n. apply Forall_drop.
    eapply List.Forall_impl; [|exact Hb]. cbn. fold N. intros s Hs'. lia.
  - intros Hall. rewrite (history_log_steps_answered calls Hall new_engine).
    cbn [new_engine decision_count]. fold N.
    unfold last_n. rewrite length_seq, skipn_seq. f_equal; lia.
Qed.

End Histories.

(** ** The loop of run_rl_trading_demo *)

Section Driver.
Context {ops : StrOps}.

Lemma make_decision_service_raises (e : Engine) (state : State) (env : CallEnv) :
  service_raises env ->
  exists made,
    make_decision e state env = (count_decision e, made)
    /\ forall d response prompt n, made <> Ok (FullResult d response prompt n).
Proof.
  intros Hraise. unfold make_decision.
  destruct (construct_decision_prompt (count_decision e) state) as [prompt|x].
  - specialize (Hraise "trading_decision" prompt trading_decision_kwargs).
    destruct (service env "trading_decision" prompt trading_decision_kwargs);
      [discriminate|].
    eexists. split; [reflexivity|].
    destruct (fallback_decision state); cbn; discriminate.
  - eexists. split; [reflexivity|discriminate].
Qed.

Lemma make_decision_full (e : Engine) (state : State) (env : CallEnv)
    (d : Decision) (response : string) (prompt : Prompt) (n : nat) :
  snd (make_decision e state env) = Ok (FullResult d response prompt n) ->
  fst (make_decision e state env)
  = update_history (count_decision e) state d response (clock env)
  /\ parse_decision response state = Ok d
  /\ n = S (decision_count e).
Proof.
  unfold make_decision.
  destruct (construct_decision_prompt (count_decision e) state) as [prompt'|x];
    [|discriminate].
  destruct (service env "trading_decision" prompt' trading_decision_kwargs)
    as [r|x].
  - destruct (parse_decision (text r) state) as [d'|x] eqn:Hparse;
      [|discriminate].
    cbn. intros Heq. injection Heq as <- <- <- <-. auto.
  - destruct (fallback_decision state); discriminate.
Qed.

(** The ways a step ends: nothing done, a call of [make_decision] that
    gave no full result, or one that gave a full result, which is
    executed. *)
Lemma trading_step_cases (e : Engine) (env : StepEnv) :
  ((step_node env = false \/ is_ok (step_case env) = false)
   /\ trading_step e env = (e, None))
  \/ exists raw,
       step_node env = true /\ step_case env = Ok raw
       /\ let made := make_decision e (state_of_raw raw) (step_call env) in
          ((forall d response prompt n,
              snd made <> Ok (FullResult d response prompt n))
           /\ trading_step e env = (fst made, None))
          \/ exists d response prompt n,
               snd made = Ok (FullResult d response prompt n)
               /\ trading_step e env
                  = (fst made,
                     Some (execute_decision env raw
                             (FullResult d response prompt n) d)).
Proof.
  unfold trading_step.
  destruct (step_node env); [|left; auto].
  destruct (step_case env) as [raw|x]; [|left; auto].
  right. exists raw. split; [reflexivity|]. split; [reflexivity|].
  destruct (make_decision e (state_of_raw raw) (step_call env))
    as [e1 [[d|d response prompt n]|x]]; cbn.
  - left. split; [discriminate|reflexivity].
  - right. eauto 10.
  - left. split; [discriminate|reflexivity].
Qed.

(** [state_features] needs the keys that the valuation needs. *)
Lemma state_features_ok (raw : RawState) (d : Decision) :
  is_ok (state_features raw d) = is_ok (calculate_portfolio_value raw).
Proof.
  unfold state_features, calculate_portfolio_value.
  destruct (raw_portfolio raw) as [p|]; cbn; [|reflexivity].
  destruct (raw_cash p); cbn; [|reflexivity].
  destruct (raw_positions p); cbn; [|reflexivity].
  destruct (raw_market_data raw); cbn; reflexivity.
Qed.

Lemma execute_decision_cases (env : StepEnv) (raw : RawState) (d : Decision)
    (response : string) (prompt : Prompt) (n : nat) :
  let r := execute_decision env raw (FullResult d response prompt n) d in
  (exists score features update_result,
     step_verify_score env (score_text d) = Ok score
     /\ state_features raw d = Ok features
     /\ step_train env features d (score * 10) = Ok update_result
     /\ r = StepExecuted raw d response score (score * 10) update_result
              (step_sandbox_id env))
  \/ (exists error,
        r = StepFailed raw error
        /\ (is_ok (step_verify_score env (score_text d)) = false
            \/ is_ok (calculate_portfolio_value raw) = false
            \/ exists score features,
                 step_verify_score env (score_text d) = Ok score
                 /\ state_features raw d = Ok features
                 /\ is_ok (step_train env features d (score * 10)) = false)).
Proof.
  unfold execute_decision.
  destruct (step_verify_score env (score_text d)) as [score|x] eqn:Hscore;
    cbn [bind]; [|right; eauto].
  pose proof (state_features_ok raw d) as Hkeys.
  destruct (state_features raw d) as [features|x] eqn:Hfeatures;
    cbn [bind]; [|right; eexists; split; [reflexivity|]; right; left; auto].
  destruct (step_train env features d (score * 10)) as [update_result|x]
    eqn:Htrain; cbn [bind result_subscript_llm_response].
  - left. eauto 10.
  - right. eexists. split; [reflexivity|]. right. right.
    exists score, features. rewrite Htrain. auto.
Qed.

Lemma run_steps_acc (envs : list StepEnv) (e : Engine)
    (acc : list StepResult) :
  fold_left
    (fun acc env =>
       let '(e, appended) := trading_step (fst acc) env in
       (e, match appended with
           | Some result => (snd acc ++ [result])%list
           | None => snd acc
           end))
    envs (e, acc)
  = (fst (run_steps e envs), (acc ++ snd (run_steps e envs))%list).
Proof.
  unfold run_steps. revert e acc.
  induction envs as [|env rest IH]; intros e acc; cbn [fold_left fst snd].
  - rewrite app_nil_r. reflexivity.
  - destruct (trading_step e env) as [e1 [result|]]; cbn [app].
    + rewrite (IH e1 (acc ++ [result])%list), (IH e1 [result]).
      cbn [fst snd]. rewrite <- app_assoc. reflexivity.
    + rewrite (IH e1 acc). reflexivity.
Qed.

Lemma run_steps_cons (e : Engine) (env : StepEnv) (rest : list StepEnv) :
  run_steps e (env :: rest)
  = (fst (run_steps (fst (trading_step e env)) rest),
     (match snd (trading_step e env) with
      | Some result => [result]
      | None => []
      end ++ snd (run_steps (fst (trading_step e env)) rest))%list).
Proof.
  unfold run_steps at 1. cbn [fold_left fst snd].
  destruct (trading_step e env) as [e1 [result|]]; cbn [fst snd app].
  - rewrite (run_steps_acc rest e1 [result]). reflexivity.
  - rewrite (run_steps_acc rest e1 []). reflexivity.
Qed.

Lemma trading_step_counts (e : Engine) (env : StepEnv) :
  let e' := fst (trading_step e env) in
  (decision_count e <= decision_count e' <= S (decision_count e))%nat
  /\ forall r, snd (trading_step e env) = Some r ->
       decision_count e' = S (decision_count e)
       /\ result_reward r = (result_score r * 10)%Q
       /\ In (result_action r) ["BUY"; "SELL"; "HOLD"].
Proof.
  destruct (trading_step_cases e env)
    as [[_ ->]|(raw & _ & _ & [[_ ->]|(d & response & prompt & n & Hmade & ->)])];
    cbn [fst snd].
  - split; [lia|discriminate].
  - destruct (make_decision_histories e (state_of_raw raw) (step_call env))
      as (-> & _). split; [lia|discriminate].
  - destruct (make_decision_histories e (state_of_raw raw) (step_call env))
      as (-> & _). split; [lia|].
    intros r Hr. injection Hr as <-. split; [reflexivity|].
    destruct (make_decision_full _ _ _ _ _ _ _ Hmade) as (_ & Hparse & _).
    destruct (parse_decision_shape _ _ _ Hparse) as (Hact & _).
    destruct (execute_decision_cases env raw d response prompt n)
      as [(score & features & upd & _ & _ & _ & ->)|(error & -> & _)];
      cbn [result_reward result_score result_action].
    + split; [reflexivity|]. cbn [In]. destruct Hact as [->| ->]; auto.
    + split; [reflexivity|]. cbn [In]. auto.
Qed.

(** X18.  When the generation service raises in every step, the loop
    records nothing: every step either does not reach [make_decision] or
    loses the fallback decision at [decision_result["decision"]], so the
    results are empty and the totals are zero, while the engine has
    counted every call it received and its histories are unchanged. *)
Theorem fallback_steps_unrecorded (e : Engine) (envs : list StepEnv) :
  Forall (fun env => service_raises (step_call env)) envs ->
  let e' := fst (run_steps e envs) in
  let results := snd (run_steps e envs) in
  results = []
  /\ decision_count e'
     = (decision_count e
        + length (List.filter (fun env => step_node env && is_ok (step_case env))
                    envs))%nat
  /\ decision_history e' = decision_history e
  /\ market_history e' = market_history e
  /\ portfolio_history e' = portfolio_history e
  /\ total_reward (demo_summary e' results) = 0%Q
  /\ avg_score (demo_summary e' results) = 0%Q.
Proof.
  intros Hall. cbv zeta.
  assert (Hrun : snd (run_steps e envs) = []
                 /\ decision_count (fst (run_steps e envs))
                    = (decision_count e
                       + length (List.filter
                                   (fun env => step_node env && is_ok (step_case env))
                                   envs))%nat
                 /\ decision_history (fst (run_steps e envs)) = decision_history e
                 /\ market_history (fst (run_steps e envs)) = market_history e
                 /\ portfolio_history (fst (run_steps e envs))
                    = portfolio_history e).
  { revert e. induction Hall as [|env rest Henv _ IH]; intros e.
    - cbn. repeat split. lia.
    - rewrite run_steps_cons. cbn [fst snd List.filter].
      destruct (IH (fst (trading_step e env))) as (Hres & Hc & Hd & Hm & Hp).
      rewrite Hres, Hc, Hd, Hm, Hp.
      destruct (trading_step_cases e env)
        as [[Hskip ->]
           |(raw & Hnode & Hcase
             & [[_ ->]|(d & response & prompt & n & Hmade & _)])];
        cbn [fst snd].
      + assert (step_node env && is_ok (step_case env) = false) as ->.
        { destruct Hskip as [-> | ->]; [reflexivity|apply andb_false_r]. }
        repeat split. 
      + rewrite Hnode, Hcase. cbn [is_ok andb length].
        destruct (make_decision_service_raises e (state_of_raw raw)
                    (step_call env) Henv) as (made & -> & _).
        cbn. repeat split. lia.
      + exfalso.
        destruct (make_decision_service_raises e (state_of_raw raw)
                    (step_call env) Henv) as (made & Heq & Hnot).
        rewrite Heq in Hmade. exact (Hnot _ _ _ _ Hmade). }
  destruct Hrun as (-> & Hc & Hd & Hm & Hp). cbn. auto 10.
Qed.

(** X19.  A step appends a result only after [make_decision] has gone
    through: the counter was incremented and the decision, BUY or SELL, is
    the last record of the decision history.  The result holds that
    decision with the reward ten times the score exactly when the
    verification returns, the state has its portfolio, cash, positions and
    market_data keys, and the trainer returns; otherwise it is the failure
    record, which reports HOLD with score and reward 0 although the
    history holds the decision. *)
Theorem step_result_shape (e : Engine) (env : StepEnv) (r : StepResult) :
  snd (trading_step e env) = Some r ->
  let e' := fst (trading_step e env) in
  exists raw d record,
    step_case env = Ok raw
    /\ decision_count e' = S (decision_count e)
    /\ last (decision_history e') = Some record
    /\ dr_decision record = d
    /\ dr_step record = decision_count e'
    /\ dr_market_data record = default [] (raw_market_data raw)
    /\ (action d = "BUY" \/ action d = "SELL")
    /\ ((exists score features update_result,
           step_verify_score env (score_text d) = Ok score
           /\ is_ok (calculate_portfolio_value raw) = true
           /\ state_features raw d = Ok features
           /\ step_train env features d (score * 10) = Ok update_result
           /\ r = StepExecuted raw d (dr_llm_response record) score (score * 10)
                    update_result (step_sandbox_id env))
        \/ (exists error,
              r = StepFailed raw error
              /\ result_action r = "HOLD"
              /\ result_score r = 0%Q /\ result_reward r = 0%Q
              /\ (is_ok (step_verify_score env (score_text d)) = false
                  \/ is_ok (calculate_portfolio_value raw) = false
                  \/ exists score features,
                       step_verify_score env (score_text d) = Ok score
                       /\ state_features raw d = Ok features
                       /\ is_ok (step_train env features d (score * 10))
                          = false))).
Proof.
  intros Hr.
  destruct (trading_step_cases e env)
    as [[_ Heq]|(raw & _ & Hcase & [[_ Heq]|(d & response & prompt & n & Hmade & Heq)])];
    rewrite Heq in Hr |- *; cbn [fst snd] in *; try discriminate.
  injection Hr as <-.
  destruct (make_decision_full _ _ _ _ _ _ _ Hmade) as (-> & Hparse & _).
  destruct (parse_decision_shape _ _ _ Hparse) as (Hact & _).
  exists raw, d.
  exists (decision_record (count_decision e) (state_of_raw raw) d response
            (clock (step_call env))).
  split; [exact Hcase|]. split; [reflexivity|].
  split; [apply last_append_capped; lia|].
  split; [reflexivity|]. split; [reflexivity|]. split; [reflexivity|].
  split; [exact Hact|].
  destruct (execute_decision_cases env raw d response prompt n)
    as [(score & features & upd & Hscore & Hfeat & Htrain & ->)
       |(error & -> & Hwhy)].
  - left. exists score, features, upd. split; [exact Hscore|].
    split; [|split; [exact Hfeat|split; [exact Htrain|reflexivity]]].
    rewrite <- (state_features_ok raw d), Hfeat. reflexivity.
  - right. exists error. repeat (split; [reflexivity|]). exact Hwhy.
Qed.

(** X20.  Over a whole run of the loop: there are at most as many results
    as calls counted by the engine, and at most as many calls as steps;
    every recorded action is BUY, SELL or HOLD, and every recorded reward
    is ten times its score. *)
Theorem run_steps_totals (e : Engine) (envs : list StepEnv) :
  let e' := fst (run_steps e envs) in
  let results := snd (run_steps e envs) in
  (decision_count e + length results <= decision_count e')%nat
  /\ (decision_count e' <= decision_count e + length envs)%nat
  /\ Forall (fun r => In (result_action r) ["BUY"; "SELL"; "HOLD"]) results
  /\ Forall (fun r => result_reward r = (result_score r * 10)%Q) results.
Proof.
  cbv zeta.
  assert (Hrun : (decision_count e + length (snd (run_steps e envs))
                  <= decision_count (fst (run_steps e envs)))%nat
                 /\ (decision_count (fst (run_steps e envs))
                     <= decision_count e + length envs)%nat
                 /\ Forall (fun r => In (result_action r) ["BUY"; "SELL"; "HOLD"]
                                     /\ result_reward r
                                        = (result_score r * 10)%Q)
                           (snd (run_steps e envs))).
  { revert e. induction envs as [|env rest IH]; intros e.
    - cbn. repeat split; try lia. constructor.
    - rewrite run_steps_cons. cbn [fst snd length].
      destruct (IH (fst (trading_step e env))) as (Hlo & Hhi & Hall).
      destruct (trading_step_counts e env) as (Hcount & Hres).
      destruct (snd (trading_step e env)) as [r|].
      + destruct (Hres r eq_refl) as (Hc & Hrew & Hact).
        cbn [app length]. repeat split; try lia.
        constructor; [auto|exact Hall].
      + cbn [app]. repeat split; try lia. exact Hall. }
  destruct Hrun as (Hlo & Hhi & Hall).
  split; [exact Hlo|]. split; [exact Hhi|].
  split; eapply List.Forall_impl; try exact Hall; cbn; tauto.
Qed.

End Driver.

(** ** The histories count the answered calls *)

Lemma ordinals_from_length {A} (tagged : list (A * bool)) (n : nat) :
  length (ordinals_from n (map snd tagged))
  = length (List.filter snd tagged).
Proof.
  revert n. induction tagged as [|[a tag] rest IH]; intros n; [reflexivity|].
  cbn [map snd ordinals_from List.filter].
  destruct tag; cbn [length]; rewrite IH; reflexivity.
Qed.

Section AnsweredCalls.
Context {ops : StrOps}.

Lemma call_records_data (e : Engine) (state : State) (env : CallEnv) :
  Forall (fun r => dr_step r = S (decision_count e)
                   /\ dr_market_data r = market_data state)
         (log_decisions (call_records e state env)).
Proof.
  unfold call_records.
  destruct (snd (make_decision e state env)) as [[d|d response prompt n]|x];
    cbn; repeat constructor.
Qed.

Lemma call_records_tagged (e : Engine) (t : State * CallEnv * bool) :
  tagged_as t ->
  let records := log_decisions (call_records e (fst (fst t)) (snd (fst t))) in
  map dr_step records = (if snd t then [S (decision_count e)] else [])
  /\ map dr_market_data records
     = (if snd t then [market_data (fst (fst t))] else []).
Proof.
  destruct t as [[state env] tag]. unfold tagged_as. cbn [fst snd].
  destruct tag; intros Htag.
  - pose proof (call_records_answered e (state, env) Htag) as Hlen.
    pose proof (call_records_data e state env) as Hdata.
    cbn [fst snd] in Hlen.
    destruct (call_records e state env) as [|r [|r' rs]];
      cbn in Hlen; try discriminate.
    apply Forall_inv in Hdata. cbn in Hdata. destruct Hdata as [Hstep Hmd].
    cbn. rewrite Hstep, Hmd. auto.
  - destruct (make_decision_service_raises e state env Htag)
      as (made & Hmake & Hnot).
    unfold call_records. rewrite Hmake. cbn [snd].
    destruct made as [[d|d response prompt n]|x]; cbn; auto.
    exfalso. exact (Hnot _ _ _ _ eq_refl).
Qed.

Lemma history_log_tagged (tagged : list (State * CallEnv * bool)) :
  Forall tagged_as tagged ->
  forall e,
    let records := log_decisions (history_log e (map fst tagged)) in
    map dr_step records
    = ordinals_from (S (decision_count e)) (map snd tagged)
    /\ map dr_market_data records
       = map (fun t => market_data (fst (fst t))) (List.filter snd tagged).
Proof.
  induction 1 as [|t rest Ht _ IH]; intros e; [split; reflexivity|].
  cbn [map history_log ordinals_from List.filter].
  destruct (call_records_tagged e t Ht) as [Hstep Hmd].
  destruct (make_decision_histories e (fst (fst t)) (snd (fst t)))
    as (Hcount & _).
  destruct (IH (fst (make_decision e (fst (fst t)) (snd (fst t)))))
    as [Hsteps Hmds].
  rewrite Hcount in Hsteps.
  unfold log_decisions in *. rewrite !map_app, Hstep, Hmd, Hsteps, Hmds.
  destruct (snd t); split; reflexivity.
Qed.

(** C2.  What the code does against the claim.  In a run of N calls on a
    new engine in which the generation service answers some calls and
    raises in the others, every call is counted, but only the answered
    calls are recorded: with A of them the decision history holds
    min(A, 50) records and the market and portfolio histories min(A, 30),
    which are the records of the last answered calls in the order of the
    calls, and fewer than the min(N, 50) of the claim as soon as one
    service raised and fewer than 50 answered. *)
Theorem history_holds_answered_calls
    (tagged : list (State * CallEnv * bool)) :
  Forall tagged_as tagged ->
  let calls := map fst tagged in
  let e' := run new_engine calls in
  let N := length calls in
  let served := List.filter snd tagged in
  let A := length served in
  let ordinals := ordinals_from 1 (map snd tagged) in
  decision_count e' = N
  /\ length (decision_history e') = Nat.min A 50
  /\ length (market_history e') = Nat.min A 30
  /\ length (portfolio_history e') = Nat.min A 30
  /\ map dr_step (decision_history e') = last_n 50 ordinals
  /\ map mr_step (market_history e') = last_n 30 ordinals
  /\ map pr_step (portfolio_history e') = last_n 30 ordinals
  /\ map dr_market_data (decision_history e')
     = last_n 50 (map (fun t => market_data (fst (fst t))) served)
  /\ ((A < N)%nat -> (A < 50)%nat ->
      (length (decision_history e') < Nat.min N 50)%nat).
Proof.
  intros Hall calls e' N served A ordinals.
  destruct (history_cap_bounds calls) as (Hd & Hm & Hp).
  fold e' in Hd, Hm, Hp.
  destruct (history_log_views calls new_engine) as (Hmv & Hpv).
  destruct (history_log_tagged tagged Hall new_engine) as (Hsteps & Hmds).
  fold calls in Hsteps, Hmds.
  cbn [new_engine decision_count] in Hsteps. fold ordinals in Hsteps.
  fold served in Hmds.
  destruct (run_histories calls new_engine) as (Hcount & _).
  fold e' in Hcount. cbn [new_engine decision_count] in Hcount.
  assert (Hlen : length ordinals = A).
  { unfold ordinals, A, served. apply ordinals_from_length. }
  assert (Hdsteps : map dr_step (decision_history e') = last_n 50 ordinals).
  { rewrite Hd, <- last_n_map, Hsteps. reflexivity. }
  assert (Hmsteps : map mr_step (market_history e') = last_n 30 ordinals).
  { rewrite Hm, Hmv, <- last_n_map, map_map, <- Hsteps. reflexivity. }
  assert (Hpsteps : map pr_step (portfolio_history e') = last_n 30 ordinals).
  { rewrite Hp, Hpv, <- last_n_map, map_map, <- Hsteps. reflexivity. }
  assert (Hdlen : length (decision_history e') = Nat.min A 50).
  { rewrite <- (length_map dr_step), Hdsteps, last_n_length, Hlen. lia. }
  split; [exact Hcount|]. split; [exact Hdlen|].
  split.
  { rewrite <- (length_map mr_step), Hmsteps, last_n_length, Hlen. lia. }
  split.
  { rewrite <- (length_map pr_step), Hpsteps, last_n_length, Hlen. lia. }
  split; [exact Hdsteps|]. split; [exact Hmsteps|]. split; [exact Hpsteps|].
  split.
  { rewrite Hd, <- last_n_map, Hmds. reflexivity. }
  intros HA H50. rewrite Hdlen. lia.
Qed.

End AnsweredCalls.

(** * The properties at sample inputs *)

Import Sample.

(** C5 at cash 1000 and ten X. *)
Lemma portfolio_total_value_witness :
  calculate_total_portfolio_value x_state_priced = 1050%Q
  /\ calculate_total_portfolio_value x_state_unpriced = 1000%Q.
Proof.
  split.
  - destruct (portfolio_total_value x_state_priced) as [_ H].
    destruct (H eq_refl eq_refl) as [Hpriced _].
    apply (Hpriced (quote 4 5)); reflexivity.
  - destruct (portfolio_total_value x_state_unpriced) as [_ H].
    destruct (H eq_refl eq_refl) as [_ Hunpriced].
    apply Hunpriced. reflexivity.
Defined.

(** C7 at the AAPL scenario: the fallback call leaves the new engine's
    histories empty. *)
Lemma fallback_call_skips_history_witness :
  let e' := fst (make_decision new_engine aapl_state raising_env) in
  decision_count e' = 1%nat
  /\ decision_history e' = []
  /\ market_history e' = []
  /\ portfolio_history e' = [].
Proof.
  apply (fallback_call_skips_history new_engine aapl_state raising_env).
  - reflexivity.
  - intros node_id prompt kwargs. reflexivity.
Defined.

(** C1 at [{"symbols": []}]. *)
Lemma fallback_empty_symbols_raises_witness :
  snd (make_decision new_engine no_symbols_state raising_env)
  = Raise (mkExc IndexError "list index out of range").
Proof.
  apply (fallback_empty_symbols_raises new_engine no_symbols_state raising_env).
  - reflexivity.
  - intros node_id prompt kwargs. reflexivity.
  - reflexivity.
  - reflexivity.
Defined.

(** C4 at the scenario's state. *)
Lemma end_to_end_scenario_witness :
  exists decision,
    snd (make_decision new_engine aapl_state raising_env)
    = Ok (FallbackResult decision)
    /\ action decision = "BUY"
    /\ symbol decision = Some "AAPL"
    /\ amount decision = 100%Q.
Proof.
  apply (end_to_end_scenario new_engine aapl_state raising_env (quote 100 105)).
  - reflexivity.
  - intros node_id prompt kwargs. reflexivity.
  - reflexivity.
  - reflexivity.
  - reflexivity.
  - reflexivity.
  - reflexivity.
Defined.

(** C3: a text that says BUY AAPL and not to sell is parsed as SELL,
    because the Chinese sell keyword is looked for before BUY. *)
Lemma parse_buy_priority_counterexample :
  let response := "BUY AAPL 100 shares, 不要卖出" in
  str_in "BUY" (str_upper (str_strip response)) = true
  /\ first_symbol_in (str_upper (str_strip response)) default_symbols
     = Some "AAPL"
  /\ exc_map action (parse_decision response empty_state) = Ok "SELL".
Proof. vm_compute. auto. Qed.

(** C3 as amended, at a text with 买入 and a later SELL (AAPL is listed
    before MSFT), at a lower-case text, and at a text whose number is
    written in full-width digits. *)
Lemma parse_buy_priority_witness :
  parse_decision "买入 MSFT 12.5 shares, SELL AAPL later" empty_state
  = Ok (keyword_decision "BUY" "AAPL" "买入 MSFT 12.5 shares, SELL AAPL later")
  /\ parse_decision " buy googl now, sell nothing " empty_state
     = Ok (keyword_decision "BUY" "GOOGL" "buy googl now, sell nothing")
  /\ extract_amount "买入 MSFT 12.5 shares, SELL AAPL later" = (25 # 2)%Q
  /\ extract_amount "buy googl now, sell nothing" = 100%Q
  /\ extract_amount "BUY AAPL １２ shares" = 12%Q.
Proof.
  split; [|split; [|split; [|split]]].
  - destruct (parse_buy_priority "买入 MSFT 12.5 shares, SELL AAPL later"
                empty_state) as (H & _).
    destruct (H eq_refl "AAPL" eq_refl) as (d & Hd & _).
    rewrite Hd. vm_compute in Hd. injection Hd as <-. vm_compute. reflexivity.
  - destruct (parse_buy_priority " buy googl now, sell nothing " empty_state)
      as (_ & H & _).
    destruct (H (or_intror (conj eq_refl eq_refl)) eq_refl "GOOGL" eq_refl)
      as (d & Hd & _).
    rewrite Hd. vm_compute in Hd. injection Hd as <-. vm_compute. reflexivity.
  - destruct (parse_buy_priority "买入 MSFT 12.5 shares, SELL AAPL later"
                empty_state) as (_ & _ & _ & H).
    destruct (H (utf8_decode "买入 MSFT ")
                (utf8_decode "12.5 shares, SELL AAPL later"))
      as [Hamount _]; [vm_compute; reflexivity..|].
    refine (eq_trans _ (eq_trans Hamount _)); vm_compute; reflexivity.
  - destruct (parse_buy_priority " buy googl now, sell nothing " empty_state)
      as (_ & _ & H & _).
    refine (eq_trans _ (H _)); vm_compute; reflexivity.
  - destruct (parse_buy_priority "BUY AAPL １２ shares" empty_state)
      as (_ & _ & _ & H).
    destruct (H (utf8_decode "BUY AAPL ") (utf8_decode "１２ shares"))
      as [Hamount _]; [vm_compute; reflexivity..|].
    refine (eq_trans _ (eq_trans Hamount _)); vm_compute; reflexivity.
Defined.

(** C6: a response that names zero shares is recorded with amount 0, and
    a snapshot of an unconfigured symbol is recorded with that symbol. *)
Lemma decision_record_counterexample :
  (exists record,
     last (decision_history
             (fst (make_decision new_engine empty_state
                     (answering_env "BUY AAPL 0 shares")))) = Some record
     /\ action (dr_decision record) = "BUY"
     /\ amount (dr_decision record) = 0%Q
     /\ ~ (0 < amount (dr_decision record))%Q)
  /\ (exists record,
        last (decision_history
                (fst (make_decision new_engine xyz_state
                        (answering_env "no clear signal")))) = Some record
        /\ symbol (dr_decision record) = Some "XYZ"
        /\ ~ In "XYZ" (state_symbols xyz_state)).
Proof.
  split.
  - eexists. split; [vm_compute; reflexivity|]. cbn.
    repeat split; try reflexivity. intros H. discriminate H.
  - eexists. split; [vm_compute; reflexivity|]. cbn.
    split; [reflexivity|]. intros [H|[]]. discriminate H.
Qed.

(** C6 as amended, at a well-formed response, and at a response without
    keyword on a snapshot of two symbols. *)
Lemma decision_record_invariant_witness :
  (exists d,
     exc_map result_decision
       (snd (make_decision new_engine aapl_state
               (answering_env "SELL AAPL 75 shares"))) = Ok d
     /\ (action d = "BUY" \/ action d = "SELL")
     /\ (0 <= amount d)%Q
     /\ amount d = extract_amount "SELL AAPL 75 shares"
     /\ exists s, symbol d = Some s /\ s <> EmptyString)
  /\ exists d s,
       exc_map result_decision
         (snd (make_decision new_engine two_symbol_state
                 (answering_env "no clear signal"))) = Ok d
       /\ amount d = 100%Q
       /\ symbol d = Some s
       /\ record_symbol_source two_symbol_state "no clear signal" s.
Proof.
  split.
  - destruct (make_decision new_engine aapl_state
                (answering_env "SELL AAPL 75 shares"))
      as [e' [[d|d response prompt n]|x]] eqn:E.
    + vm_compute in E. discriminate E.
    + assert (Hresponse : response = "SELL AAPL 75 shares").
      { vm_compute in E. injection E as _ _ Hr _ _. symmetry. exact Hr. }
      destruct (decision_record_invariant _ _ _ _ _ _ _ _ E)
        as (_ & Hact & Hamt & _ & Hnum & s & Hs & _ & Hne).
      exists d. split; [reflexivity|]. split; [exact Hact|].
      split; [exact Hamt|]. split.
      * subst response.
        refine (eq_trans (Hnum _ _) _);
          [vm_compute; discriminate|vm_compute; reflexivity
          |vm_compute; reflexivity].
      * exists s. split; [exact Hs|]. apply Hne.
        -- repeat constructor; discriminate.
        -- repeat constructor; discriminate.
    + vm_compute in E. discriminate E.
  - destruct (make_decision new_engine two_symbol_state
                (answering_env "no clear signal"))
      as [e' [[d|d response prompt n]|x]] eqn:E.
    + vm_compute in E. discriminate E.
    + assert (Hresponse : response = "no clear signal").
      { vm_compute in E. injection E as _ _ Hr _ _. symmetry. exact Hr. }
      destruct (decision_record_invariant _ _ _ _ _ _ _ _ E)
        as (_ & _ & _ & Hdefault & _ & s & Hs & Hsrc & _).
      subst response. exists d, s. split; [reflexivity|].
      split; [apply Hdefault; vm_compute; reflexivity|].
      split; [exact Hs|exact Hsrc].
    + vm_compute in E. discriminate E.
Defined.

(** C8 at two states that differ in portfolio and price history, and two
    different texts without keywords. *)
Lemma score_cascade_deterministic_witness :
  fallback_decision aapl_state = fallback_decision aapl_state_held
  /\ parse_decision "the market looks calm" aapl_state
     = parse_decision "no clear signal" aapl_state_held.
Proof.
  destruct (score_cascade_deterministic aapl_state aapl_state_held
              eq_refl eq_refl eq_refl) as [Hf Hp].
  split; [exact Hf|]. apply Hp; vm_compute; reflexivity.
Defined.

(** C10: before the model is loaded, a load that fails makes [generate]
    raise. *)
Lemma hf_generate_total_counterexample :
  hf_generate (new_hf (broken_runtime false)) "Buy or sell?" ∅
  = (new_hf (broken_runtime false), Raise load_error).
Proof. reflexivity. Qed.

(** C10 as amended: with a model that loads, a tokenizer that raises
    comes back as a failure response; with one that does not load, the
    error of loading comes out. *)
Lemma hf_generate_total_witness :
  (exists response,
     snd (hf_generate (new_hf (broken_runtime true)) "Buy or sell?" ∅)
     = Ok response
     /\ (is_failure_response response
         \/ generation_went_through (new_hf (broken_runtime true))
              "Buy or sell?" response))
  /\ hf_generate (new_hf (broken_runtime false)) "Buy or sell?" ∅
     = (new_hf (broken_runtime false), Raise load_error).
Proof.
  split.
  - destruct (hf_generate_total (new_hf (broken_runtime true))
                "Buy or sell?" ∅) as [H _].
    destruct (H (or_intror eq_refl)) as [Hresp _]. exact Hresp.
  - destruct (hf_generate_total (new_hf (broken_runtime false))
                "Buy or sell?" ∅) as [_ H].
    destruct (H load_error eq_refl eq_refl) as [Hraise _]. exact Hraise.
Defined.

(** Eviction: after 55 answered calls the decision history holds the
    records of the calls 6 to 55. *)
Example eviction_scenario :
  map dr_step
    (decision_history
       (run new_engine
          (List.repeat (aapl_state, answering_env "BUY AAPL 10 shares") 55)))
  = seq 6 50.
Proof. vm_compute. reflexivity. Qed.

(** C9 on a manager of a [MockLLM], which reports the sampling parameters
    it was called with in its metadata: the call's temperature replaces
    the role's, the role's reasoning type stays, and an unknown role
    raises. *)
Example generate_for_node_mock :
  let history :=
    [OpRegister "analyst"
       (Some (<["temperature" := VNum 0.7]>
                (<["reasoning_type" := VStr "strategic"]> ∅))) 0] in
  let mgr := manager_after new_mock history in
  let call : Kwargs := <["temperature" := VNum 0.2]> ∅ in
  (exists response,
     snd (generate_for_node mgr "analyst" "hello" call 1) = Ok response
     /\ metadata response !! "temperature" = Some (VNum 0.2)
     /\ metadata response !! "reasoning_type" = Some (VStr "strategic"))
  /\ is_ok (snd (generate_for_node mgr "stranger" "hello" call 1)) = false.
Proof.
  intros history mgr call. split.
  - eexists. split; [vm_compute; reflexivity|].
    split; vm_compute; reflexivity.
  - vm_compute. reflexivity.
Qed.

(** X1 at a new [MockLLM] and at one after three updates. *)
Lemma mock_confidence_bounds_witness :
  exists response response2,
    snd (mock_generate new_mock "Buy or sell?" ∅) = Ok response
    /\ snd (mock_generate (trained_mock 3) "Buy or sell?" ∅) = Ok response2
    /\ (0.6 <= confidence response)%Q
    /\ (confidence response <= confidence response2)%Q.
Proof.
  destruct (mock_confidence_bounds new_mock "Buy or sell?" ∅)
    as (response & Hr & Hlo & _ & Hmono).
  exists response. eexists. split; [exact Hr|]. split; [reflexivity|].
  split; [exact Hlo|].
  apply (Hmono (trained_mock 3) ∅); [cbn; lia|reflexivity].
Defined.

(** X2: a gradient for ["w"] and one for an unknown name leave ["b"] as
    it was and the length of ["w"] at three. *)
Lemma mock_update_parameters_shape_witness :
  let out := mock_update_parameters new_mock small_parameters small_gradients
               0.1%Q in
  mock_update_count (fst out) = 1%nat
  /\ snd out !! "b" = Some [5%Q]
  /\ option_map (@length Q) (snd out !! "w") = Some 3%nat.
Proof.
  pose proof (mock_update_parameters_shape new_mock small_parameters
                small_gradients 0.1%Q) as H.
  destruct (mock_update_parameters new_mock small_parameters small_gradients
              0.1%Q) as [m' parameters'].
  destruct H as (Hcount & _ & Hlen & Hkeep).
  split; [exact Hcount|]. split.
  - cbn [snd]. rewrite Hkeep; [reflexivity|].
    cbn. intros [H|[H|[]]]; discriminate H.
  - cbn [snd]. rewrite Hlen. reflexivity.
Defined.

(** X3 at a runtime that works: the response is a generation. *)
Lemma hf_confidence_marks_failure_witness :
  exists r,
    snd (hf_generate (new_hf working_runtime) "Buy or sell?" ∅) = Ok r
    /\ (0.7 <= confidence r)%Q
    /\ metadata r !! "error" = None.
Proof.
  destruct (snd (hf_generate (new_hf working_runtime) "Buy or sell?" ∅))
    as [r|x] eqn:E; [|vm_compute in E; discriminate E].
  exists r. split; [reflexivity|].
  destruct (hf_confidence_marks_failure (new_hf working_runtime)
              "Buy or sell?" ∅ r E)
    as [[H _]|(Hlo & _ & Herr & _)].
  - vm_compute in E. injection E as <-. discriminate H.
  - split; [exact Hlo|exact Herr].
Defined.

(** X4: the first call on a runtime that works loads the model and
    counts one generation; on a runtime that does not load, the call
    raises and counts none. *)
Lemma hf_generate_state_witness :
  let hf' := fst (hf_generate (new_hf working_runtime) "Buy or sell?" ∅) in
  let failed :=
    fst (hf_generate (new_hf (broken_runtime false)) "Buy or sell?" ∅) in
  hf_model_loaded hf' = true
  /\ hf_generation_count hf' = 1%nat
  /\ is_ok (snd (hf_generate hf' "And now?" ∅)) = true
  /\ hf_model_loaded failed = false
  /\ hf_generation_count failed = 0%nat.
Proof.
  destruct (hf_generate_state (new_hf working_runtime) "Buy or sell?" ∅)
    as (H & _ & _).
  destruct (H eq_refl) as (Hloaded & Hcount & _ & _ & _ & Hlater).
  destruct (hf_generate_state (new_hf (broken_runtime false))
              "Buy or sell?" ∅) as (_ & Hfail & _).
  destruct (Hfail eq_refl) as (_ & Hunloaded & Hnone & _).
  split; [exact Hloaded|]. split; [exact Hcount|].
  split; [apply Hlater|]. split; [exact Hunloaded|exact Hnone].
Defined.

(** X5: on the analyst's manager a stranger gets a [ValueError]. *)
Lemma manager_raises_only_witness :
  exists e,
    snd (generate_for_node analyst_manager "stranger" "hello" ∅ 1) = Raise e
    /\ exc_type e = ValueError.
Proof.
  eexists. split; [reflexivity|].
  destruct (manager_raises_only new_mock analyst_history "stranger" "hello"
              ∅ 1) as (_ & _ & H).
  assert (Hhistory : Forall op_binds analyst_history).
  { repeat constructor. }
  assert (Hkwargs : binds_generate (∅ : Kwargs)).
  { split; apply lookup_empty. }
  destruct (H Hhistory Hkwargs _ eq_refl)
    as [[_ Htype]|(entry & Hreg & _)]; [exact Htype|].
  vm_compute in Hreg. discriminate Hreg.
Defined.

(** X6: one answered generation for the analyst. *)
Lemma generate_for_node_accounting_witness :
  let mgr' := fst (generate_for_node analyst_manager "analyst" "hello" ∅ 1) in
  registered_nodes mgr' = registered_nodes analyst_manager
  /\ total_generations mgr' = 1%nat
  /\ option_map usage_generation_count (node_usage_stats mgr' !! "analyst")
     = Some 1%nat.
Proof.
  pose proof (generate_for_node_accounting analyst_manager "analyst" "hello"
                ∅ 1 analyst_entry fresh_usage eq_refl eq_refl) as H.
  cbv zeta in H. destruct H as (_ & Hreg & _ & H).
  destruct (snd (generate (llm analyst_manager) "hello"
                   (merge_kwargs (config analyst_entry) ∅)))
    as [response|x] eqn:E.
  - destruct H as (Htotal & Husage & _).
    split; [exact Hreg|]. split; [exact Htotal|].
    cbv zeta. rewrite Husage. reflexivity.
  - vm_compute in E. discriminate E.
Defined.

(** X7: the analyst's response is tagged with the role. *)
Lemma generate_for_node_tags_witness :
  exists response',
    snd (generate_for_node analyst_manager "analyst" "hello" ∅ 1)
    = Ok response'
    /\ metadata response' !! "node_id" = Some (VStr "analyst")
    /\ metadata response' !! "global_generation_count" = Some (VNat 1).
Proof.
  destruct (generate (llm analyst_manager) "hello"
              (merge_kwargs (config analyst_entry) ∅))
    as [l' [response|x]] eqn:E; [|vm_compute in E; discriminate E].
  destruct (generate_for_node_tags analyst_manager "analyst" "hello" ∅ 1
              analyst_entry fresh_usage l' response eq_refl eq_refl E)
    as (response' & Hr & _ & _ & _ & _ & Htag).
  exists response'. split; [exact Hr|].
  assert (Hmeta : metadata response <> ∅).
  { intros Hempty. vm_compute in E. injection E as _ Hresponse.
    rewrite <- Hresponse in Hempty. vm_compute in Hempty.
    discriminate Hempty. }
  destruct (Htag Hmeta) as (Hnode & Hcount & _). split; [exact Hnode|exact Hcount].
Defined.

(** X8: registering a trader leaves the analyst's statistics. *)
Lemma register_resets_stats_witness :
  get_node_stats (register_node analyst_manager "trader" None 5) "analyst"
  = get_node_stats analyst_manager "analyst".
Proof.
  destruct (register_resets_stats analyst_manager "trader" None 5)
    as (_ & _ & H).
  apply H. discriminate.
Defined.

(** X9 at a snapshot of one symbol. *)
Lemma volatility_bounds_witness : calculate_volatility aapl_state = 0.5%Q.
Proof.
  destruct (volatility_bounds aapl_state) as (_ & _ & H & _).
  apply H. cbn. lia.
Defined.

(** X10 at cash 1000 and ten X at close 5. *)
Lemma portfolio_value_agrees_witness :
  exists v,
    calculate_portfolio_value x_raw_state = Ok v
    /\ v = calculate_total_portfolio_value (state_of_raw x_raw_state).
Proof.
  eexists. split; [reflexivity|].
  destruct (portfolio_value_agrees x_raw_state) as (_ & H & _).
  apply H. reflexivity.
Defined.

(** X11 at a price history with a zero close and at a summary without
    its average volume: the call raises although the service would
    answer. *)
Lemma prompt_guard_witness :
  (exists x,
     make_decision new_engine zero_close_state (answering_env "BUY AAPL")
     = (count_decision new_engine, Raise x))
  /\ (exists x,
        make_decision new_engine incomplete_summary_state
          (answering_env "BUY AAPL")
        = (count_decision new_engine, Raise x)).
Proof.
  split.
  - destruct (prompt_guard zero_close_state) as [_ H].
    apply H. vm_compute. reflexivity.
  - destruct (prompt_guard incomplete_summary_state) as [_ H].
    apply H. vm_compute. reflexivity.
Defined.

(** X12 at a new engine. *)
Lemma prompt_sections_bounded_witness :
  exists p,
    construct_decision_prompt new_engine aapl_state_held = Ok p
    /\ decision_history_summary p = []
    /\ length (market_summary p) = 1%nat.
Proof.
  destruct (construct_decision_prompt new_engine aapl_state_held) as [p|x]
    eqn:E; [|vm_compute in E; discriminate E].
  destruct (prompt_sections_bounded new_engine aapl_state_held p E)
    as (_ & _ & _ & Hnone & _ & Hmarket & _).
  exists p. split; [reflexivity|]. split; [apply Hnone; reflexivity|exact Hmarket].
Defined.

(** X13 at a configured symbol without a close. *)
Lemma parse_decision_raises_iff_witness :
  make_decision new_engine unclosed_state (answering_env "no clear signal")
  = (count_decision new_engine, Raise (mkExc KeyError "close")).
Proof.
  destruct (parse_decision_raises_iff "no clear signal" unclosed_state)
    as (_ & _ & H).
  eapply H.
  - reflexivity.
  - intros node_id prompt kwargs. reflexivity.
  - reflexivity.
  - vm_compute. reflexivity.
Defined.

(** X14 at [{"symbols": []}] and at the two-symbol snapshot. *)
Lemma fallback_decision_guarantee_witness :
  is_ok (fallback_decision no_symbols_state) = false
  /\ exists d s,
       fallback_decision two_symbol_state = Ok d
       /\ symbol d = Some s
       /\ In s (dict_keys (market_data two_symbol_state)).
Proof.
  split.
  - destruct (fallback_decision_guarantee no_symbols_state) as [[_ H] _].
    apply H. split; reflexivity.
  - destruct (fallback_decision two_symbol_state) as [d|x] eqn:E;
      [|vm_compute in E; discriminate E].
    destruct (fallback_decision_guarantee two_symbol_state) as [_ H].
    destruct (H d E) as (_ & _ & s & Hs & Hin & _).
    exists d, s. split; [reflexivity|]. split; [exact Hs|].
    apply Hin. discriminate.
Defined.

(** X15 at AAPL with a gain of 5 and MSFT with a gain of 10. *)
Lemma no_indicators_buys_best_gain_witness :
  fallback_decision two_symbol_state
  = Ok {| action := "BUY"; symbol := Some "MSFT"; amount := 100;
          reasoning := ReasonFallbackGain "MSFT" |}
  /\ parse_by_market two_symbol_state
     = Ok {| action := "BUY"; symbol := Some "MSFT"; amount := 100;
             reasoning := ReasonForced "MSFT" |}.
Proof.
  destruct (no_indicators_buys_best_gain two_symbol_state "AAPL" ["MSFT"]
              eq_refl eq_refl) as (Hfallback & Hparse & _).
  split; [exact Hfallback|]. apply Hparse.
  intros (s & data & _ & Hget & Hclose). cbn in Hget.
  destruct (String.eqb s "AAPL"); [injection Hget as <-; discriminate Hclose|].
  destruct (String.eqb s "MSFT"); [injection Hget as <-; discriminate Hclose|].
  discriminate Hget.
Defined.

Lemma aapl_call_answered (answer : string) :
  answered (aapl_state, answering_env answer).
Proof.
  split; [reflexivity|]. split; [reflexivity|].
  intros s data Hget. cbn in Hget.
  destruct (String.eqb s "AAPL"); [|discriminate Hget].
  injection Hget as <-. discriminate.
Qed.

(** C2 at three calls of which only the second is answered: three calls
    counted, one record, of the second call. *)
Lemma history_holds_answered_calls_witness :
  let calls := [(aapl_state, raising_env);
                (aapl_state, answering_env "BUY AAPL 10 shares");
                (aapl_state, raising_env)] in
  let e' := run new_engine calls in
  decision_count e' = 3%nat
  /\ map dr_step (decision_history e') = [2%nat]
  /\ map mr_step (market_history e') = [2%nat]
  /\ map pr_step (portfolio_history e') = [2%nat]
  /\ (length (decision_history e') < Nat.min 3 50)%nat.
Proof.
  destruct (history_holds_answered_calls
              [(aapl_state, raising_env, false);
               (aapl_state, answering_env "BUY AAPL 10 shares", true);
               (aapl_state, raising_env, false)])
    as (Hcount & _ & _ & _ & Hd & Hm & Hp & _ & Hfewer).
  - constructor; [intros node_id prompt kwargs; reflexivity|].
    constructor; [apply aapl_call_answered|].
    constructor; [intros node_id prompt kwargs; reflexivity|constructor].
  - split; [exact Hcount|]. split; [exact Hd|]. split; [exact Hm|].
    split; [exact Hp|]. apply Hfewer; cbn; lia.
Defined.

(** X17 at three answered calls. *)
Lemma decision_history_ordinals_witness :
  map dr_step
    (decision_history
       (run new_engine
          (List.repeat (aapl_state, answering_env "BUY AAPL 10 shares") 3)))
  = [1; 2; 3]%nat.
Proof.
  destruct (decision_history_ordinals
              (List.repeat (aapl_state, answering_env "BUY AAPL 10 shares") 3))
    as (_ & _ & H).
  apply H. repeat constructor; apply aapl_call_answered.
Defined.

(** X18 at two steps with a service that raises: two calls counted, no
    result. *)
Lemma fallback_steps_unrecorded_witness :
  let out := run_steps new_engine [a_step raising_env; a_step raising_env] in
  snd out = [] /\ decision_count (fst out) = 2%nat.
Proof.
  destruct (fallback_steps_unrecorded new_engine
              [a_step raising_env; a_step raising_env]) as (Hnone & Hcount & _).
  - repeat constructor; intros node_id prompt kwargs; reflexivity.
  - split; [exact Hnone|exact Hcount].
Defined.

(** X19 at a step whose service answers. *)
Lemma step_result_shape_witness :
  let env := a_step (answering_env "BUY X 10 shares") in
  exists r record,
    snd (trading_step new_engine env) = Some r
    /\ last (decision_history (fst (trading_step new_engine env))) = Some record
    /\ dr_step record = 1%nat
    /\ (action (dr_decision record) = "BUY"
        \/ action (dr_decision record) = "SELL").
Proof.
  intros env.
  destruct (snd (trading_step new_engine env)) as [r|] eqn:E;
    [|vm_compute in E; discriminate E].
  destruct (step_result_shape new_engine env r E)
    as (raw & d & record & _ & Hcount & Hlast & Hd & Hstep & _ & Hact & _).
  exists r, record. split; [reflexivity|]. split; [exact Hlast|].
  split; [rewrite Hstep; exact Hcount|]. rewrite Hd. exact Hact.
Defined.

(** X21: an update before the first load is lost; one after it is
    counted and does not lower the confidence. *)
Lemma hf_update_parameters_confidence_witness :
  let loaded := fst (hf_generate (new_hf working_runtime) "Buy or sell?" ∅) in
  hf_generate (hf_update_parameters (new_hf working_runtime)) "And now?" ∅
  = hf_generate (new_hf working_runtime) "And now?" ∅
  /\ exists r r',
       snd (hf_generate loaded "And now?" ∅) = Ok r
       /\ snd (hf_generate (hf_update_parameters loaded) "And now?" ∅) = Ok r'
       /\ (confidence r <= confidence r')%Q.
Proof.
  intros loaded. split.
  - destruct (hf_update_parameters_confidence (new_hf working_runtime)
                "And now?" ∅) as [H _].
    apply H. reflexivity.
  - destruct (hf_update_parameters_confidence loaded "And now?" ∅) as [_ H].
    destruct (H eq_refl) as (r & r' & Hr & Hr' & _ & Hle & _).
    exists r, r'. split; [exact Hr|]. split; [exact Hr'|exact Hle].
Defined.

(** X20 at an answered step between two steps whose service raises: one
    result of three calls, with a reward of 5 for its score of 0.5. *)
Example run_steps_scenario :
  let out := run_steps new_engine
               [a_step raising_env; a_step (answering_env "BUY X 10 shares");
                a_step raising_env] in
  map result_action (snd out) = ["BUY"]
  /\ decision_count (fst out) = 3%nat
  /\ Forall (fun r => (result_score r == 0.5)%Q /\ (result_reward r == 5)%Q)
            (snd out).
Proof. vm_compute. repeat constructor. Qed.
